(** * Conversational scheduling engine: a shallow embedding

    The development follows the bot's main script: the yes/no sentiment
    classifier, the temporal resolver, the conflict detector, the smart
    session manager and the conversation handlers.  JavaScript strings are
    sequences of UTF-16 code units, instants are milliseconds since the epoch,
    files hold parsed JSON trees, and handlers are state transformers over an
    explicit world (session map, save queue, files, outbox). *)

From Stdlib Require Import String Ascii ZArith List Bool Lia PrimFloat.
Import ListNotations.
Open Scope Z_scope.
Set Warnings "-register-all".

(* ================================================================== *)
(** * Part I. Definitions                                              *)
(* ================================================================== *)

(** ** JavaScript strings *)

(** A string is its list of UTF-16 code units. *)
Definition JsString := list Z.

Definition js (s : string) : JsString :=
  map (fun a => Z.of_N (N_of_ascii a)) (list_ascii_of_string s).
Arguments js s%_string.

Fixpoint str_eqb (a b : JsString) : bool :=
  match a, b with
  | [], [] => true
  | x :: a', y :: b' => (x =? y) && str_eqb a' b'
  | _, _ => false
  end.

(** [String.prototype.trim] strips WhiteSpace and LineTerminator code units
    from both ends. *)
Definition isWhiteSpace (c : Z) : bool :=
  ((9 <=? c) && (c <=? 13)) || (c =? 32) || (c =? 160) || (c =? 5760)
  || ((8192 <=? c) && (c <=? 8202)) || (c =? 8232) || (c =? 8233)
  || (c =? 8239) || (c =? 8287) || (c =? 12288) || (c =? 65279).

Fixpoint trimStart (s : JsString) : JsString :=
  match s with
  | c :: s' => if isWhiteSpace c then trimStart s' else s
  | [] => []
  end.

Definition trimEnd (s : JsString) : JsString := rev (trimStart (rev s)).

Definition trim (s : JsString) : JsString := trimEnd (trimStart s).

(** ** Regular expressions of the form [\b(a1|a2|...)\b]

    Most lexical patterns the script tests are an alternation of literals
    between two word-boundary assertions.  [canon] is the
    canonicalisation applied to both sides of a character comparison: the
    identity without the [i] flag, [canonicalize] with it. *)

Definition isWordChar (c : Z) : bool :=
  ((48 <=? c) && (c <=? 57)) || ((65 <=? c) && (c <=? 90))
  || ((97 <=? c) && (c <=? 122)) || (c =? 95).

Definition isWordOpt (c : option Z) : bool :=
  match c with Some x => isWordChar x | None => false end.

(** [\b] holds between [prev] and [next] when exactly one is a word character. *)
Definition boundary (prev next : option Z) : bool :=
  xorb (isWordOpt prev) (isWordOpt next).

(** Case folding of the [i] flag for a non-unicode pattern: a code unit is
    upper-cased, except that a code unit of 128 or more is never folded to one
    below 128.  [upper] is the host's upper-casing of a code unit of 128 or
    more (itself when the result is not a single code unit). *)
Definition canonicalize (upper : Z -> Z) (c : Z) : Z :=
  if c <? 128 then (if (97 <=? c) && (c <=? 122) then c - 32 else c)
  else if upper c <? 128 then c else upper c.

Section Regex.
Variable canon : Z -> Z.

(** Match the literal [alt] at the head of [s]; on success give the last
    code unit consumed (or [prev] if none) and the rest of the input. *)
Fixpoint matchAt (alt s : JsString) (prev : option Z)
  : option (option Z * JsString) :=
  match alt with
  | [] => Some (prev, s)
  | p :: alt' =>
      match s with
      | c :: s' => if canon c =? canon p then matchAt alt' s' (Some c) else None
      | [] => None
      end
  end.

Definition altAt (prev : option Z) (s alt : JsString) : bool :=
  match matchAt alt s prev with
  | Some (last, rest) => boundary last (hd_error rest)
  | None => false
  end.

(** Try every start position from left to right. *)
Fixpoint testFrom (alts : list JsString) (prev : option Z) (s : JsString) : bool :=
  (boundary prev (hd_error s) && existsb (altAt prev s) alts)
  || match s with
     | c :: s' => testFrom alts (Some c) s'
     | [] => false
     end.

Definition regexTest (alts : list JsString) (s : JsString) : bool :=
  testFrom alts None s.
End Regex.

(** [/\b(...)\b/i.test(s)] and [/\b(...)\b/.test(s)]. *)
Definition testI (upper : Z -> Z) (alts : list JsString) (s : JsString) : bool :=
  regexTest (canonicalize upper) alts s.
Definition testCS (alts : list JsString) (s : JsString) : bool :=
  regexTest (fun c => c) alts s.

(** An alternation of literals without assertions, [/a1|a2|.../.test(s)]. *)
Fixpoint isPrefix (p s : JsString) : bool :=
  match p, s with
  | [], _ => true
  | x :: p', c :: s' => (c =? x) && isPrefix p' s'
  | _ :: _, [] => false
  end.

Fixpoint containsAny (lits : list JsString) (s : JsString) : bool :=
  existsb (fun l => isPrefix l s) lits
  || match s with
     | _ :: s' => containsAny lits s'
     | [] => false
     end.

(** ** Calendar arithmetic of the host

    Instants are milliseconds since 1970-01-01T00:00; the process runs in a
    zone of fixed offset, taken as the origin, so local and universal fields
    coincide.  Days are converted to and from the proleptic Gregorian
    calendar. *)

Definition msPerMinute : Z := 60000.
Definition msPerDay : Z := 86400000.

Definition days_from_civil (y m d : Z) : Z :=
  let y' := if m <=? 2 then y - 1 else y in
  let era := y' / 400 in
  let yoe := y' - era * 400 in
  let doy := (153 * (if 2 <? m then m - 3 else m + 9) + 2) / 5 + d - 1 in
  let doe := yoe * 365 + yoe / 4 - yoe / 100 + doy in
  era * 146097 + doe - 719468.

Definition civil_from_days (z : Z) : Z * Z * Z :=
  let z' := z + 719468 in
  let era := z' / 146097 in
  let doe := z' - era * 146097 in
  let yoe := (doe - doe / 1460 + doe / 36524 - doe / 146096) / 365 in
  let doy := doe - (365 * yoe + yoe / 4 - yoe / 100) in
  let mp := (5 * doy + 2) / 153 in
  let d := doy - (153 * mp + 2) / 5 + 1 in
  let m := if mp <? 10 then mp + 3 else mp - 9 in
  ((if m <=? 2 then yoe + era * 400 + 1 else yoe + era * 400), m, d).

Definition isLeap (y : Z) : bool :=
  ((y mod 4 =? 0) && negb (y mod 100 =? 0)) || (y mod 400 =? 0).

Definition daysInMonth (y m : Z) : Z :=
  if m =? 2 then (if isLeap y then 29 else 28)
  else if (m =? 4) || (m =? 6) || (m =? 9) || (m =? 11) then 30 else 31.

Definition dayNumber (t : Z) : Z := t / msPerDay.
Definition msOfDay (t : Z) : Z := t mod msPerDay.
Definition hourOf (t : Z) : Z := msOfDay t / 3600000.
Definition minuteOf (t : Z) : Z := (msOfDay t / 60000) mod 60.
Definition secondOf (t : Z) : Z := (msOfDay t / 1000) mod 60.
Definition milliOf (t : Z) : Z := msOfDay t mod 1000.

(** [moment#day()] / [Date#getDay()]: 0 is Sunday; day 0 was a Thursday. *)
Definition weekday (t : Z) : Z := (dayNumber t + 4) mod 7.

Definition startOfMinute (t : Z) : Z := t - t mod msPerMinute.

(** ** Decimal rendering and reading *)

Definition digit (k : Z) : Z := 48 + k.
Definition isDigit (c : Z) : bool := (48 <=? c) && (c <=? 57).

(** The last [k] decimal digits of [n], most significant first. *)
Fixpoint lastDigits (k : nat) (n : Z) : JsString :=
  match k with
  | O => []
  | S k' => lastDigits k' (n / 10) ++ [digit (n mod 10)]
  end.

Definition pad2 (n : Z) : JsString := lastDigits 2 n.
Definition pad3 (n : Z) : JsString := lastDigits 3 n.

(** Number of decimal digits of [n >= 0], at least [1]. *)
Fixpoint countDigits (fuel : nat) (n : Z) : nat :=
  match fuel with
  | O => 1%nat
  | S f => if n <? 10 then 1%nat else S (countDigits f (n / 10))
  end.

Definition numDigits (n : Z) : nat := countDigits (Z.to_nat (Z.log2 n)) n.

(** [zeroFill(n, w)] of a non-negative number: at least [w] digits. *)
Definition zeroFill (w : nat) (n : Z) : JsString :=
  lastDigits (Nat.max w (numDigits n)) n.

Fixpoint readDigits (acc : Z) (s : JsString) : Z :=
  match s with
  | c :: s' => readDigits (acc * 10 + (c - 48)) s'
  | [] => acc
  end.

(** Split off the longest prefix of digits. *)
Fixpoint spanDigits (s : JsString) : JsString * JsString :=
  match s with
  | c :: s' =>
      if isDigit c then let '(ds, rest) := spanDigits s' in (c :: ds, rest)
      else ([], s)
  | [] => ([], [])
  end.

(** A run of [lo..hi] digits read as a number, with what follows it. *)
Definition number (lo hi : nat) (s : JsString) : option (Z * JsString) :=
  let '(ds, rest) := spanDigits s in
  if (Nat.leb lo (length ds)) && (Nat.leb (length ds) hi)
  then Some (readDigits 0 ds, rest) else None.

(** A run of at least [lo] digits. *)
Definition numberFrom (lo : nat) (s : JsString) : option (Z * JsString) :=
  let '(ds, rest) := spanDigits s in
  if Nat.leb lo (length ds) then Some (readDigits 0 ds, rest) else None.

Definition expect (c : Z) (s : JsString) : option JsString :=
  match s with
  | x :: s' => if x =? c then Some s' else None
  | [] => None
  end.

(** ** The host: runtime and collaborators the script relies on

    Everything the script obtains from outside its own text is a field of
    the host: the Unicode case mappings of the runtime, the loaded sentiment
    model (absent until the model is loaded; a run may throw), the date
    library's reading of a ["DD/MM/YYYY HH:mm"] text (absent for an invalid
    result, else the instant), the message catalogue, and the configured
    session timeout. *)

Inductive Sentiment := positive | negative | neutral.

Definition sentiment_eqb (a b : Sentiment) : bool :=
  match a, b with
  | positive, positive | negative, negative | neutral, neutral => true
  | _, _ => false
  end.

(** The context tags in use. *)
Inductive Context := general | yes_no_question.

(** First element of the model's result. *)
Record ModelOutput := { label : JsString; score : float }.

Record Host := {
  toLowerCase : JsString -> JsString;
  toUpperUnit : Z -> Z;
  sentimentAnalyzer : option (JsString -> option ModelOutput);
  momentParse : JsString -> option Z;
  getMessage : JsString -> JsString;
  sessionTimeoutDays : Z
}.

(** ** Intent/sentiment classifier *)

(** The lexical patterns of [interpretYesNoSentiment]. *)
Definition yesPatterns : list JsString :=
  [ js "yes"; js "yeah"; js "yep"; js "sure"; js "okay"; js "ok"; js "fine";
    js "good"; js "great"; js "absolutely"; js "definitely"; js "of course";
    js "certainly"; js "right"; js "correct"; js "true"; js "agree";
    js "accept"; js "interested"; js "want"; js "would like";
    js "sounds good"; js "let's do it"; js "count me in" ].

Definition noPatterns : list JsString :=
  [ js "no"; js "nope"; js "nah"; js "not"; js "never"; js "refuse";
    js "decline"; js "reject"; js "disagree"; js "don't"; js "won't";
    js "can't"; js "shouldn't"; js "wouldn't"; js "uninterested";
    js "not interested"; js "not really"; js "maybe not"; js "probably not" ].

Record AiSentiment := { ai_label : Sentiment; ai_score : float }.

(** [interpretYesNoSentiment(text, aiSentiment)] *)
Definition interpretYesNoSentiment (h : Host) (text : JsString)
                                   (aiSentiment : AiSentiment) : Sentiment :=
  if testI (toUpperUnit h) yesPatterns text then positive
  else if testI (toUpperUnit h) noPatterns text then negative
  else if sentiment_eqb (ai_label aiSentiment) negative
          && (0x1.6666666666666p-1 <? ai_score aiSentiment)%float
       then negative
  else positive.

(** The tiers of [analyzeYesNoKeywords]. *)
Definition strongYes : list JsString :=
  [ js "yes"; js "yeah"; js "yep"; js "yup"; js "absolutely";
    js "definitely"; js "of course"; js "certainly"; js "sure thing";
    js "for sure"; js "count me in"; js "let's do it"; js "sounds good";
    js "i'm in"; js "i want"; js "i would like"; js "interested";
    js "please"; js "go ahead"; js "perfect"; js "excellent"; js "great";
    js "awesome"; js "fantastic" ].

Definition casualYes : list JsString :=
  [ js "ya"; js "yea"; js "yas"; js "yass"; js "bet"; js "word"; js "cool";
    js "dope"; js "lit"; js "fire"; js "sick"; js "tight"; js "right on";
    js "fo sho"; js "fo sure"; js "hell yeah"; js "hell yes";
    js "damn right"; js "you bet"; js "totally"; js "100%"; [55357; 56495] ].

Definition multilingualYes : list JsString :=
  [ js "si"; [115; 237]; js "oui"; js "ja"; js "da"; js "hai"; js "haan";
    js "sim"; js "igen"; js "tak"; js "ano" ].

Definition strongNo : list JsString :=
  [ js "no"; js "nope"; js "nah"; js "never"; js "not interested";
    js "don't want"; js "won't"; js "can't"; js "refuse"; js "decline";
    js "reject"; js "not really"; js "probably not"; js "maybe not";
    js "absolutely not"; js "definitely not"; js "hell no"; js "no way";
    js "not happening"; js "forget it"; js "not a chance" ].

Definition casualNo : list JsString :=
  [ js "naw"; js "nuh"; js "nuh-uh"; js "nu-uh"; js "nada"; js "zilch";
    js "zip"; js "zero"; js "not gonna"; js "ain't"; js "nope nope";
    js "hard pass"; js "pass"; js "skip"; js "next"; js "not feeling it";
    js "meh" ].

Definition multilingualNo : list JsString :=
  [ js "non"; js "nein"; js "nyet"; js "nahi"; [110; 227; 111]; js "nem";
    js "nie"; js "ne"; js "iie" ].

Definition conditional : list JsString :=
  [ js "maybe"; js "perhaps"; js "might"; js "could"; js "possibly";
    js "not sure"; js "don't know"; js "let me think";
    js "thinking about it"; js "considering"; js "depends"; js "we'll see";
    js "i'll think about it"; js "let me check"; js "need to check";
    js "unsure"; js "uncertain"; js "on the fence"; js "torn";
    js "conflicted" ].

Definition politeYes : list JsString :=
  [ js "okay"; js "ok"; js "fine"; js "good"; js "alright"; js "that works";
    js "sounds fine"; js "i guess"; js "why not"; js "sure";
    js "sounds reasonable"; js "acceptable"; js "works for me";
    js "that's fine"; js "no problem"; js "no worries" ].

Definition politeNo : list JsString :=
  [ js "sorry but no"; js "i'm afraid not"; js "not this time";
    js "not right now"; js "maybe another time"; js "not today";
    js "i'll pass"; js "thanks but no"; js "appreciate it but";
    js "kind of you but" ].

Definition enthusiastic : list JsString :=
  [ js "love it"; js "love to"; js "can't wait"; js "excited"; js "thrilled";
    js "pumped"; js "stoked"; js "hyped"; js "down"; js "i'm down";
    js "let's go"; js "bring it on" ].

Definition reluctant : list JsString :=
  [ js "i suppose"; js "if i have to"; js "if you insist"; js "reluctantly";
    js "hesitant"; js "not thrilled"; js "not excited"; js "meh";
    js "whatever"; js "if i must" ].

Definition positiveEmojis : list JsString :=
  [ [55357; 56397]; [55357; 56396]; [9989]; [55357; 56842]; [55357; 56836];
    [55357; 56835]; [55357; 56833]; [55357; 56898]; [55357; 56841];
    [55357; 56490]; [55357; 56613]; [55357; 56495]; [10084; 65039];
    [55357; 56474]; [55357; 56473] ].

Definition negativeEmojis : list JsString :=
  [ [55357; 56398]; [10060]; [55357; 56862]; [55357; 56852]; [55357; 56853];
    [55357; 56897]; [55357; 56850]; [55357; 56868]; [55357; 56468];
    [55357; 56866]; [55357; 56877]; [55357; 57003]; [9940] ].

Definition neutralEmojis : list JsString :=
  [ [55358; 56596]; [55357; 56848]; [55357; 56849]; [55358; 56631];
    [55358; 56631; 8205; 9794; 65039]; [55358; 56631; 8205; 9792; 65039];
    [10067]; [10068] ].

(** The word and emoji lists of the general keyword analysis. *)
Definition generalPositiveWords : list JsString :=
  [ js "yes"; js "yeah"; js "yep"; js "yup"; js "sure"; js "okay"; js "ok";
    js "fine"; js "good"; js "great"; js "excellent"; js "awesome";
    js "fantastic"; js "wonderful"; js "amazing"; js "perfect"; js "love";
    js "like"; js "enjoy"; js "happy"; js "excited"; js "interested";
    js "want"; js "would like"; js "sounds good"; js "let's do it";
    js "count me in"; js "absolutely"; js "definitely"; js "of course";
    js "certainly"; js "right"; js "correct"; js "true"; js "agree";
    js "accept" ].

Definition generalPositiveEmojis : list JsString :=
  [ [55357; 56397]; [55357; 56842]; [55357; 56836]; [55357; 56835];
    [55357; 56898]; [55357; 56396]; [9989]; [55357; 56495] ].

Definition generalNegativeWords : list JsString :=
  [ js "no"; js "nope"; js "nah"; js "not"; js "never"; js "refuse";
    js "decline"; js "reject"; js "disagree"; js "don't"; js "won't";
    js "can't"; js "shouldn't"; js "wouldn't"; js "hate"; js "dislike";
    js "bad"; js "terrible"; js "awful"; js "horrible"; js "worst";
    js "uninterested"; js "not interested"; js "not really"; js "maybe not";
    js "probably not" ].

Definition generalNegativeEmojis : list JsString :=
  [ [55357; 56398]; [55357; 56862]; [55357; 56866]; [55357; 56864];
    [55357; 56865]; [10060]; [55357; 57003] ].

Definition uncertaintyWords : list JsString :=
  [ js "maybe"; js "perhaps"; js "might"; js "could"; js "possibly";
    js "not sure"; js "don't know"; js "uncertain"; js "thinking";
    js "considering"; js "let me think"; js "hmm"; js "uh"; js "um" ].

Definition uncertaintyEmojis : list JsString :=
  [ [55358; 56596]; [55357; 56848]; [55357; 56853]; [55358; 56631] ].

(** [/^y$/i]-style test: the whole string is one given letter. *)
Definition isSingle (upper : Z -> Z) (x : Z) (s : JsString) : bool :=
  match s with
  | [c] => canonicalize upper c =? canonicalize upper x
  | _ => false
  end.

(** [/x1+x2+...xn+/i]: a run of each letter in turn, anywhere in the string. *)
Fixpoint skipRun (upper : Z -> Z) (x : Z) (s : JsString) : JsString :=
  match s with
  | c :: s' =>
      if canonicalize upper c =? canonicalize upper x then skipRun upper x s' else s
  | [] => []
  end.

Fixpoint runsAt (upper : Z -> Z) (xs : list Z) (s : JsString) : bool :=
  match xs with
  | [] => true
  | x :: xs' =>
      match s with
      | c :: s' =>
          if canonicalize upper c =? canonicalize upper x
          then runsAt upper xs' (skipRun upper x s')
          else false
      | [] => false
      end
  end.

Fixpoint hasRuns (upper : Z -> Z) (xs : list Z) (s : JsString) : bool :=
  runsAt upper xs s
  || match s with
     | _ :: s' => hasRuns upper xs s'
     | [] => false
     end.

(** [analyzeYesNoKeywords(text)]: first matching tier wins. *)
Definition analyzeYesNoKeywords (h : Host) (text : JsString) : Sentiment :=
  let lowerText := trim (toLowerCase h text) in
  let up := toUpperUnit h in
  if testI up enthusiastic lowerText then positive
  else if testI up strongYes lowerText then positive
  else if testI up strongNo lowerText then negative
  else if testI up casualYes lowerText then positive
  else if testI up casualNo lowerText then negative
  else if testI up multilingualYes lowerText then positive
  else if testI up multilingualNo lowerText then negative
  else if testI up politeYes lowerText then positive
  else if testI up politeNo lowerText then negative
  else if testI up reluctant lowerText then neutral
  else if testI up conditional lowerText then neutral
  else if containsAny positiveEmojis text then positive
  else if containsAny negativeEmojis text then negative
  else if containsAny neutralEmojis text then neutral
  else if isSingle up 121 (trim lowerText) then positive
  else if isSingle up 110 (trim lowerText) then negative
  else if hasRuns up [121; 101; 115] lowerText
          && (3 <? Z.of_nat (length lowerText)) then positive
  else if hasRuns up [110; 111] lowerText
          && (2 <? Z.of_nat (length lowerText)) then negative
  else if testI up [js "1"; js "one"] lowerText then positive
  else if testI up [js "0"; js "zero"] lowerText then negative
  else neutral.

(** [analyzeKeywordSentiment(text, context)] *)
Definition analyzeKeywordSentiment (h : Host) (text : JsString)
                                   (context : Context) : Sentiment :=
  let lowerText := trim (toLowerCase h text) in
  let up := toUpperUnit h in
  match context with
  | yes_no_question => analyzeYesNoKeywords h lowerText
  | general =>
      if testI up generalPositiveWords lowerText
         || testCS generalPositiveEmojis lowerText then positive
      else if testI up generalNegativeWords lowerText
              || testCS generalNegativeEmojis lowerText then negative
      else if testI up uncertaintyWords lowerText
              || testCS uncertaintyEmojis lowerText then neutral
      else neutral
  end.

(** [analyzeSentiment(text, context)]: the model's label is read off the
    first result; a run that throws falls back to the keyword analysis. *)
Definition analyzeSentiment (h : Host) (text : JsString) (context : Context)
  : Sentiment :=
  match sentimentAnalyzer h with
  | None => analyzeKeywordSentiment h text context
  | Some run =>
      let cleanText := trim text in
      match run cleanText with
      | None => analyzeKeywordSentiment h text context
      | Some sentiment =>
          let sentimentLabel :=
            if str_eqb (label sentiment) (js "LABEL_2") then positive
            else if str_eqb (label sentiment) (js "LABEL_0") then negative
            else neutral in
          match context with
          | yes_no_question =>
              interpretYesNoSentiment h cleanText
                {| ai_label := sentimentLabel; ai_score := score sentiment |}
          | general =>
              if sentiment_eqb sentimentLabel positive
                 && (0x1.3333333333333p-1 <? score sentiment)%float then positive
              else if sentiment_eqb sentimentLabel negative
                      && (0x1.3333333333333p-1 <? score sentiment)%float then negative
              else analyzeKeywordSentiment h text context
          end
      end
  end.

(** ** Date library: the two output formats and a reading of them *)

Notation "'do' x <- a ; b" :=
  (match a with Some x => b | None => None end)
  (at level 10, x pattern, a at level 100, b at level 200).

(** [zeroFill] of a year that may be negative. *)
Definition formatYear (y : Z) : JsString :=
  if 0 <=? y then zeroFill 4 y else 45 :: zeroFill 4 (- y).

(** [m.format('DD/MM/YYYY')] *)
Definition formatDate (t : Z) : JsString :=
  let '(y, m, d) := civil_from_days (dayNumber t) in
  pad2 d ++ [47] ++ pad2 m ++ [47] ++ formatYear y.

(** [m.format('HH:mm')] *)
Definition formatTime (t : Z) : JsString :=
  pad2 (hourOf t) ++ [58] ++ pad2 (minuteOf t).

(** [m.add(n, 'days')] *)
Definition addDays (t n : Z) : Z := t + n * msPerDay.

Definition validCivil (y m d : Z) : bool :=
  (1 <=? m) && (m <=? 12) && (1 <=? d) && (d <=? daysInMonth y m).

Definition readYear (s : JsString) : option (Z * JsString) :=
  match numberFrom 1 s with
  | Some r => Some r
  | None =>
      match s with
      | 45 :: s' => do (y, r) <- numberFrom 1 s' ; Some (- y, r)
      | _ => None
      end
  end.

(** A reading of ["DD/MM/YYYY HH:mm"] texts in the shape [format] writes
    them.  It is one possible [momentParse]; the library itself accepts more
    texts, which is why the engine takes its reading from the host. *)
Definition momentStrict (s : JsString) : option Z :=
  do (d, s) <- number 1 2 s ;
  do s <- expect 47 s ;
  do (m, s) <- number 1 2 s ;
  do s <- expect 47 s ;
  do (y, s) <- readYear s ;
  do s <- expect 32 s ;
  do (hh, s) <- number 1 2 s ;
  do s <- expect 58 s ;
  do (mi, s) <- number 1 2 s ;
  match s with
  | [] =>
      if validCivil y m d && (hh <=? 23) && (mi <=? 59)
      then Some (days_from_civil y m d * msPerDay + hh * 3600000 + mi * 60000)
      else None
  | _ => None
  end.

(** The property of the date library the past-time check relies on: a text
    written by [format] reads back as the start of the same minute. *)
Definition ParsesOwnFormat (parse : JsString -> option Z) : Prop :=
  forall t, parse (formatDate t ++ [32] ++ formatTime t) = Some (startOfMinute t).

(** ** Host dates: [toISOString] and its reading by the [Date] constructor *)

(** Four digits for the years 0 to 9999, else a sign and six digits (a Date
    holds at most 8.64e15 ms either side of the epoch, so six suffice). *)
Definition isoYear (y : Z) : JsString :=
  if (0 <=? y) && (y <=? 9999) then lastDigits 4 y
  else (if y <? 0 then 45 else 43) :: zeroFill 6 (Z.abs y).

Definition toISOString (t : Z) : JsString :=
  let '(y, m, d) := civil_from_days (dayNumber t) in
  isoYear y ++ [45] ++ pad2 m ++ [45] ++ pad2 d ++ [84]
  ++ pad2 (hourOf t) ++ [58] ++ pad2 (minuteOf t) ++ [58] ++ pad2 (secondOf t)
  ++ [46] ++ pad3 (milliOf t) ++ [90].

Definition readIsoYear (s : JsString) : option (Z * JsString) :=
  match number 4 4 s with
  | Some r => Some r
  | None =>
      match s with
      | 45 :: s' => do (y, r) <- numberFrom 6 s' ; Some (- y, r)
      | 43 :: s' => numberFrom 6 s'
      | _ => None
      end
  end.

(** [new Date(text)] for a text in the ISO format; [None] is an invalid date. *)
Definition dateOfISO (s : JsString) : option Z :=
  do (y, s) <- readIsoYear s ;
  do s <- expect 45 s ;
  do (m, s) <- number 2 2 s ;
  do s <- expect 45 s ;
  do (d, s) <- number 2 2 s ;
  do s <- expect 84 s ;
  do (hh, s) <- number 2 2 s ;
  do s <- expect 58 s ;
  do (mi, s) <- number 2 2 s ;
  do s <- expect 58 s ;
  do (ss, s) <- number 2 2 s ;
  do s <- expect 46 s ;
  do (ms, s) <- number 3 3 s ;
  match s with
  | [90] =>
      if validCivil y m d && (hh <=? 23) && (mi <=? 59) && (ss <=? 59)
      then Some (days_from_civil y m d * msPerDay
                 + hh * 3600000 + mi * 60000 + ss * 1000 + ms)
      else None
  | _ => None
  end.

(** ** Temporal resolver *)

(** The immediate-keyword patterns of [parseTimeExpression], in order. *)
Definition immediateCore : list JsString :=
  [ js "now"; js "right now"; js "just now"; js "at this moment";
    js "this instant"; js "this second"; js "this minute" ].

Definition immediateUrgency : list JsString :=
  [ js "asap"; js "a.s.a.p."; js "as soon as possible"; js "immediately";
    js "instantly"; js "urgently"; js "straight away"; js "right away";
    js "at once" ].

Definition immediateCasual : list JsString :=
  [ js "pronto"; js "stat"; js "quick"; js "quickly"; js "fast"; js "rapid";
    js "swift"; js "prompt"; js "without delay"; js "no delay" ].

Definition immediateCurrent : list JsString :=
  [ js "current time"; js "present time"; js "this time"; js "at this time";
    js "the time now"; js "time right now" ].

Definition immediateShort : list JsString :=
  [ js "in a sec"; js "in a second"; js "in seconds"; js "in a moment";
    js "in just a moment"; js "in a jiffy"; js "in a flash"; js "in no time" ].

Definition immediateColloquial : list JsString :=
  [ js "rn"; js "rt now"; js "rite now"; js "nao"; js "naow"; js "rightnow";
    js "asap pls"; js "asap please"; js "call me now"; js "call now";
    js "ring now"; js "phone now" ].

Definition immediateInternational : list JsString :=
  [ js "maintenant"; js "ahora"; js "jetzt"; js "ora"; js "agora";
    js "sekarang"; [51648; 44552]; [20170];
    [1089; 1077; 1081; 1095; 1072; 1089]; [1575; 1604; 1570; 1606] ].

Definition immediateSlang : list JsString :=
  [ js "rn pls"; js "asap af"; js "like now"; js "literally now";
    js "actually now"; js "seriously now"; js "for real now";
    js "no joke now" ].

Definition immediateSensitive : list JsString :=
  [ js "before it's too late"; js "time sensitive"; js "urgent call";
    js "emergency call"; js "critical call"; js "important call now" ].

Definition immediateKeywords : list (list JsString) :=
  [ immediateCore; immediateUrgency; immediateCasual; immediateCurrent;
    immediateShort; immediateColloquial; immediateInternational;
    immediateSlang; immediateSensitive ].

(** The immediate keywords [isDateTimeInPast] exempts. *)
Definition pastExemptKeywords : list JsString :=
  [ js "now"; js "right now"; js "immediately"; js "asap";
    js "as soon as possible"; js "straight away"; js "right away";
    js "this instant"; js "this moment"; js "at once"; js "instantly" ].

Record TimeParseResult := {
  tp_success : bool;
  tp_date : option JsString;
  tp_time : option JsString;
  tp_hasDate : bool;
  tp_hasTime : bool;
  tp_needsDate : bool;
  tp_needsTime : bool;
  tp_formatted : option JsString;
  tp_complete : bool;
  tp_immediate : bool;
  tp_partial : bool
}.

(** [getNextWeekday(now, targetDay)] *)
Definition getNextWeekday (now targetDay : Z) : JsString :=
  let currentDay := weekday now in
  let daysToAdd := targetDay - currentDay in
  let daysToAdd := if daysToAdd <=? 0 then daysToAdd + 7 else daysToAdd in
  formatDate (addDays now daysToAdd).

(** The rows of [datePatterns] down to the weekday names: a relative day
    ([now] moved by so many days) or a named weekday. *)
Inductive DateRule := Relative (days : Z) | Weekday (targetDay : Z).

Definition pat_yesterday : list JsString :=
  [ js "yesterday"; js "yest" ].

Definition pat_today : list JsString :=
  [ js "today"; js "tod" ].

Definition pat_tomorrow : list JsString :=
  [ js "tomorrow"; js "tmrw"; js "tom" ].

Definition pat_dayAfter : list JsString :=
  [ js "day after tomorrow"; js "overmorrow" ].

Definition pat_monday : list JsString :=
  [ js "monday"; js "mon" ].

Definition pat_tuesday : list JsString :=
  [ js "tuesday"; js "tue"; js "tues" ].

Definition pat_wednesday : list JsString :=
  [ js "wednesday"; js "wed" ].

Definition pat_thursday : list JsString :=
  [ js "thursday"; js "thu"; js "thurs" ].

Definition pat_friday : list JsString :=
  [ js "friday"; js "fri" ].

Definition pat_saturday : list JsString :=
  [ js "saturday"; js "sat" ].

Definition pat_sunday : list JsString :=
  [ js "sunday"; js "sun" ].

Definition datePatterns : list (list JsString * DateRule) :=
  [ (pat_yesterday, Relative (-1));
    (pat_today, Relative 0);
    (pat_tomorrow, Relative 1);
    (pat_dayAfter, Relative 2);
    (pat_monday, Weekday 1);
    (pat_tuesday, Weekday 2);
    (pat_wednesday, Weekday 3);
    (pat_thursday, Weekday 4);
    (pat_friday, Weekday 5);
    (pat_saturday, Weekday 6);
    (pat_sunday, Weekday 0) ].

Definition runDateRule (now : Z) (r : DateRule) : JsString :=
  match r with
  | Relative days => formatDate (addDays now days)
  | Weekday targetDay => getNextWeekday now targetDay
  end.

(** First row whose pattern matches (its handler's text is never empty, so
    the scan stops there). *)
Fixpoint firstRule (rows : list (list JsString * DateRule)) (lowerText : JsString)
  : option DateRule :=
  match rows with
  | [] => None
  | (pattern, rule) :: rows' =>
      if testCS pattern lowerText then Some rule else firstRule rows' lowerText
  end.

Definition isSome {A} (o : option A) : bool :=
  match o with Some _ => true | None => false end.

Section Resolver.
Variable h : Host.
(** The rows of [datePatterns] after the weekday names (day and month
    name, numeric dates, bare day) and the rows of [timePatterns], as
    functions of the lower-cased text and the reference instant. *)
Variable laterDateRows : JsString -> Z -> option JsString.
Variable timeRows : JsString -> Z -> option JsString.

(** [parseTimeWithTinyLlama(text, currentDateTime)] *)
Definition parseTimeWithTinyLlama (text : JsString) (currentDateTime : Z)
  : TimeParseResult :=
  let now := currentDateTime in
  let lowerText := trim (toLowerCase h text) in
  let parsedDate :=
    match firstRule datePatterns lowerText with
    | Some rule => Some (runDateRule now rule)
    | None => laterDateRows lowerText now
    end in
  let parsedTime := timeRows lowerText currentDateTime in
  let hasDate := isSome parsedDate in
  let hasTime := isSome parsedTime in
  {| tp_success := true;
     tp_date := parsedDate;
     tp_time := parsedTime;
     tp_hasDate := hasDate;
     tp_hasTime := hasTime;
     tp_needsDate := negb hasDate;
     tp_needsTime := negb hasTime;
     tp_formatted :=
       match parsedDate, parsedTime with
       | Some d, Some t => Some (d ++ js "::" ++ t)
       | _, _ => None
       end;
     tp_complete := false;
     tp_immediate := false;
     tp_partial := xorb hasDate hasTime |}.

Definition isImmediate (text : JsString) : bool :=
  let lowerText := toLowerCase h text in
  existsb (fun pattern => testI (toUpperUnit h) pattern lowerText) immediateKeywords.

(** [parseTimeExpression(text, currentDateTime)] *)
Definition parseTimeExpression (text : JsString) (currentDateTime : Z)
  : TimeParseResult :=
  if isImmediate text then
    let currentDate := formatDate currentDateTime in
    let currentTime := formatTime currentDateTime in
    let formatted := currentDate ++ js "::" ++ currentTime in
    {| tp_success := true;
       tp_date := Some currentDate;
       tp_time := Some currentTime;
       tp_hasDate := true;
       tp_hasTime := true;
       tp_needsDate := false;
       tp_needsTime := false;
       tp_formatted := Some formatted;
       tp_complete := true;
       tp_immediate := true;
       tp_partial := false |}
  else
    let result := parseTimeWithTinyLlama text currentDateTime in
    if tp_success result then
      if tp_hasDate result && tp_hasTime result then
        {| tp_success := true;
           tp_date := tp_date result;
           tp_time := tp_time result;
           tp_hasDate := tp_hasDate result;
           tp_hasTime := tp_hasTime result;
           tp_needsDate := false;
           tp_needsTime := false;
           tp_formatted := tp_formatted result;
           tp_complete := true;
           tp_immediate := false;
           tp_partial := false |}
      else
        {| tp_success := true;
           tp_date := tp_date result;
           tp_time := tp_time result;
           tp_hasDate := tp_hasDate result;
           tp_hasTime := tp_hasTime result;
           tp_needsDate := tp_needsDate result;
           tp_needsTime := tp_needsTime result;
           tp_formatted := None;
           tp_complete := false;
           tp_immediate := false;
           tp_partial := true |}
    else
      {| tp_success := false;
         tp_date := Some (formatDate currentDateTime);
         tp_time := Some (js "14:00");
         tp_hasDate := false;
         tp_hasTime := false;
         tp_needsDate := false;
         tp_needsTime := false;
         tp_formatted := Some (formatDate currentDateTime ++ js "::14:00");
         tp_complete := false;
         tp_immediate := false;
         tp_partial := false |}.

(** [isDateTimeInPast(date, time, currentDateTime, originalText)]: an
    invalid target is before nothing. *)
Definition isDateTimeInPast (date time : JsString) (currentDateTime : Z)
                            (originalText : JsString) : bool :=
  if testI (toUpperUnit h) pastExemptKeywords originalText then false
  else
    let targetDateTime := momentParse h (date ++ js " " ++ time) in
    let bufferTime := currentDateTime - 1 * msPerMinute in
    match targetDateTime with
    | Some target => target <? bufferTime
    | None => false
    end.
End Resolver.

(** ** JavaScript values held in sessions and files

    A value is a JSON tree; [None] of type [option Json] is [undefined].
    Numbers are integers (the counters and timestamps the script computes
    with are). *)

Inductive Json :=
| JNull
| JBool (b : bool)
| JNum (n : Z)
| JStr (s : JsString)
| JArr (items : list Json)
| JObj (fields : list (JsString * Json)).

Definition decimal (n : Z) : JsString :=
  if n <? 0 then 45 :: zeroFill 1 (- n) else zeroFill 1 n.

(** [String(v)], as a template literal applies it. *)
Fixpoint jsonToString (v : Json) : JsString :=
  match v with
  | JNull => js "null"
  | JBool true => js "true"
  | JBool false => js "false"
  | JNum n => decimal n
  | JStr s => s
  | JArr items =>
      let element (x : Json) : JsString :=
        match x with JNull => [] | _ => jsonToString x end in
      (fix join (l : list Json) : JsString :=
         match l with
         | [] => []
         | [x] => element x
         | x :: l' => element x ++ 44 :: join l'
         end) items
  | JObj _ => js "[object Object]"
  end.

Definition toStringJs (v : option Json) : JsString :=
  match v with
  | None => js "undefined"
  | Some x => jsonToString x
  end.

Definition truthy (v : option Json) : bool :=
  match v with
  | None | Some JNull | Some (JBool false) | Some (JNum 0) | Some (JStr []) => false
  | _ => true
  end.

(** [v || d] *)
Definition orElse (v : option Json) (d : Json) : Json :=
  match v with
  | Some x => if truthy v then x else d
  | None => d
  end.

(** [v === 'text'] *)
Definition isStr (v : option Json) (s : JsString) : bool :=
  match v with
  | Some (JStr x) => str_eqb x s
  | _ => false
  end.

(** [x + 1] *)
Definition plusOne (v : Json) : Json :=
  match v with
  | JNum n => JNum (n + 1)
  | JNull => JNum 1
  | JBool b => JNum (if b then 2 else 1)
  | _ => JStr (jsonToString v ++ js "1")
  end.

(** [(v || 0) + 1] *)
Definition orZeroPlusOne (v : option Json) : Json := plusOne (orElse v (JNum 0)).

(** ** Objects and maps, in iteration order

    Both are association lists.  A [Map] iterates in insertion order.  An
    object lists its array-index keys first, in ascending order, then its
    other keys in insertion order. *)

Fixpoint mapGet {A} (k : JsString) (m : list (JsString * A)) : option A :=
  match m with
  | [] => None
  | (k', v) :: m' => if str_eqb k' k then Some v else mapGet k m'
  end.

Fixpoint mapHas {A} (k : JsString) (m : list (JsString * A)) : bool :=
  match m with
  | [] => false
  | (k', _) :: m' => str_eqb k' k || mapHas k m'
  end.

Fixpoint mapReplace {A} (k : JsString) (v : A) (m : list (JsString * A))
  : list (JsString * A) :=
  match m with
  | [] => []
  | (k', v') :: m' =>
      if str_eqb k' k then (k', v) :: m' else (k', v') :: mapReplace k v m'
  end.

(** [map.set(k, v)] *)
Definition mapSet {A} (k : JsString) (v : A) (m : list (JsString * A))
  : list (JsString * A) :=
  if mapHas k m then mapReplace k v m else m ++ [(k, v)].

(** [map.delete(k)] and [delete obj[k]] *)
Fixpoint mapDelete {A} (k : JsString) (m : list (JsString * A))
  : list (JsString * A) :=
  match m with
  | [] => []
  | (k', v') :: m' =>
      if str_eqb k' k then m' else (k', v') :: mapDelete k m'
  end.

(** The array index a key denotes, if any: a canonical decimal below 2^32 - 1. *)
Definition arrayIndex (k : JsString) : option Z :=
  match k with
  | [] => None
  | c :: rest =>
      if forallb isDigit k
         && ((c =? 48) && (match rest with [] => true | _ => false end)
             || negb (c =? 48))
         && (readDigits 0 k <? 4294967295)
      then Some (readDigits 0 k) else None
  end.

(** Insert a new index key before the first key that is not a smaller index. *)
Fixpoint insertIndex (i : Z) (k : JsString) (v : Json) (o : list (JsString * Json))
  : list (JsString * Json) :=
  match o with
  | [] => [(k, v)]
  | (k', v') :: o' =>
      match arrayIndex k' with
      | Some j => if j <? i then (k', v') :: insertIndex i k v o'
                  else (k, v) :: o
      | None => (k, v) :: o
      end
  end.

(** [obj[k] = v] *)
Definition objSet (k : JsString) (v : Json) (o : list (JsString * Json))
  : list (JsString * Json) :=
  if mapHas k o then mapReplace k v o
  else match arrayIndex k with
       | Some i => insertIndex i k v o
       | None => o ++ [(k, v)]
       end.

(** [obj.key]: [None] when the access throws (on [undefined] and [null]),
    else the property, [undefined] on a value that is not an object. *)
Definition getProp (v : option Json) (key : JsString) : option (option Json) :=
  match v with
  | None | Some JNull => None
  | Some (JObj fields) => Some (mapGet key fields)
  | Some _ => Some None
  end.

(** An object literal: properties whose value is [undefined] are not written
    by [JSON.stringify]. *)
Fixpoint literal (props : list (JsString * option Json)) : list (JsString * Json) :=
  match props with
  | [] => []
  | (k, Some v) :: props' => (k, v) :: literal props'
  | (_, None) :: props' => literal props'
  end.

(** A file: absent, unreadable (reading or parsing it throws), or holding a
    JSON object. *)
Inductive File := Missing | Unreadable | Content (table : list (JsString * Json)).

(** ** Sessions *)

Definition IDLE := js "idle".
Definition GREETING := js "greeting".
Definition WAITING_INITIAL_RESPONSE := js "waiting_initial_response".
Definition ASKING_REASON := js "asking_reason".
Definition ASKING_CALL_TIME := js "asking_call_time".
Definition ASKING_DATE := js "asking_date".
Definition ASKING_TIME := js "asking_time".
Definition CONFIRMING_SCHEDULE := js "confirming_schedule".
Definition COMPLETED := js "completed".
Definition CLARIFYING_RESPONSE := js "clarifying_response".

(** A session object.  The two instants are [Date]s ([None] is an invalid
    date); every other property is a value, [None] when the object has no
    such property. *)
Record Session := {
  state : option Json;
  currentQuestion : option Json;
  data : option Json;
  createdAt : option Z;
  lastActivity : option Z;
  waitingForFreeText : option Json;
  freeTextContext : option Json;
  metadata : option Json;
  partialSchedule : option Json;
  pendingSchedule : option Json;
  finalSchedule : option Json;
  clarificationAttempts : option Json;
  pastDateAttempt : option Json;
  completedAt : option Json
}.

(** The object literal passed to [createOrUpdateSession]: [None] for a key
    the literal does not mention. *)
Record Updates := {
  u_state : option Json;
  u_currentQuestion : option Json;
  u_data : option Json;
  u_waitingForFreeText : option Json;
  u_partialSchedule : option Json;
  u_pendingSchedule : option Json;
  u_finalSchedule : option Json;
  u_clarificationAttempts : option Json;
  u_pastDateAttempt : option Json;
  u_completedAt : option Json
}.

Definition noUpdates : Updates :=
  {| u_state := None; u_currentQuestion := None; u_data := None;
     u_waitingForFreeText := None; u_partialSchedule := None;
     u_pendingSchedule := None; u_finalSchedule := None;
     u_clarificationAttempts := None; u_pastDateAttempt := None;
     u_completedAt := None |}.

Definition pick (new old : option Json) : option Json :=
  match new with Some _ => new | None => old end.

(** [Object.assign(session, updates, { lastActivity: now })] *)
Definition assign (s : Session) (u : Updates) (now : Z) : Session :=
  {| state := pick (u_state u) (state s);
     currentQuestion := pick (u_currentQuestion u) (currentQuestion s);
     data := pick (u_data u) (data s);
     createdAt := createdAt s;
     lastActivity := Some now;
     waitingForFreeText := pick (u_waitingForFreeText u) (waitingForFreeText s);
     freeTextContext := freeTextContext s;
     metadata := metadata s;
     partialSchedule := pick (u_partialSchedule u) (partialSchedule s);
     pendingSchedule := pick (u_pendingSchedule u) (pendingSchedule s);
     finalSchedule := pick (u_finalSchedule u) (finalSchedule s);
     clarificationAttempts := pick (u_clarificationAttempts u) (clarificationAttempts s);
     pastDateAttempt := pick (u_pastDateAttempt u) (pastDateAttempt s);
     completedAt := pick (u_completedAt u) (completedAt s) |}.

(** The new-session literal of [createOrUpdateSession], [...updates] last. *)
Definition newSession (u : Updates) (now : Z) : Session :=
  {| state := pick (u_state u) (Some (JStr GREETING));
     currentQuestion := pick (u_currentQuestion u) (Some (JStr (js "greeting_confirmation")));
     data := pick (u_data u) (Some (JObj []));
     createdAt := Some now;
     lastActivity := Some now;
     waitingForFreeText := pick (u_waitingForFreeText u) (Some (JBool false));
     freeTextContext := Some JNull;
     metadata := Some (JObj [(js "saveCount", JNum 0); (js "messageCount", JNum 0)]);
     partialSchedule := u_partialSchedule u;
     pendingSchedule := u_pendingSchedule u;
     finalSchedule := u_finalSchedule u;
     clarificationAttempts := u_clarificationAttempts u;
     pastDateAttempt := u_pastDateAttempt u;
     completedAt := u_completedAt u |}.

Inductive SaveReason :=
| activity | state_change | question_change | data_update | free_text_change
| session_created | milestone | message_received | completion.

(** [getSaveReason(updates)] *)
Definition getSaveReason (u : Updates) : SaveReason :=
  if isSome (u_state u) then state_change
  else if isSome (u_currentQuestion u) then question_change
  else if isSome (u_data u) then data_update
  else if isSome (u_waitingForFreeText u) then free_text_change
  else activity.

Record SaveInfo := { timestamp : Z; reason : SaveReason }.

(** ** The world the script runs in

    [transport k] tells whether the [k]-th outbound send is delivered (it
    throws otherwise); [diskWritable] whether a file write succeeds; [clock]
    is what [new Date()] reads.  [saveTimeout] is the armed debounce timer
    with its delay. *)
Record World := {
  userSessions : list (JsString * Session);
  saveQueue : list (JsString * SaveInfo);
  saveTimeout : option Z;
  lastSaveTime : option Z;
  sessionsFile : File;
  callScheduleFile : File;
  diskWritable : bool;
  outbox : list (JsString * JsString);
  sendCount : nat;
  transport : nat -> bool;
  clock : Z
}.

Definition setSessions (m : list (JsString * Session)) (w : World) : World :=
  {| userSessions := m; saveQueue := saveQueue w; saveTimeout := saveTimeout w;
     lastSaveTime := lastSaveTime w; sessionsFile := sessionsFile w;
     callScheduleFile := callScheduleFile w; diskWritable := diskWritable w;
     outbox := outbox w; sendCount := sendCount w; transport := transport w;
     clock := clock w |}.

Definition setQueue (q : list (JsString * SaveInfo)) (w : World) : World :=
  {| userSessions := userSessions w; saveQueue := q; saveTimeout := saveTimeout w;
     lastSaveTime := lastSaveTime w; sessionsFile := sessionsFile w;
     callScheduleFile := callScheduleFile w; diskWritable := diskWritable w;
     outbox := outbox w; sendCount := sendCount w; transport := transport w;
     clock := clock w |}.

Definition setTimer (t : option Z) (w : World) : World :=
  {| userSessions := userSessions w; saveQueue := saveQueue w; saveTimeout := t;
     lastSaveTime := lastSaveTime w; sessionsFile := sessionsFile w;
     callScheduleFile := callScheduleFile w; diskWritable := diskWritable w;
     outbox := outbox w; sendCount := sendCount w; transport := transport w;
     clock := clock w |}.

Definition setLastSave (t : option Z) (w : World) : World :=
  {| userSessions := userSessions w; saveQueue := saveQueue w;
     saveTimeout := saveTimeout w; lastSaveTime := t;
     sessionsFile := sessionsFile w; callScheduleFile := callScheduleFile w;
     diskWritable := diskWritable w; outbox := outbox w;
     sendCount := sendCount w; transport := transport w; clock := clock w |}.

Definition setSessionsFile (f : File) (w : World) : World :=
  {| userSessions := userSessions w; saveQueue := saveQueue w;
     saveTimeout := saveTimeout w; lastSaveTime := lastSaveTime w;
     sessionsFile := f; callScheduleFile := callScheduleFile w;
     diskWritable := diskWritable w; outbox := outbox w;
     sendCount := sendCount w; transport := transport w; clock := clock w |}.

Definition setScheduleFile (f : File) (w : World) : World :=
  {| userSessions := userSessions w; saveQueue := saveQueue w;
     saveTimeout := saveTimeout w; lastSaveTime := lastSaveTime w;
     sessionsFile := sessionsFile w; callScheduleFile := f;
     diskWritable := diskWritable w; outbox := outbox w;
     sendCount := sendCount w; transport := transport w; clock := clock w |}.

(** A computation either returns or throws; the effects made before a throw
    stay. *)
Inductive Outcome (A : Type) :=
| Returned (a : A) (w : World)
| Thrown (w : World).
Arguments Returned {A} a w.
Arguments Thrown {A} w.

Definition M (A : Type) := World -> Outcome A.

Definition ret {A} (a : A) : M A := fun w => Returned a w.
Definition throw {A} : M A := fun w => Thrown w.
Definition bind {A B} (m : M A) (k : A -> M B) : M B :=
  fun w => match m w with
           | Returned a w' => k a w'
           | Thrown w' => Thrown w'
           end.
Definition tryCatch {A} (m : M A) (handler : M A) : M A :=
  fun w => match m w with
           | Returned a w' => Returned a w'
           | Thrown w' => handler w'
           end.
Definition modify (f : World -> World) : M unit := fun w => Returned tt (f w).
Definition gets {A} (f : World -> A) : M A := fun w => Returned (f w) w.

Definition worldOf {A} (o : Outcome A) : World :=
  match o with Returned _ w => w | Thrown w => w end.

Notation "x <- m ;; k" := (bind m (fun x => k))
  (at level 61, m at next level, right associativity).
Notation "m ;; k" := (bind m (fun _ => k))
  (at level 61, right associativity).

(** [client.sendMessage(to, text)] and [message.reply(text)] *)
Definition send (to text : JsString) : M unit :=
  fun w =>
    let w' :=
      {| userSessions := userSessions w; saveQueue := saveQueue w;
         saveTimeout := saveTimeout w; lastSaveTime := lastSaveTime w;
         sessionsFile := sessionsFile w; callScheduleFile := callScheduleFile w;
         diskWritable := diskWritable w;
         outbox := if transport w (sendCount w) then outbox w ++ [(to, text)]
                   else outbox w;
         sendCount := S (sendCount w); transport := transport w;
         clock := clock w |} in
    if transport w (sendCount w) then Returned tt w' else Thrown w'.

(** ** Smart session manager *)

Definition debounceDelay : Z := 2000.
Definition maxBatchSize : Z := 10.

(** [session.metadata?.saveCount] and the like. *)
Definition optProp (v : option Json) (key : JsString) : option Json :=
  match getProp v key with
  | Some r => r
  | None => None
  end.

(** [serializeSession(session)]; [None] when [toISOString] throws on an
    invalid date. *)
Definition serializeSession (now : Z) (session : Session) : option Json :=
  do created <- createdAt session ;
  do active <- lastActivity session ;
  Some (JObj (literal
    [ (js "state", state session);
      (js "currentQuestion", currentQuestion session);
      (js "data", data session);
      (js "createdAt", Some (JStr (toISOString created)));
      (js "lastActivity", Some (JStr (toISOString active)));
      (js "waitingForFreeText",
        Some (orElse (waitingForFreeText session) (JBool false)));
      (js "freeTextContext", Some (orElse (freeTextContext session) JNull));
      (js "metadata",
        Some (JObj [ (js "saveCount",
                       orZeroPlusOne (optProp (metadata session) (js "saveCount")));
                     (js "lastSaved", JStr (toISOString now)) ])) ])).

(** The update loop of [saveSessionsToFile]; [None] when a session cannot be
    serialized. *)
Fixpoint updateEntries (now : Z) (sessions : list (JsString * Session))
                       (whatsappIds : list JsString)
                       (allSessions : list (JsString * Json))
  : option (list (JsString * Json)) :=
  match whatsappIds with
  | [] => Some allSessions
  | whatsappId :: rest =>
      match mapGet whatsappId sessions with
      | Some session =>
          do entry <- serializeSession now session ;
          updateEntries now sessions rest (objSet whatsappId entry allSessions)
      | None => updateEntries now sessions rest (mapDelete whatsappId allSessions)
      end
  end.

(** [saveSessionsToFile(whatsappIds)]: any failure is rethrown. *)
Definition saveSessionsToFile (whatsappIds : list JsString) : M unit :=
  fun w =>
    let existing :=
      match sessionsFile w with
      | Missing => Some []
      | Unreadable => None
      | Content table => Some table
      end in
    match existing with
    | None => Thrown w
    | Some allSessions =>
        match updateEntries (clock w) (userSessions w) whatsappIds allSessions with
        | None => Thrown w
        | Some allSessions' =>
            if diskWritable w
            then Returned tt (setSessionsFile (Content allSessions') w)
            else Thrown w
        end
    end.

(** [executeSave()]: a failed save is logged and leaves the queue as it is. *)
Definition executeSave : M unit :=
  fun w =>
    match saveQueue w with
    | [] => Returned tt w
    | _ =>
        match saveSessionsToFile (map fst (saveQueue w)) w with
        | Returned _ w' => Returned tt (setLastSave (Some (clock w')) (setQueue [] w'))
        | Thrown w' => Returned tt w'
        end
    end.

(** [isCriticalEvent()] *)
Definition isCriticalEvent (queue : list (JsString * SaveInfo)) : bool :=
  existsb (fun entry =>
             match reason (snd entry) with
             | state_change | completion => true
             | _ => false
             end) queue.

(** [calculateDynamicDelay()] *)
Definition calculateDynamicDelay (queue : list (JsString * SaveInfo)) : Z :=
  let queueSize := Z.of_nat (length queue) in
  if maxBatchSize <=? queueSize then 500
  else if 5 <? queueSize then 1000
  else debounceDelay.

(** [debounceSave()]: the pending timer is cancelled; a critical event saves
    at once, otherwise a timer is armed with the dynamic delay. *)
Definition debounceSave : M unit :=
  fun w =>
    let w1 := setTimer None w in
    if isCriticalEvent (saveQueue w1) then executeSave w1
    else Returned tt (setTimer (Some (calculateDynamicDelay (saveQueue w1))) w1).

(** [markForSave(whatsappId, reason)] *)
Definition markForSave (whatsappId : JsString) (why : SaveReason) : M unit :=
  modify (fun w =>
    setQueue (mapSet whatsappId {| timestamp := clock w; reason := why |}
                     (saveQueue w)) w) ;;
  debounceSave.

(** [forceSave()] *)
Definition forceSave : M unit :=
  fun w => saveSessionsToFile (map fst (userSessions w)) w.

(** [createOrUpdateSession(whatsappId, updates)] *)
Definition createOrUpdateSession (whatsappId : JsString) (updates : Updates)
  : M Session :=
  fun w =>
    let now := clock w in
    match mapGet whatsappId (userSessions w) with
    | Some existingSession =>
        let session := assign existingSession updates now in
        (markForSave whatsappId (getSaveReason updates) ;; ret session)
          (setSessions (mapSet whatsappId session (userSessions w)) w)
    | None =>
        let session := newSession updates now in
        (markForSave whatsappId session_created ;; ret session)
          (setSessions (mapSet whatsappId session (userSessions w)) w)
    end.

(** ** Load path *)

(** [new Date(v)] for a value read from a file.  Of the texts, only the ISO
    format is read; instants are not clipped to the range of a Date. *)
Definition dateOfJson (v : option Json) : option Z :=
  match v with
  | None => None
  | Some JNull => Some 0
  | Some (JBool b) => Some (if b then 1 else 0)
  | Some (JNum n) => Some n
  | Some x => dateOfISO (jsonToString x)
  end.

Definition defaultMetadata : Json :=
  JObj [(js "saveCount", JNum 0); (js "messageCount", JNum 0)].

(** The session literal built for one entry of the file; [None] when reading
    a property of [null] throws. *)
Definition reviveSession (sessionData : Json) : option Session :=
  match sessionData with
  | JNull => None
  | _ =>
      let prop key := optProp (Some sessionData) key in
      Some {| state := prop (js "state");
              currentQuestion := prop (js "currentQuestion");
              data := prop (js "data");
              createdAt := dateOfJson (prop (js "createdAt"));
              lastActivity := dateOfJson (prop (js "lastActivity"));
              waitingForFreeText := prop (js "waitingForFreeText");
              freeTextContext := prop (js "freeTextContext");
              metadata := Some (orElse (prop (js "metadata")) defaultMetadata);
              partialSchedule := prop (js "partialSchedule");
              pendingSchedule := prop (js "pendingSchedule");
              finalSchedule := prop (js "finalSchedule");
              clarificationAttempts := prop (js "clarificationAttempts");
              pastDateAttempt := prop (js "pastDateAttempt");
              completedAt := prop (js "completedAt") |}
  end.

Fixpoint loadEntries (entries : list (JsString * Json)) : M unit :=
  match entries with
  | [] => ret tt
  | (whatsappId, sessionData) :: rest =>
      match reviveSession sessionData with
      | Some session =>
          modify (fun w => setSessions (mapSet whatsappId session (userSessions w)) w) ;;
          loadEntries rest
      | None => throw
      end
  end.

(** [now - session.lastActivity > maxAge]; never true of an invalid date. *)
Definition isExpired (h : Host) (now : Z) (session : Session) : bool :=
  match lastActivity session with
  | Some active => sessionTimeoutDays h * 24 * 60 * 60 * 1000 <? now - active
  | None => false
  end.

(** The sweep of [cleanupExpiredSessions]: a notice is attempted, then the
    session is deleted; the result is the number of sessions cleaned. *)
Fixpoint sweep (h : Host) (now : Z) (entries : list (JsString * Session)) : M Z :=
  match entries with
  | [] => ret 0
  | (whatsappId, session) :: rest =>
      if isExpired h now session then
        tryCatch (send whatsappId (getMessage h (js "messages.timeout.sessionEnded")))
                 (ret tt) ;;
        modify (fun w => setSessions (mapDelete whatsappId (userSessions w)) w) ;;
        cleaned <- sweep h now rest ;;
        ret (cleaned + 1)
      else sweep h now rest
  end.

(** [cleanupExpiredSessions()] *)
Definition cleanupExpiredSessions (h : Host) : M unit :=
  now <- gets clock ;;
  entries <- gets userSessions ;;
  cleanedCount <- sweep h now entries ;;
  if 0 <? cleanedCount then forceSave else ret tt.

(** [loadSessionsFromFile()]: whatever is thrown is logged. *)
Definition loadSessionsFromFile (h : Host) : M unit :=
  tryCatch
    (file <- gets sessionsFile ;;
     match file with
     | Missing => ret tt
     | Unreadable => throw
     | Content sessionsData => loadEntries sessionsData ;; cleanupExpiredSessions h
     end)
    (ret tt).

(** ** Conflict detector *)

Definition dayNames : list JsString :=
  [ js "Sunday"; js "Monday"; js "Tuesday"; js "Wednesday"; js "Thursday";
    js "Friday"; js "Saturday" ].

Definition monthNames : list JsString :=
  [ js "January"; js "February"; js "March"; js "April"; js "May"; js "June";
    js "July"; js "August"; js "September"; js "October"; js "November";
    js "December" ].

Definition ordinalSuffix (n : Z) : JsString :=
  if (n mod 100) / 10 =? 1 then js "th"
  else if n mod 10 =? 1 then js "st"
  else if n mod 10 =? 2 then js "nd"
  else if n mod 10 =? 3 then js "rd"
  else js "th".

(** [m.format('dddd, MMMM Do [at] h:mm A')] *)
Definition formatLong (t : Z) : JsString :=
  let '(_, m, d) := civil_from_days (dayNumber t) in
  let hh := hourOf t in
  nth (Z.to_nat (weekday t)) dayNames [] ++ js ", "
  ++ nth (Z.to_nat (m - 1)) monthNames [] ++ js " "
  ++ zeroFill 1 d ++ ordinalSuffix d ++ js " at "
  ++ zeroFill 1 (if hh mod 12 =? 0 then 12 else hh mod 12) ++ js ":"
  ++ pad2 (minuteOf t) ++ js " " ++ (if hh <? 12 then js "AM" else js "PM").

Record ConflictResult := {
  hasConflict : bool;
  conflictingPhone : option JsString;
  conflictingDateTime : option JsString;
  conflictingDate : option Json;
  conflictingTime : option Json;
  timeDifference : option Z
}.

Definition noConflict : ConflictResult :=
  {| hasConflict := false; conflictingPhone := None; conflictingDateTime := None;
     conflictingDate := None; conflictingTime := None; timeDifference := None |}.

(** [excludePhoneNumber && phoneNumber === excludePhoneNumber] *)
Definition isExcluded (excludePhoneNumber : option JsString) (phoneNumber : JsString)
  : bool :=
  match excludePhoneNumber with
  | Some (c :: e) => str_eqb phoneNumber (c :: e)
  | _ => false
  end.

(** [schedule.status && (status === 'cancelled' || status === 'completed')] *)
Definition isClosed (status : option Json) : bool :=
  truthy status && (isStr status (js "cancelled") || isStr status (js "completed")).

(** [Math.abs(a.diff(b, 'minutes'))]: the difference is truncated toward zero. *)
Definition minutesApart (a b : Z) : Z := Z.abs (Z.quot (a - b) msPerMinute).

(** [moment(`${date} ${time}`, 'DD/MM/YYYY HH:mm')] *)
Definition combined (h : Host) (date time : option Json) : option Z :=
  momentParse h (toStringJs date ++ js " " ++ toStringJs time).

(** The loop of [checkTimeConflict] over the entries of the table; [None]
    when an entry is [null] and reading its status throws. *)
Fixpoint scanSchedules (h : Host) (newDateTime : Z)
                       (excludePhoneNumber : option JsString)
                       (entries : list (JsString * Json))
  : option ConflictResult :=
  match entries with
  | [] => Some noConflict
  | (phoneNumber, schedule) :: rest =>
      if isExcluded excludePhoneNumber phoneNumber
      then scanSchedules h newDateTime excludePhoneNumber rest
      else
        do status <- getProp (Some schedule) (js "status") ;
        if isClosed status
        then scanSchedules h newDateTime excludePhoneNumber rest
        else
          let date := optProp (Some schedule) (js "date") in
          let time := optProp (Some schedule) (js "time") in
          match combined h date time with
          | None => scanSchedules h newDateTime excludePhoneNumber rest
          | Some existingDateTime =>
              let difference := minutesApart newDateTime existingDateTime in
              if difference <? 15 then
                Some {| hasConflict := true;
                        conflictingPhone := Some phoneNumber;
                        conflictingDateTime := Some (formatLong existingDateTime);
                        conflictingDate := date;
                        conflictingTime := time;
                        timeDifference := Some difference |}
              else scanSchedules h newDateTime excludePhoneNumber rest
          end
  end.

(** [checkTimeConflict(newDate, newTime, excludePhoneNumber)] against the
    schedule file: every failure is caught and answered with no conflict. *)
Definition checkTimeConflict (h : Host) (file : File) (newDate newTime : option Json)
                             (excludePhoneNumber : option JsString)
  : ConflictResult :=
  match file with
  | Missing => noConflict
  | Unreadable => noConflict
  | Content allSchedules =>
      match combined h newDate newTime with
      | None => noConflict
      | Some newDateTime =>
          match scanSchedules h newDateTime excludePhoneNumber allSchedules with
          | Some result => result
          | None => noConflict
          end
      end
  end.

(** [saveCallSchedule(phoneNumber, scheduleData)].  [scheduleData] lists the
    own properties of the object passed, in their order.  The booking is
    [{...scheduleData, createdAt, status}]: a key the caller passed itself
    keeps its place and takes the new value, a new key is appended.  A file
    that cannot be read or parsed is replaced by an empty table; a failed
    write is logged.  The assignment into the table is outside both [try]
    blocks: of the files of the model (absent, unreadable, or holding an
    object) none makes it throw; a file that parses to [null] would, and is
    outside [File]. *)
Definition saveCallSchedule (phoneNumber : JsString)
                            (scheduleData : list (JsString * option Json)) : M unit :=
  modify (fun w =>
    let allSchedules :=
      match callScheduleFile w with
      | Content table => table
      | _ => []
      end in
    let booking :=
      JObj (literal
              (mapSet (js "status") (Some (JStr (js "scheduled")))
                 (mapSet (js "createdAt") (Some (JStr (toISOString (clock w))))
                    scheduleData))) in
    if diskWritable w
    then setScheduleFile (Content (objSet phoneNumber booking allSchedules)) w
    else w).

(** ** Conversation driver *)

(** [whatsappId.split('@')[0]] *)
Fixpoint extractPhoneNumber (whatsappId : JsString) : JsString :=
  match whatsappId with
  | [] => []
  | c :: rest => if c =? 64 then [] else c :: extractPhoneNumber rest
  end.

Definition stateUpdate (st question : JsString) : Updates :=
  {| u_state := Some (JStr st); u_currentQuestion := Some (JStr question);
     u_data := None; u_waitingForFreeText := None; u_partialSchedule := None;
     u_pendingSchedule := None; u_finalSchedule := None;
     u_clarificationAttempts := None; u_pastDateAttempt := None;
     u_completedAt := None |}.

Definition withAttempts (u : Updates) (n : Json) : Updates :=
  {| u_state := u_state u; u_currentQuestion := u_currentQuestion u;
     u_data := u_data u; u_waitingForFreeText := u_waitingForFreeText u;
     u_partialSchedule := u_partialSchedule u;
     u_pendingSchedule := u_pendingSchedule u;
     u_finalSchedule := u_finalSchedule u;
     u_clarificationAttempts := Some n;
     u_pastDateAttempt := u_pastDateAttempt u; u_completedAt := u_completedAt u |}.

Definition withSchedules (u : Updates) (partial pending : option Json) : Updates :=
  {| u_state := u_state u; u_currentQuestion := u_currentQuestion u;
     u_data := u_data u; u_waitingForFreeText := u_waitingForFreeText u;
     u_partialSchedule := partial;
     u_pendingSchedule := pending;
     u_finalSchedule := u_finalSchedule u;
     u_clarificationAttempts := u_clarificationAttempts u;
     u_pastDateAttempt := u_pastDateAttempt u; u_completedAt := u_completedAt u |}.

Section Driver.
Variable h : Host.
(** The sender of the message being handled. *)
Variable from : JsString.

Definition reply (text : JsString) : M unit := send from text.
Definition message (key : string) : JsString := getMessage h (js key).

(** [handleGreeting(message)] *)
Definition greeting : JsString :=
  [55357; 56395]
  ++ js " Hi, this is your assistant from CovanEdu.com. We'd like to schedule a call to discuss how we can help you. May I ask a few quick questions to schedule the best time for you?"
  ++ [10; 10]
  ++ js "Please reply with *yes* to continue.".

Definition handleGreeting : M unit :=
  reply greeting ;;
  createOrUpdateSession from
    (stateUpdate WAITING_INITIAL_RESPONSE (js "initial_response")) ;;
  ret tt.

(** [handleInitialResponse(message, session, body)] *)
Definition handleInitialResponse (session : Session) (body : JsString) : M unit :=
  tryCatch
    (match analyzeSentiment h body yes_no_question with
     | positive =>
         reply (message "messages.questions.askCallTime") ;;
         createOrUpdateSession from (stateUpdate ASKING_CALL_TIME (js "call_time")) ;;
         ret tt
     | negative =>
         reply (message "messages.questions.askReason") ;;
         createOrUpdateSession from (stateUpdate ASKING_REASON (js "reason")) ;;
         ret tt
     | neutral =>
         reply (message "messages.questions.askClarification") ;;
         createOrUpdateSession from
           (withAttempts (stateUpdate CLARIFYING_RESPONSE (js "clarification"))
                         (orZeroPlusOne (clarificationAttempts session))) ;;
         ret tt
     end)
    (reply (message "messages.errors.clarificationNeeded")).

(** [handleClarificationResponse(message, session, body)] *)
Definition handleClarificationResponse (session : Session) (body : JsString)
  : M unit :=
  tryCatch
    (match analyzeSentiment h body yes_no_question with
     | positive =>
         reply (message "messages.questions.askCallTime") ;;
         createOrUpdateSession from
           (withAttempts (stateUpdate ASKING_CALL_TIME (js "call_time")) (JNum 0)) ;;
         ret tt
     | negative =>
         reply (message "messages.questions.askReason") ;;
         createOrUpdateSession from
           (withAttempts (stateUpdate ASKING_REASON (js "reason")) (JNum 0)) ;;
         ret tt
     | neutral =>
         reply (message "messages.errors.stillUnclear") ;;
         createOrUpdateSession from
           (withAttempts noUpdates (orZeroPlusOne (clarificationAttempts session))) ;;
         ret tt
     end)
    (reply (message "messages.errors.clarificationNeeded")).

(** [handleReasonResponse(message, session, body)] *)
Definition handleReasonResponse (session : Session) (body : JsString) : M unit :=
  tryCatch
    (reply (message "messages.success.thankYou") ;;
     createOrUpdateSession from (stateUpdate COMPLETED (js "completed")) ;;
     markForSave from completion)
    (reply (message "messages.success.thankYou")).

(** [handleScheduleConfirmation(message, session, body)] *)
Definition handleScheduleConfirmation (session : Session) (body : JsString)
  : M unit :=
  tryCatch
    (match analyzeSentiment h body yes_no_question with
     | positive =>
         let phoneNumber := extractPhoneNumber from in
         match getProp (pendingSchedule session) (js "date") with
         | None => throw
         | Some date =>
             let pending key := optProp (pendingSchedule session) key in
             file <- gets callScheduleFile ;;
             let finalConflictCheck :=
               checkTimeConflict h file date (pending (js "time"))
                                 (Some phoneNumber) in
             if hasConflict finalConflictCheck then
               reply (js "I'm sorry, but that time slot was just booked by someone else. There's now a call scheduled for "
                      ++ toStringJs (option_map JStr (conflictingDateTime finalConflictCheck))
                      ++ js ". Let's find you another time.") ;;
               reply (message "messages.questions.askDate") ;;
               createOrUpdateSession from
                 (withSchedules (stateUpdate ASKING_DATE (js "date"))
                                (Some JNull) (Some JNull)) ;;
               ret tt
             else
               now <- gets clock ;;
               let scheduleData :=
                 [ (js "date", date);
                   (js "time", pending (js "time"));
                   (js "formatted", pending (js "formatted"));
                   (js "originalRequest", pending (js "originalText"));
                   (js "confirmedAt", Some (JStr (toISOString now))) ] in
               saveCallSchedule phoneNumber scheduleData ;;
               reply (message "messages.success.callScheduled") ;;
               createOrUpdateSession from (stateUpdate COMPLETED (js "completed")) ;;
               markForSave from completion
         end
     | _ =>
         reply (message "messages.questions.askCallTime") ;;
         createOrUpdateSession from
           (withSchedules (stateUpdate ASKING_CALL_TIME (js "call_time"))
                          None (Some JNull)) ;;
         ret tt
     end)
    (reply (message "messages.errors.confirmationNeeded")).
End Driver.

(** The handler the message listener runs for an existing session, by the
    session's state. *)
Inductive Handler :=
| HandleGreeting | HandleInitialResponse | HandleClarificationResponse
| HandleReasonResponse | HandleCallTimeResponse | HandleDateResponse
| HandleTimeResponse | HandleScheduleConfirmation | Ignored.

Definition route (st : option Json) : Handler :=
  if isStr st IDLE then HandleGreeting
  else if isStr st GREETING then HandleInitialResponse
  else if isStr st WAITING_INITIAL_RESPONSE then HandleInitialResponse
  else if isStr st CLARIFYING_RESPONSE then HandleClarificationResponse
  else if isStr st ASKING_REASON then HandleReasonResponse
  else if isStr st ASKING_CALL_TIME then HandleCallTimeResponse
  else if isStr st ASKING_DATE then HandleDateResponse
  else if isStr st ASKING_TIME then HandleTimeResponse
  else if isStr st CONFIRMING_SCHEDULE then HandleScheduleConfirmation
  else Ignored.

(** ** Comprehensive keyword detector *)

(** A pattern of the detector.  [Words] is an alternation of literals
    between word boundaries, with the [i] flag.  [Marks] is an alternation
    without assertions, with the [g] flag: it is given by its source text and
    by what its alternatives find in a string (a literal, or two of a mark
    that may be repeated).  A pattern is created anew for each call, so a
    test starts at the beginning of the string. *)
Inductive Pattern :=
| Words (alts : list JsString)
| Marks (source : JsString) (finds : list JsString).

Fixpoint joinBar (alts : list JsString) : JsString :=
  match alts with
  | [] => []
  | [a] => a
  | a :: rest => a ++ 124 :: joinBar rest
  end.

(** [pattern.source] *)
Definition source (p : Pattern) : JsString :=
  match p with
  | Words alts => [92; 98; 40] ++ joinBar alts ++ [41; 92; 98]
  | Marks text _ => text
  end.

(** [pattern.test(s)] *)
Definition test (upper : Z -> Z) (p : Pattern) (s : JsString) : bool :=
  match p with
  | Words alts => testI upper alts s
  | Marks _ finds => containsAny finds s
  end.

(** [text.includes(part)] *)
Definition includes (text part : JsString) : bool := containsAny [part] text.

(** First pattern of the list that matches, as the loops that [break] or
    [return] on a match find it. *)
Fixpoint firstMatch (upper : Z -> Z) (patterns : list Pattern) (s : JsString)
  : option Pattern :=
  match patterns with
  | [] => None
  | p :: rest => if test upper p s then Some p else firstMatch upper rest s
  end.

(** [Math.max(a, b)] on numbers that are not [NaN]. *)
Definition fmax (a b : float) : float := if (a <? b)%float then b else a.

Module ComprehensiveKeywordDetector.

(** The result of a detector: [level] holds the property the detector calls
    [type], [level] or [action]; [None] is [null]. *)
Record Detection := {
  detected : bool;
  level : option JsString;
  confidence : float
}.

Record CallReason := {
  reasonDetected : bool;
  reasons : list JsString;
  primary : JsString;
  reasonConfidence : float
}.

Definition greetingPatterns : list Pattern :=
  [ Words
      [ js "hello"; js "hi"; js "hey"; js "hiya"; js "howdy"; js "greetings";
        js "good morning"; js "good afternoon"; js "good evening";
        js "good day" ];
    Words
      [ js "sup"; js "what's up"; js "whats up"; js "wassup"; js "yo";
        js "hola"; js "namaste"; js "salaam"; js "salam" ];
    Words
      [ js "morning"; js "afternoon"; js "evening"; js "night" ];
    Words
      [ js "bonjour"; js "guten tag"; js "buongiorno"; js "buenos dias";
        js "konnichiwa"; js "annyeonghaseyo" ];
    Marks
      [ 55357; 56395; 124; 55357; 56907; 124; 55357; 56842; 124; 55357;
        56836; 124; 55357; 56898; 124; 55357; 56397 ]
      [ [55357; 56395]; [55357; 56907]; [55357; 56842]; [55357; 56836];
        [55357; 56898]; [55357; 56397] ] ].

Definition farewellPatterns : list Pattern :=
  [ Words
      [ js "goodbye"; js "bye"; js "farewell"; js "see you";
        js "talk to you later"; js "ttyl"; js "catch you later";
        js "take care" ];
    Words
      [ js "later"; js "peace"; js "ciao"; js "adios"; js "au revoir";
        js "auf wiedersehen"; js "sayonara"; js "cheers" ];
    Words
      [ js "have a good day"; js "have a great day"; js "have a nice day";
        js "good night"; js "sweet dreams" ];
    Marks
      [ 55357; 56395; 124; 55357; 56842; 124; 55357; 56898; 124; 9996;
        65039; 124; 55357; 56397 ]
      [ [55357; 56395]; [55357; 56842]; [55357; 56898]; [9996; 65039];
        [55357; 56397] ] ].

Definition urgencyPatterns : list Pattern :=
  [ Words
      [ js "urgent"; js "emergency"; js "asap"; js "as soon as possible";
        js "immediately"; js "right now"; js "right away"; js "critical";
        js "important" ];
    Words
      [ js "quickly"; js "fast"; js "hurry"; js "rush"; js "deadline";
        js "time sensitive"; js "time-sensitive"; js "pressing" ];
    Words
      [ js "priority"; js "high priority"; js "top priority"; js "crucial";
        js "vital"; js "essential"; js "must" ];
    Words
      [ js "please hurry"; js "need help"; js "help me"; js "desperate";
        js "can't wait" ];
    Marks (js "!{2,}|URGENT|EMERGENCY|ASAP")
      [ js "!!"; js "URGENT"; js "EMERGENCY"; js "ASAP" ] ].

Definition politenessPatterns : list Pattern :=
  [ Words
      [ js "please"; js "kindly"; js "would you"; js "could you"; js "may i";
        js "if you don't mind"; js "if possible" ];
    Words
      [ js "thank you"; js "thanks"; js "appreciate"; js "grateful";
        js "much obliged"; js "cheers" ];
    Words
      [ js "sorry"; js "apologize"; js "excuse me"; js "pardon"; js "my bad";
        js "forgive me" ];
    Words
      [ js "sir"; js "madam"; js "mr"; js "mrs"; js "ms"; js "dear";
        js "respectfully"; js "humbly" ];
    Words
      [ js "when convenient"; js "at your convenience"; js "no rush";
        js "take your time"; js "whenever you can" ] ].

Definition cancellationPatterns : list Pattern :=
  [ Words
      [ js "cancel"; js "cancelled"; js "canceling"; js "abort"; js "stop";
        js "halt"; js "terminate"; js "end"; js "quit" ];
    Words
      [ js "reschedule"; js "postpone"; js "delay"; js "move"; js "shift";
        js "change"; js "different time"; js "another time" ];
    Words
      [ js "not available"; js "can't make it"; js "won't be able";
        js "something came up"; js "conflict"; js "busy" ];
    Words
      [ js "need to cancel"; js "have to cancel"; js "sorry but";
        js "unfortunately"; js "regret to inform" ] ].

Definition confusionPatterns : list Pattern :=
  [ Words
      [ js "confused"; js "don't understand"; js "unclear";
        js "what do you mean"; js "what"; js "huh"; js "eh" ];
    Words
      [ js "can you explain"; js "could you clarify"; js "what exactly";
        js "how do you mean"; js "i'm lost" ];
    Words
      [ js "not sure"; js "uncertain"; js "don't know"; js "no idea";
        js "clueless"; js "puzzled"; js "baffled" ];
    Words
      [ js "help me understand"; js "need clarification"; js "can you help";
        js "explain please" ];
    Words
      [ js "frustrated"; js "lost"; js "overwhelmed"; js "don't get it";
        js "makes no sense" ];
    Marks
      [ 92; 63; 123; 50; 44; 125; 124; 55357; 56853; 124; 55357; 56885;
        124; 55358; 56596; 124; 10067; 124; 10068 ]
      [ js "??"; [55357; 56853]; [55357; 56885]; [55358; 56596]; [10067];
        [10068] ] ].

Definition reasonPatterns : list Pattern :=
  [ Words
      [ js "business"; js "work"; js "professional"; js "meeting";
        js "consultation"; js "discussion"; js "proposal" ];
    Words
      [ js "education"; js "learning"; js "course"; js "training";
        js "study"; js "academic"; js "school"; js "university" ];
    Words
      [ js "support"; js "help"; js "assistance"; js "guidance"; js "advice";
        js "question"; js "problem"; js "issue" ];
    Words
      [ js "sales"; js "marketing"; js "product"; js "service"; js "demo";
        js "presentation"; js "offer"; js "deal" ];
    Words
      [ js "personal"; js "private"; js "family"; js "health"; js "medical";
        js "urgent"; js "important" ];
    Words
      [ js "information"; js "details"; js "inquiry"; js "question";
        js "clarification"; js "explanation" ];
    Words
      [ js "follow up"; js "follow-up"; js "callback"; js "return call";
        js "continuation"; js "update" ] ].


(** What a detector reports, as a triple. *)
Definition report (d : Detection) : bool * option JsString * float :=
  (detected d, level d, confidence d).

Definition isLevel (d : Detection) (name : string) : bool :=
  match level d with
  | Some l => str_eqb l (js name)
  | None => false
  end.
Arguments isLevel d name%_string.

Section Detectors.
Variable h : Host.

Definition lowered (text : JsString) : JsString := trim (toLowerCase h text).

(** [detectGreeting(text)] *)
Definition detectGreeting (text : JsString) : Detection :=
  match firstMatch (toUpperUnit h) greetingPatterns (lowered text) with
  | Some _ =>
      {| detected := true; level := Some (js "greeting");
         confidence := 0x1.ccccccccccccdp-1 |}
  | None => {| detected := false; level := None; confidence := 0 |}
  end.

(** [detectFarewell(text)] *)
Definition detectFarewell (text : JsString) : Detection :=
  match firstMatch (toUpperUnit h) farewellPatterns (lowered text) with
  | Some _ =>
      {| detected := true; level := Some (js "farewell");
         confidence := 0x1.ccccccccccccdp-1 |}
  | None => {| detected := false; level := None; confidence := 0 |}
  end.

(** The grading shared by the detectors that stop at the first match: the
    level and confidence are chosen by what the source of the matching
    pattern includes. *)
Definition graded (patterns : list Pattern) (none : JsString)
                  (first firstLevel : JsString) (firstConfidence : float)
                  (second secondLevel : JsString) (secondConfidence : float)
                  (otherLevel : JsString) (otherConfidence : float)
                  (text : JsString) : Detection :=
  let '(l, c) :=
    match firstMatch (toUpperUnit h) patterns (lowered text) with
    | Some pattern =>
        if includes (source pattern) first then (firstLevel, firstConfidence)
        else if includes (source pattern) second then (secondLevel, secondConfidence)
        else (otherLevel, otherConfidence)
    | None => (none, 0%float)
    end in
  {| detected := negb (str_eqb l none); level := Some l; confidence := c |}.

(** [detectUrgency(text)] *)
Definition detectUrgency : JsString -> Detection :=
  graded urgencyPatterns (js "none")
         (js "emergency|urgent|asap|immediately") (js "high") 0x1.e666666666666p-1
         (js "quickly|priority|important") (js "medium") 0x1.999999999999ap-1
         (js "low") 0x1.3333333333333p-1.

(** [detectPoliteness(text)] *)
Definition detectPoliteness : JsString -> Detection :=
  graded politenessPatterns (js "neutral")
         (js "please|thank|appreciate|sorry") (js "high") 0x1.ccccccccccccdp-1
         (js "would you|could you|kindly") (js "medium") 0x1.6666666666666p-1
         (js "low") 0x1p-1.

(** [detectCancellationRescheduling(text)] *)
Definition detectCancellationRescheduling : JsString -> Detection :=
  graded cancellationPatterns (js "none")
         (js "reschedule|postpone|move|shift|change|different time") (js "reschedule")
         0x1.ccccccccccccdp-1
         (js "cancel|abort|stop|quit") (js "cancel") 0x1.e666666666666p-1
         (js "unavailable") 0x1.999999999999ap-1.

(** [detectConfusion(text)] *)
Definition detectConfusion : JsString -> Detection :=
  graded confusionPatterns (js "none")
         (js "confused|don't understand|unclear|what") (js "high") 0x1.ccccccccccccdp-1
         (js "not sure|uncertain|help") (js "medium") 0x1.6666666666666p-1
         (js "low") 0x1p-1.

(** The reason type [detectCallReason] reads off a pattern's source. *)
Definition reasonType (pattern : Pattern) : JsString :=
  let has part := includes (source pattern) part in
  if has (js "business|work|professional") then js "business"
  else if has (js "education|learning|course") then js "educational"
  else if has (js "support|help|assistance") then js "support"
  else if has (js "sales|marketing|product") then js "sales"
  else if has (js "personal|private|family") then js "personal"
  else if has (js "information|details|inquiry") then js "information"
  else if has (js "follow") then js "followup"
  else js "general".

(** [detectCallReason(text)]: every matching pattern contributes. *)
Definition detectCallReason (text : JsString) : CallReason :=
  let matching := filter (fun p => test (toUpperUnit h) p (lowered text)) reasonPatterns in
  let detectedReasons := map reasonType matching in
  {| reasonDetected := negb (Nat.eqb (length detectedReasons) 0);
     reasons := detectedReasons;
     primary := match detectedReasons with
                | r :: _ => if truthy (Some (JStr r)) then r else js "general"
                | [] => js "general"
                end;
     reasonConfidence :=
       fold_left (fun c _ => fmax c 0x1.999999999999ap-1) matching 0%float |}.

(** The analysis object before [overall] is added to it. *)
Record Findings := {
  greeting : Detection;
  farewell : Detection;
  urgency : Detection;
  politeness : Detection;
  cancellation : Detection;
  confusion : Detection;
  callReason : CallReason;
  timestamp : JsString
}.

Record Overall := {
  isGreeting : bool;
  isFarewell : bool;
  isUrgent : bool;
  isPolite : bool;
  needsCancellation : bool;
  needsHelp : bool;
  hasReason : bool;
  tone : JsString
}.

Record Analysis := { findings : Findings; overall : Overall }.

(** [determineTone(analysis)] *)
Definition determineTone (analysis : Findings) : JsString :=
  if detected (urgency analysis) && isLevel (urgency analysis) "high" then js "urgent"
  else if detected (confusion analysis) && isLevel (confusion analysis) "high"
  then js "confused"
  else if detected (cancellation analysis) then js "cancelling"
  else if detected (politeness analysis) && isLevel (politeness analysis) "high"
  then js "polite"
  else if detected (greeting analysis) then js "friendly"
  else if detected (farewell analysis) then js "closing"
  else js "neutral".

(** [analyzeMessage(text)], at the instant [now]. *)
Definition analyzeMessage (now : Z) (text : JsString) : Analysis :=
  let analysis :=
    {| greeting := detectGreeting text;
       farewell := detectFarewell text;
       urgency := detectUrgency text;
       politeness := detectPoliteness text;
       cancellation := detectCancellationRescheduling text;
       confusion := detectConfusion text;
       callReason := detectCallReason text;
       timestamp := toISOString now |} in
  {| findings := analysis;
     overall :=
       {| isGreeting := detected (greeting analysis);
          isFarewell := detected (farewell analysis);
          isUrgent := detected (urgency analysis)
                      && negb (isLevel (urgency analysis) "none");
          isPolite := detected (politeness analysis)
                      && negb (isLevel (politeness analysis) "neutral");
          needsCancellation := detected (cancellation analysis);
          needsHelp := detected (confusion analysis);
          hasReason := reasonDetected (callReason analysis);
          tone := determineTone analysis |} |}.
End Detectors.
End ComprehensiveKeywordDetector.

(** The sentiment [analyzeComprehensiveSentiment] reports: that of the
    keyword analysis, or one of its own two. *)
Inductive ComprehensiveSentiment :=
| basic (s : Sentiment)
| urgent_positive
| confused_neutral.

Record Comprehensive := {
  sentiment : ComprehensiveSentiment;
  keywords : ComprehensiveKeywordDetector.Analysis;
  comprehensiveConfidence : float
}.

(** [analyzeComprehensiveSentiment(text, context)], at the instant [now]. *)
Definition analyzeComprehensiveSentiment (h : Host) (now : Z) (text : JsString)
                                         (context : Context) : Comprehensive :=
  let keywordAnalysis := ComprehensiveKeywordDetector.analyzeMessage h now text in
  let found := ComprehensiveKeywordDetector.findings keywordAnalysis in
  let urgency := ComprehensiveKeywordDetector.urgency found in
  let confusion := ComprehensiveKeywordDetector.confusion found in
  let cancellation := ComprehensiveKeywordDetector.cancellation found in
  let politeness := ComprehensiveKeywordDetector.politeness found in
  let detected := ComprehensiveKeywordDetector.detected in
  let confidence := ComprehensiveKeywordDetector.confidence in
  let basicSentiment := analyzeKeywordSentiment h text context in
  let finalSentiment :=
    if detected urgency && ComprehensiveKeywordDetector.isLevel urgency "high"
    then urgent_positive
    else if detected confusion && ComprehensiveKeywordDetector.isLevel confusion "high"
    then confused_neutral
    else if detected cancellation
    then (if ComprehensiveKeywordDetector.isLevel cancellation "cancel"
          then basic negative else basic neutral)
    else if detected politeness
            && ComprehensiveKeywordDetector.isLevel politeness "high"
    then (if sentiment_eqb basicSentiment neutral then basic positive
          else basic basicSentiment)
    else basic basicSentiment in
  {| sentiment := finalSentiment;
     keywords := keywordAnalysis;
     comprehensiveConfidence :=
       fmax (fmax (fmax (confidence urgency) (confidence politeness))
                  (confidence confusion))
            (confidence cancellation) |}.

(** ** Shared utilities *)

(** [s.padStart(width, '0')] *)
Definition padStart (width : nat) (s : JsString) : JsString :=
  repeat 48 (width - length s) ++ s.

(** [list.indexOf(s)] on a list of strings: [-1] when absent. *)
Fixpoint indexOf (names : list JsString) (s : JsString) : Z :=
  match names with
  | [] => -1
  | name :: rest =>
      if str_eqb name s then 0
      else let i := indexOf rest s in if i <? 0 then -1 else i + 1
  end.

Module BotUtils.

(** [formatDate(day, month, year)]: [None] when [toString] is called on
    [null].  Numbers are integers (below 10^21, which print in full). *)
Definition formatDate (day month : Json) (year : option Json) : option JsString :=
  match day, month with
  | JNull, _ | _, JNull => None
  | _, _ =>
      Some (padStart 2 (jsonToString day) ++ [47]
            ++ padStart 2 (jsonToString month) ++ [47] ++ toStringJs year)
  end.

Definition days : list JsString :=
  [ js "sunday"; js "monday"; js "tuesday"; js "wednesday"; js "thursday";
    js "friday"; js "saturday" ].

(** [(targetDayIndex - currentDayIndex + 7) % 7 || 7] *)
Definition daysUntil (targetDayIndex currentDayIndex : Z) : Z :=
  let r := Z.rem (targetDayIndex - currentDayIndex + 7) 7 in
  if r =? 0 then 7 else r.

(** [getNextWeekday(now, targetDay)]: the date moved by whole days. *)
Definition getNextWeekday (h : Host) (now : Z) (targetDay : JsString) : Z :=
  let targetDayIndex := indexOf days (toLowerCase h targetDay) in
  let currentDayIndex := weekday now in
  addDays now (daysUntil targetDayIndex currentDayIndex).

End BotUtils.

(** ** The fallback resolver *)

(** [now.clone().day(k)] moved a week on when it is the same or before
    [now]: the day [k] of the current week, which begins on Sunday. *)
Definition dayOfThisWeekOrNext (now k : Z) : Z :=
  let targetDate := addDays now (k - weekday now) in
  if targetDate <=? now then addDays targetDate 7 else targetDate.

(** What [/(\d{1,2}):?(\d{2})?\s*(am|pm)?/] matches from a digit on: the
    three groups.  Every part after the first digit is optional, so the
    greedy choice at each part stands. *)
Definition timeGroupsAt (c : Z) (rest : JsString)
  : JsString * option JsString * option JsString :=
  let '(hours, rest) :=
    match rest with
    | d :: rest' => if isDigit d then ([c; d], rest') else ([c], rest)
    | [] => ([c], rest)
    end in
  let rest := match rest with
              | 58 :: rest' => rest'
              | _ => rest
              end in
  let '(minutes, rest) :=
    match rest with
    | d1 :: d2 :: rest' =>
        if isDigit d1 && isDigit d2 then (Some [d1; d2], rest') else (None, rest)
    | _ => (None, rest)
    end in
  let rest := trimStart rest in
  let ampm := if isPrefix (js "am") rest then Some (js "am")
              else if isPrefix (js "pm") rest then Some (js "pm")
              else None in
  (hours, minutes, ampm).

(** [lowerText.match(/(\d{1,2}):?(\d{2})?\s*(am|pm)?/)]: the match starts at
    the first digit. *)
Fixpoint timeMatch (s : JsString) : option (JsString * option JsString * option JsString) :=
  match s with
  | [] => None
  | c :: rest => if isDigit c then Some (timeGroupsAt c rest) else timeMatch rest
  end.

(** [parseTimeSimple(text, currentDateTime)] *)
Definition parseTimeSimple (h : Host) (text : JsString) (currentDateTime : Z)
  : TimeParseResult :=
  let lowerText := trim (toLowerCase h text) in
  let now := currentDateTime in
  let has (part : JsString) := includes lowerText part in
  let targetDate :=
    if has (js "tomorrow") then addDays now 1
    else if has (js "day after tomorrow") then addDays now 2
    else if has (js "next week") then addDays now 7
    else if has (js "monday") then dayOfThisWeekOrNext now 1
    else if has (js "tuesday") then dayOfThisWeekOrNext now 2
    else if has (js "wednesday") then dayOfThisWeekOrNext now 3
    else if has (js "thursday") then dayOfThisWeekOrNext now 4
    else if has (js "friday") then dayOfThisWeekOrNext now 5
    else if has (js "saturday") then dayOfThisWeekOrNext now 6
    else if has (js "sunday") then dayOfThisWeekOrNext now 0
    else now in
  let targetTime :=
    if has (js "morning") then js "09:00"
    else if has (js "afternoon") then js "14:00"
    else if has (js "evening") then js "18:00"
    else if has (js "night") then js "20:00"
    else
      match timeMatch lowerText with
      | Some (hours, minutes, ampm) =>
          let hour := readDigits 0 hours in
          let minute := match minutes with
                        | Some m => readDigits 0 m
                        | None => 0
                        end in
          let hour :=
            match ampm with
            | Some half =>
                if str_eqb half (js "pm") && negb (hour =? 12) then hour + 12
                else if str_eqb half (js "am") && (hour =? 12) then 0
                else hour
            | None => hour
            end in
          padStart 2 (decimal hour) ++ [58] ++ padStart 2 (decimal minute)
      | None => js "09:00"
      end in
  let formattedDate := formatDate targetDate in
  {| tp_success := true;
     tp_date := Some formattedDate;
     tp_time := Some targetTime;
     tp_hasDate := true;
     tp_hasTime := true;
     tp_needsDate := false;
     tp_needsTime := false;
     tp_formatted := Some (formattedDate ++ js "::" ++ targetTime);
     tp_complete := false;
     tp_immediate := false;
     tp_partial := false |}.

(** ** Automatic welcomes

    [welcomeSentNumbers] is a set of identifiers, kept as a list without
    repetition in insertion order; [TARGET_PHONE_NUMBERS] is the array read
    from the target file. *)

Definition setHas (x : JsString) (s : list JsString) : bool := existsb (str_eqb x) s.
Definition setAdd (x : JsString) (s : list JsString) : list JsString :=
  if setHas x s then s else s ++ [x].
Definition setDelete (x : JsString) (s : list JsString) : list JsString :=
  filter (fun y => negb (str_eqb y x)) s.

Definition setClock (t : Z) (w : World) : World :=
  {| userSessions := userSessions w; saveQueue := saveQueue w;
     saveTimeout := saveTimeout w; lastSaveTime := lastSaveTime w;
     sessionsFile := sessionsFile w; callScheduleFile := callScheduleFile w;
     diskWritable := diskWritable w; outbox := outbox w;
     sendCount := sendCount w; transport := transport w; clock := t |}.

(** [await delay(ms)], no message arriving meanwhile: the time passes, and a
    debounce timer that is due within it fires at its own time. *)
Definition delay (ms : Z) : M unit :=
  fun w =>
    match saveTimeout w with
    | Some due =>
        if due <=? ms
        then (executeSave ;; modify (setClock (clock w + ms)))
               (setClock (clock w + due) (setTimer None w))
        else Returned tt (setClock (clock w + ms) (setTimer (Some (due - ms)) w))
    | None => Returned tt (setClock (clock w + ms) w)
    end.

(** [isTargetPhoneNumber(whatsappId)]: [includes] compares with [===], so
    only a string of the array can be the phone number. *)
Definition isTargetPhoneNumber (targets : list Json) (whatsappId : JsString) : bool :=
  let phoneNumber := extractPhoneNumber whatsappId in
  existsb (fun target => isStr (Some target) phoneNumber) targets.

(** [sendAutoWelcomeMessage(whatsappId)]: the result, the set of welcomed
    identifiers and the world afterwards. *)
Definition sendAutoWelcomeMessage (h : Host) (whatsappId : JsString)
                                  (welcomeSentNumbers : list JsString) (w : World)
  : bool * list JsString * World :=
  if setHas whatsappId welcomeSentNumbers then (false, welcomeSentNumbers, w)
  else if mapHas whatsappId (userSessions w) then (false, welcomeSentNumbers, w)
  else
    let greeting := getMessage h (js "messages.welcome.initial") in
    let marked := setAdd whatsappId welcomeSentNumbers in
    match (send whatsappId greeting ;;
           createOrUpdateSession whatsappId
             (stateUpdate WAITING_INITIAL_RESPONSE (js "initial_response"))) w with
    | Returned _ w' => (true, marked, w')
    | Thrown w' => (false, setDelete whatsappId marked, w')
    end.

(** [`${phoneNumber}@c.us`] *)
Definition whatsappIdOf (phoneNumber : Json) : JsString :=
  jsonToString phoneNumber ++ js "@c.us".

(** [sendWelcomeToNewTargetNumbers()] over the target array. *)
Fixpoint sendWelcomeToNewTargetNumbers (h : Host) (targets : list Json)
                                       (welcomeSentNumbers : list JsString) (w : World)
  : list JsString * World :=
  match targets with
  | [] => (welcomeSentNumbers, w)
  | phoneNumber :: rest =>
      let whatsappId := whatsappIdOf phoneNumber in
      if negb (mapHas whatsappId (userSessions w))
         && negb (setHas whatsappId welcomeSentNumbers)
      then
        let '(_, marked, w1) :=
          sendAutoWelcomeMessage h whatsappId welcomeSentNumbers w in
        sendWelcomeToNewTargetNumbers h rest marked (worldOf (delay 2000 w1))
      else sendWelcomeToNewTargetNumbers h rest welcomeSentNumbers w
  end.

(** [session.lastActivity = new Date()] *)
Definition touch (now : Z) (s : Session) : Session :=
  {| state := state s; currentQuestion := currentQuestion s; data := data s;
     createdAt := createdAt s; lastActivity := Some now;
     waitingForFreeText := waitingForFreeText s;
     freeTextContext := freeTextContext s; metadata := metadata s;
     partialSchedule := partialSchedule s; pendingSchedule := pendingSchedule s;
     finalSchedule := finalSchedule s;
     clarificationAttempts := clarificationAttempts s;
     pastDateAttempt := pastDateAttempt s; completedAt := completedAt s |}.

(** The sessions [resumeInterruptedConversations] passes over: the state is
    [idle], or is [undefined] (which is what [CONVERSATION_STATES.CLOSING],
    not a state of the table, evaluates to). *)
Definition isSkippedOnResume (s : Session) : bool :=
  isStr (state s) IDLE || match state s with None => true | Some _ => false end.

(** [resumeInterruptedConversations()] *)
Definition resumeInterruptedConversations : M unit :=
  modify (fun w =>
    setSessions
      (map (fun entry =>
              if isSkippedOnResume (snd entry) then entry
              else (fst entry, touch (clock w) (snd entry)))
           (userSessions w))
      w).

(** ** The handlers that settle the call time *)

(** [s.replace(pattern, replacement)] with a string pattern: the first
    occurrence is replaced.  The replacements in use are written by the date
    library and hold no [$]. *)
Fixpoint replaceFirst (s pattern replacement : JsString) {struct s} : JsString :=
  if isPrefix pattern s then replacement ++ skipn (length pattern) s
  else match s with
       | [] => []
       | c :: s' => c :: replaceFirst s' pattern replacement
       end.

(** [m.format('dddd, MMMM Do')] and [m.format('h:mm A')] *)
Definition formatDay (t : Z) : JsString :=
  let '(_, m, d) := civil_from_days (dayNumber t) in
  nth (Z.to_nat (weekday t)) dayNames [] ++ js ", "
  ++ nth (Z.to_nat (m - 1)) monthNames [] ++ js " "
  ++ zeroFill 1 d ++ ordinalSuffix d.

Definition formatClock (t : Z) : JsString :=
  let hh := hourOf t in
  zeroFill 1 (if hh mod 12 =? 0 then 12 else hh mod 12) ++ js ":"
  ++ pad2 (minuteOf t) ++ js " " ++ (if hh <? 12 then js "AM" else js "PM").

(** What [format] writes for a moment that may be invalid. *)
Definition formatted (format : Z -> JsString) (m : option Z) : JsString :=
  match m with
  | Some t => format t
  | None => js "Invalid date"
  end.

(** A property of the parse result as a value: a string or [null]. *)
Definition textOrNull (v : option JsString) : option Json :=
  match v with
  | Some s => Some (JStr s)
  | None => Some JNull
  end.

Section CallTime.
Variable h : Host.
Variable from : JsString.
Variable laterDateRows : JsString -> Z -> option JsString.
Variable timeRows : JsString -> Z -> option JsString.
(** The date library's reading of a date alone (['DD/MM/YYYY']), and of a
    time alone (['HH:mm']) on the day of the given instant. *)
Variable momentDate : JsString -> option Z.
Variable momentTime : Z -> JsString -> option Z.

(** [moment(`${date} ${time}`, 'DD/MM/YYYY HH:mm').format('dddd, MMMM Do [at] h:mm A')] *)
Definition longForm (date time : option Json) : JsString :=
  formatted formatLong (combined h date time).

(** [handlePastDateTimeValidation(message, date, time, currentDateTime, originalText)] *)
Definition handlePastDateTimeValidation (date time : option Json)
                                        (currentDateTime : Z)
                                        (originalText : JsString) : M bool :=
  if isDateTimeInPast h (toStringJs date) (toStringJs time) currentDateTime originalText
  then
    let formattedDateTime := longForm date time in
    reply from (replaceFirst (message h "messages.errors.pastDateTime")
                             (js "{datetime}") formattedDateTime) ;;
    now <- gets clock ;;
    createOrUpdateSession from
      {| u_state := Some (JStr ASKING_CALL_TIME);
         u_currentQuestion := Some (JStr (js "call_time"));
         u_data := None; u_waitingForFreeText := None;
         u_partialSchedule := Some JNull;
         u_pendingSchedule := Some JNull;
         u_finalSchedule := None; u_clarificationAttempts := None;
         u_pastDateAttempt :=
           Some (JObj [ (js "attemptedDateTime", JStr formattedDateTime);
                        (js "originalText", JStr originalText);
                        (js "timestamp", JStr (toISOString now)) ]);
         u_completedAt := None |} ;;
    ret true
  else ret false.

(** The reply and the update made when the slot is taken. *)
Definition refuseSlot (conflict : ConflictResult) (again : string)
                      (st question : JsString) : M unit :=
  reply from (js "I'm sorry, but that time slot is already occupied. There's another call scheduled for "
              ++ toStringJs (option_map JStr (conflictingDateTime conflict))
              ++ js ". Please choose a different date and time.") ;;
  reply from (message h again) ;;
  createOrUpdateSession from
    (withSchedules (stateUpdate st question) (Some JNull) (Some JNull)) ;;
  ret tt.

(** The update that asks for the confirmation of a pending schedule. *)
Definition confirming (pending : Json) : Updates :=
  withSchedules (stateUpdate CONFIRMING_SCHEDULE (js "schedule_confirmation"))
                None (Some pending).

(** [handleCallTimeResponse(message, session, body)] *)
Definition handleCallTimeResponse (session : Session) (body : JsString) : M unit :=
  tryCatch
    (currentDateTime <- gets clock ;;
     let timeParseResult :=
       parseTimeExpression h laterDateRows timeRows body currentDateTime in
     let date := textOrNull (tp_date timeParseResult) in
     let time := textOrNull (tp_time timeParseResult) in
     let form := textOrNull (tp_formatted timeParseResult) in
     if tp_success timeParseResult && tp_complete timeParseResult then
       past <- (if tp_immediate timeParseResult then ret false
                else handlePastDateTimeValidation date time currentDateTime body) ;;
       if (past : bool) then ret tt
       else
         let phoneNumber := extractPhoneNumber from in
         file <- gets callScheduleFile ;;
         let conflictCheck := checkTimeConflict h file date time (Some phoneNumber) in
         if hasConflict conflictCheck then
           refuseSlot conflictCheck "messages.questions.askCallTime"
                      ASKING_CALL_TIME (js "call_time")
         else if tp_immediate timeParseResult then
           now <- gets clock ;;
           let scheduleData :=
             [ (js "date", date); (js "time", time); (js "formatted", form);
               (js "originalText", Some (JStr body));
               (js "scheduledAt", Some (JStr (toISOString now)));
               (js "immediate", Some (JBool true)) ] in
           saveCallSchedule phoneNumber scheduleData ;;
           reply from (replaceFirst (message h "messages.success.immediateCallScheduled")
                                    (js "{time}") (longForm date time)) ;;
           now' <- gets clock ;;
           createOrUpdateSession from
             {| u_state := Some (JStr COMPLETED);
                u_currentQuestion := Some (JStr (js "completed"));
                u_data := None; u_waitingForFreeText := None;
                u_partialSchedule := None; u_pendingSchedule := None;
                u_finalSchedule := Some (JObj (literal scheduleData));
                u_clarificationAttempts := None; u_pastDateAttempt := None;
                u_completedAt := Some (JStr (toISOString now')) |} ;;
           ret tt
         else
           reply from (replaceFirst (message h "messages.confirmations.scheduleConfirm")
                                    (js "{formattedTime}") (longForm date time)) ;;
           createOrUpdateSession from
             (confirming
                (JObj (literal [ (js "date", date); (js "time", time);
                                 (js "formatted", form);
                                 (js "originalText", Some (JStr body)) ]))) ;;
           ret tt
     else if tp_success timeParseResult && tp_partial timeParseResult then
       if tp_hasDate timeParseResult && negb (tp_hasTime timeParseResult) then
         let dateFormatted :=
           formatted formatDay (momentDate (toStringJs date)) in
         reply from (replaceFirst (message h "messages.questions.askTimeForDate")
                                  (js "{date}") dateFormatted) ;;
         createOrUpdateSession from
           (withSchedules (stateUpdate ASKING_TIME (js "time_needed"))
              (Some (JObj (literal [ (js "date", date);
                                     (js "hasDate", Some (JBool true));
                                     (js "hasTime", Some (JBool false));
                                     (js "originalText", Some (JStr body)) ])))
              None) ;;
         ret tt
       else if tp_hasTime timeParseResult && negb (tp_hasDate timeParseResult) then
         let timeFormatted :=
           formatted formatClock (momentTime currentDateTime (toStringJs time)) in
         reply from (replaceFirst (message h "messages.questions.askDateForTime")
                                  (js "{time}") timeFormatted) ;;
         createOrUpdateSession from
           (withSchedules (stateUpdate ASKING_DATE (js "date_needed"))
              (Some (JObj (literal [ (js "time", time);
                                     (js "hasDate", Some (JBool false));
                                     (js "hasTime", Some (JBool true));
                                     (js "originalText", Some (JStr body)) ])))
              None) ;;
         ret tt
       else reply from (message h "messages.prompts.provideDateAndTime")
     else reply from (message h "messages.prompts.provideDateAndTime"))
    (reply from (message h "messages.errors.parseError")).

(** The pending schedule the date and time handlers build from the part
    stored before and the part just found. *)
Definition combinedSchedule (session : Session) (combinedDate combinedTime : option Json)
                            (body : JsString) : Json :=
  JObj (literal
    [ (js "date", combinedDate);
      (js "time", combinedTime);
      (js "formatted",
        Some (JStr (toStringJs combinedDate ++ js "::" ++ toStringJs combinedTime)));
      (js "originalText",
        Some (JStr (toStringJs (optProp (partialSchedule session) (js "originalText"))
                    ++ js " + " ++ body))) ]).

(** [handleDateResponse(message, session, body)] *)
Definition handleDateResponse (session : Session) (body : JsString) : M unit :=
  tryCatch
    (currentDateTime <- gets clock ;;
     let timeParseResult :=
       parseTimeExpression h laterDateRows timeRows body currentDateTime in
     if tp_success timeParseResult && tp_hasDate timeParseResult then
       let combinedDate := textOrNull (tp_date timeParseResult) in
       match getProp (partialSchedule session) (js "time") with
       | None => throw
       | Some combinedTime =>
           past <- handlePastDateTimeValidation combinedDate combinedTime
                                                currentDateTime body ;;
           if (past : bool) then ret tt
           else
             reply from (js "Perfect! Just to confirm, you'd like me to call on "
                         ++ longForm combinedDate combinedTime ++ js ", right?") ;;
             createOrUpdateSession from
               (confirming (combinedSchedule session combinedDate combinedTime body)) ;;
             ret tt
       end
     else
       reply from (js "I didn't catch a specific date. Could you please provide a date? For example: 'today', 'tomorrow', or 'Monday'"))
    (reply from (js "Sorry, I didn't catch that. Could you please provide a date?")).

(** [handleTimeResponse(message, session, body)] *)
Definition handleTimeResponse (session : Session) (body : JsString) : M unit :=
  tryCatch
    (currentDateTime <- gets clock ;;
     let timeParseResult :=
       parseTimeExpression h laterDateRows timeRows body currentDateTime in
     if tp_success timeParseResult && tp_hasTime timeParseResult then
       match getProp (partialSchedule session) (js "date") with
       | None => throw
       | Some combinedDate =>
           let combinedTime := textOrNull (tp_time timeParseResult) in
           past <- handlePastDateTimeValidation combinedDate combinedTime
                                                currentDateTime body ;;
           if (past : bool) then ret tt
           else
             let phoneNumber := extractPhoneNumber from in
             file <- gets callScheduleFile ;;
             let conflictCheck :=
               checkTimeConflict h file combinedDate combinedTime (Some phoneNumber) in
             if hasConflict conflictCheck then
               refuseSlot conflictCheck "messages.questions.askDate"
                          ASKING_DATE (js "date")
             else
               reply from (js "Excellent! Just to confirm, you'd like me to call on "
                           ++ longForm combinedDate combinedTime ++ js ", right?") ;;
               createOrUpdateSession from
                 (confirming (combinedSchedule session combinedDate combinedTime body)) ;;
               ret tt
       end
     else
       reply from (js "I didn't catch a specific time. Could you please provide a time? For example: '2pm', 'morning', or 'afternoon'"))
    (reply from (js "Sorry, I didn't catch that. Could you please provide a time?")).
End CallTime.

(** ** Auxiliary notions of the statements and proofs *)

(** Bounded search, used to settle finite calendar facts by evaluation. *)
Fixpoint allFrom (n : nat) (i : Z) (p : Z -> bool) : bool :=
  match n with
  | O => true
  | S n' => if p i then allFrom n' (i + 1) p else false
  end.

(** Days from the first of March of year 0 of an era to that of year [y]. *)
Definition startOfYear (y : Z) : Z := 365 * y + y / 4 - y / 100.

(** Month and day inside a year that starts on the first of March. *)
Definition monthCheck (doy : Z) : bool :=
  let mp := (5 * doy + 2) / 153 in
  let d := doy - (153 * mp + 2) / 5 + 1 in
  let m := if mp <? 10 then mp + 3 else mp - 9 in
  (0 <=? mp) && (mp <=? 11) && (1 <=? d)
  && (d <=? (if m =? 2 then (if doy =? 365 then 29 else 28) else daysInMonth 1 m)).

(** What may follow a run of digits: nothing, or a code unit that is no digit. *)
Definition endsRun (rest : JsString) : Prop :=
  match rest with
  | [] => True
  | c :: _ => isDigit c = false
  end.

(** Five identifiers pending, none for a critical reason. *)
Definition fivePending : list (JsString * SaveInfo) :=
  map (fun k => (js "id" ++ [digit k], {| timestamp := 0; reason := message_received |}))
      [1; 2; 3; 4; 5].

(** The last code unit of an alternative is a word character. *)
Fixpoint endsInWord (alt : JsString) : bool :=
  match alt with
  | [] => false
  | p :: alt' =>
      match alt' with
      | [] => isWordChar p
      | _ => endsInWord alt'
      end
  end.

(** The session map, the transport, the schedule file, the clock and the
    disk state are the same in both worlds. *)
Definition sameStores (w w' : World) : Prop :=
  userSessions w' = userSessions w /\ transport w' = transport w /\
  callScheduleFile w' = callScheduleFile w /\ clock w' = clock w /\
  diskWritable w' = diskWritable w.

(** The keys [serializeSession] writes, in order. *)
Definition serializedKeys : list JsString :=
  [ js "state"; js "currentQuestion"; js "data"; js "createdAt"; js "lastActivity";
    js "waitingForFreeText"; js "freeTextContext"; js "metadata" ].

(** The conflict scan read as a search: the test the scan applies to an
    entry of the table, and the report it makes of an entry that passes it. *)

Definition conflictsWith (h : Host) (newDateTime : Z)
                         (excludePhoneNumber : option JsString)
                         (entry : JsString * Json) : bool :=
  let schedule := Some (snd entry) in
  negb (isExcluded excludePhoneNumber (fst entry))
  && negb (isClosed (optProp schedule (js "status")))
  && match combined h (optProp schedule (js "date")) (optProp schedule (js "time")) with
     | Some existingDateTime => minutesApart newDateTime existingDateTime <? 15
     | None => false
     end.

Definition conflictReport (h : Host) (newDateTime : Z) (entry : JsString * Json)
  : ConflictResult :=
  let schedule := Some (snd entry) in
  let date := optProp schedule (js "date") in
  let time := optProp schedule (js "time") in
  match combined h date time with
  | Some existingDateTime =>
      {| hasConflict := true;
         conflictingPhone := Some (fst entry);
         conflictingDateTime := Some (formatLong existingDateTime);
         conflictingDate := date;
         conflictingTime := time;
         timeDifference := Some (minutesApart newDateTime existingDateTime) |}
  | None => noConflict
  end.

(** Successive messages from one sender while the session is in the
    clarifying state, each handled as the listener does: the session is
    read from the map and passed to the handler its state selects. *)
Fixpoint clarifyRounds (h : Host) (from : JsString) (bodies : list JsString)
                       (w : World) : World :=
  match bodies with
  | [] => w
  | body :: rest =>
      match mapGet from (userSessions w) with
      | Some session =>
          match route (state session) with
          | HandleClarificationResponse =>
              clarifyRounds h from rest
                (worldOf (handleClarificationResponse h from session body w))
          | _ => w
          end
      | None => w
      end
  end.

(** One more attempt counted: [(attempts || 0) + 1]. *)
Definition countAttempt (attempts : option Json) : option Json :=
  Some (orZeroPlusOne attempts).

(** ** A reference host and sample inputs, for evaluating the engine *)

Definition asciiLower (s : JsString) : JsString :=
  map (fun c => if (65 <=? c) && (c <=? 90) then c + 32 else c) s.

Definition refHost (model : option (JsString -> option ModelOutput)) : Host :=
  {| toLowerCase := asciiLower;
     toUpperUnit := fun c => c;
     sentimentAnalyzer := model;
     momentParse := momentStrict;
     getMessage := fun key => key;
     sessionTimeoutDays := 7 |}.

Definition noRows : JsString -> Z -> option JsString := fun _ _ => None.

(** A model that answers every text with the negative label at score 0.75,
    and one that answers with the neutral label. *)
Definition sternModel : JsString -> option ModelOutput :=
  fun _ => Some {| label := js "LABEL_0"; score := 0.75%float |}.
Definition blandModel : JsString -> option ModelOutput :=
  fun _ => Some {| label := js "LABEL_1"; score := 0.75%float |}.

(** A sample booking table: an entry per identifier, in file order. *)
Definition booking (date time status : string) : Json :=
  JObj [ (js "date", JStr (js date)); (js "time", JStr (js time));
         (js "status", JStr (js status)) ].

Definition sampleTable : list (JsString * Json) :=
  [ (js "111", booking "15/01/2024" "10:00" "scheduled");
    (js "222", booking "15/01/2024" "10:00" "cancelled");
    (js "333", booking "15/01/2024" "10:10" "scheduled");
    (js "444", booking "15/01/2024" "10:05" "scheduled") ].

(** A sample session and world: the session of one sender, in a given state
    and with a given pending schedule; every send is delivered and the disk
    is writable. *)
Definition sessionIn (st : JsString) (pending : option Json) : Session :=
  newSession (withSchedules (stateUpdate st (js "question")) None pending) 1705312000000.

Definition sampleSender : JsString := js "911@c.us".

Definition worldWith (session : Session) (schedule : File) : World :=
  {| userSessions := [(sampleSender, session)];
     saveQueue := [];
     saveTimeout := None;
     lastSaveTime := None;
     sessionsFile := Missing;
     callScheduleFile := schedule;
     diskWritable := true;
     outbox := [];
     sendCount := 0;
     transport := fun _ => true;
     clock := 1705312800000 |}.

Definition samplePending : list (JsString * Json) :=
  [ (js "date", JStr (js "15/01/2024")); (js "time", JStr (js "12:00"));
    (js "formatted", JStr (js "15/01/2024::12:00"));
    (js "originalText", JStr (js "today at noon")) ].

(** The entry [saveCallSchedule] writes for a caller: the schedule data
    with the time of writing and the status set. *)
Definition bookingOf (scheduleData : list (JsString * option Json)) (now : Z) : Json :=
  JObj (literal
          (mapSet (js "status") (Some (JStr (js "scheduled")))
             (mapSet (js "createdAt") (Some (JStr (toISOString now))) scheduleData))).

(** The table a schedule file stands for when [saveCallSchedule] reads it. *)
Definition tableOf (file : File) : list (JsString * Json) :=
  match file with
  | Content table => table
  | _ => []
  end.

(** A world with two sessions, the first long idle, and one with a stale
    entry in the sessions file. *)
Definition idleSince (t : Z) : Session :=
  newSession (stateUpdate ASKING_CALL_TIME (js "call_time")) t.

Definition staleEntries : list (JsString * Json) :=
  [ (js "111@c.us", JObj [(js "state", JStr ASKING_CALL_TIME)]);
    (js "333@c.us", JObj []) ].

Definition twoSessions : World :=
  {| userSessions := [(js "111@c.us", idleSince 1700000000000);
                      (js "222@c.us", idleSince 1705312000000)];
     saveQueue := [];
     saveTimeout := None;
     lastSaveTime := None;
     sessionsFile := Content staleEntries;
     callScheduleFile := Missing;
     diskWritable := true;
     outbox := [];
     sendCount := 0;
     transport := fun _ => false;
     clock := 1705312800000 |}.

(** The weekday names [parseTimeSimple] looks for, in order, with the day
    each stands for. *)
Definition simpleWeekdays : list (JsString * Z) :=
  [ (js "monday", 1); (js "tuesday", 2); (js "wednesday", 3); (js "thursday", 4);
    (js "friday", 5); (js "saturday", 6); (js "sunday", 0) ].

(** Messages of the outbox addressed to an identifier. *)
Definition sentTo (whatsappId : JsString) (messages : list (JsString * JsString)) : nat :=
  length (filter (fun m => str_eqb (fst m) whatsappId) messages).

(** A computation that leaves the schedule file as it found it, whatever
    its outcome. *)
Definition keepsBookings {A} (m : M A) : Prop :=
  forall w, callScheduleFile (worldOf (m w)) = callScheduleFile w.

(** A computation that leaves the sessions in memory as it found them,
    whatever its outcome. *)
Definition keepsSessions {A} (m : M A) : Prop :=
  forall w, userSessions (worldOf (m w)) = userSessions w.

(** Sample time rows: they read the word [evening] as 18:00, as the row of
    the named times does, and find no time in the other sample texts. *)
Definition eveningRows : JsString -> Z -> option JsString :=
  fun text _ =>
    if testCS [js "evening"; js "eve"] text then Some (js "18:00") else None.

(** A sample session that holds a part of a schedule. *)
Definition sessionWithPart (st : JsString) (part : option Json) : Session :=
  newSession (withSchedules (stateUpdate st (js "question")) part None) 1705312000000.

(** Sample sessions that hold a date, or a time, asked before. *)
Definition sessionWithDate : Session :=
  sessionWithPart ASKING_TIME (Some (JObj [(js "date", JStr (js "15/01/2024"))])).
Definition sessionWithTime : Session :=
  sessionWithPart ASKING_DATE (Some (JObj [(js "time", JStr (js "10:00"))])).

(** Sample schedule files with one booking of another caller. *)
Definition bookedAt (date time : string) : File :=
  Content [(js "111", booking date time "scheduled")].

(* ================================================================== *)
(** * Part II. Properties                                              *)
(* ================================================================== *)

Lemma allFrom_spec (p : Z -> bool) :
  forall n i, allFrom n i p = true ->
  forall k, i <= k < i + Z.of_nat n -> p k = true.
Proof.
  induction n as [|n IH]; intros i H k Hk.
  - simpl in Hk. lia.
  - simpl in H. destruct (p i) eqn:Hp; [|discriminate].
    destruct (Z.eq_dec k i) as [->|Hne]; [exact Hp|].
    apply (IH (i + 1) H). lia.
Qed.

(** ** The calendar conversion is a bijection *)

(** Year of era: the day [doe] of a 400-year era falls in year [yoe], at
    most 365 days after its first of March. *)
Lemma yearOfEra_bounds doe :
  0 <= doe < 146097 ->
  let yoe := (doe - doe / 1460 + doe / 36524 - doe / 146096) / 365 in
  0 <= yoe < 400 /\ startOfYear yoe <= doe /\
  doe - startOfYear yoe <= 365 /\
  (doe - startOfYear yoe = 365 ->
   (yoe mod 4 = 3 /\ yoe mod 100 <> 99) \/ yoe = 399).
Proof.
  intros H yoe. subst yoe. unfold startOfYear.
  Z.div_mod_to_equations. lia.
Qed.

Lemma monthCheck_all : allFrom 366 0 monthCheck = true.
Proof. vm_compute. reflexivity. Qed.

Lemma monthCheck_ok doy : 0 <= doy <= 365 -> monthCheck doy = true.
Proof.
  intros H. apply (allFrom_spec monthCheck _ _ monthCheck_all). simpl. lia.
Qed.

Lemma isLeap_era y era : isLeap (y + era * 400) = isLeap y.
Proof.
  unfold isLeap.
  replace ((y + era * 400) mod 4) with (y mod 4)
    by (replace (era * 400) with (era * 100 * 4) by ring; now rewrite Z.mod_add).
  replace ((y + era * 400) mod 100) with (y mod 100)
    by (replace (era * 400) with (era * 4 * 100) by ring; now rewrite Z.mod_add).
  now rewrite Z.mod_add.
Qed.

Lemma civil_from_days_spec z :
  let '(y, m, d) := civil_from_days z in
  days_from_civil y m d = z /\ 1 <= m <= 12 /\ 1 <= d <= daysInMonth y m.
Proof.
  unfold civil_from_days.
  set (z' := z + 719468). set (era := z' / 146097).
  set (doe := z' - era * 146097).
  assert (Hdoe : 0 <= doe < 146097).
  { subst doe era. pose proof (Z.mod_pos_bound z' 146097 eq_refl).
    rewrite Z.mod_eq in H by lia. lia. }
  pose proof (yearOfEra_bounds doe Hdoe) as Hy. cbv zeta in Hy.
  set (yoe := (doe - doe / 1460 + doe / 36524 - doe / 146096) / 365) in *.
  destruct Hy as (Hyoe & Hs & Hd & Hleap). unfold startOfYear in *.
  set (doy := doe - (365 * yoe + yoe / 4 - yoe / 100)).
  assert (Hdoy : 0 <= doy <= 365) by (subst doy; lia).
  pose proof (monthCheck_ok doy Hdoy) as Hm. unfold monthCheck in Hm.
  set (mp := (5 * doy + 2) / 153) in *.
  set (d := doy - (153 * mp + 2) / 5 + 1) in *.
  assert (Hera : (yoe + era * 400) / 400 = era)
    by (rewrite Z.div_add by lia; rewrite Z.div_small by lia; lia).
  assert (Hleap' : doy = 365 -> isLeap (yoe + 1) = true).
  { intros E. unfold isLeap. destruct Hleap as [[H4 H100]|H399]; [subst doy; lia| |].
    - assert ((yoe + 1) mod 4 = 0) by (Z.div_mod_to_equations; lia).
      assert ((yoe + 1) mod 100 <> 0) by (Z.div_mod_to_equations; lia).
      rewrite (proj2 (Z.eqb_eq _ _) H).
      rewrite (proj2 (Z.eqb_neq _ _) H0). reflexivity.
    - rewrite H399. reflexivity. }
  repeat rewrite andb_true_iff in Hm.
  destruct Hm as [[[Hmp0 Hmp1] Hd1] Hdmax].
  apply Z.leb_le in Hmp0, Hmp1, Hd1, Hdmax.
  destruct (mp <? 10) eqn:Hmp.
  - apply Z.ltb_lt in Hmp.
    assert (Hm3 : (mp + 3 <=? 2) = false) by (apply Z.leb_gt; lia).
    assert (Hm2 : (mp + 3 =? 2) = false) by (apply Z.eqb_neq; lia).
    rewrite Hm3. rewrite Hm2 in Hdmax.
    unfold days_from_civil. rewrite Hm3.
    assert (H23 : (2 <? mp + 3) = true) by (apply Z.ltb_lt; lia).
    rewrite H23, Hera.
    replace (mp + 3 - 3) with mp by ring.
    split; [cbv zeta; subst d doy doe z'; clearbody mp yoe era; Z.div_mod_to_equations; lia|].
    split; [lia|].
    split; [lia|].
    unfold daysInMonth in *. rewrite Hm2. rewrite Hm2 in Hdmax. exact Hdmax.
  - apply Z.ltb_ge in Hmp.
    assert (Hm3 : (mp - 9 <=? 2) = true) by (apply Z.leb_le; lia).
    rewrite Hm3.
    unfold days_from_civil. rewrite Hm3.
    assert (H23 : (2 <? mp - 9) = false) by (apply Z.ltb_ge; lia).
    rewrite H23.
    replace (yoe + era * 400 + 1 - 1) with (yoe + era * 400) by ring.
    rewrite Hera.
    replace (mp - 9 + 9) with mp by ring.
    split; [cbv zeta; subst d doy doe z'; clearbody mp yoe era; Z.div_mod_to_equations; lia|].
    split; [lia|].
    split; [lia|].
    replace (yoe + era * 400 + 1) with (yoe + 1 + era * 400) by ring.
    unfold daysInMonth. rewrite isLeap_era.
    destruct (mp - 9 =? 2) eqn:E2.
    + destruct (doy =? 365) eqn:E365.
      * apply Z.eqb_eq in E365. rewrite (Hleap' E365). lia.
      * destruct (isLeap (yoe + 1)); lia.
    + unfold daysInMonth in Hdmax. rewrite E2 in Hdmax. exact Hdmax.
Qed.

(** ** Decimal rendering reads back *)

Lemma isDigit_digit k : 0 <= k <= 9 -> isDigit (digit k) = true.
Proof. intros H. unfold isDigit, digit. apply andb_true_iff. split; apply Z.leb_le; lia. Qed.

Lemma lastDigits_digits k :
  forall n, Forall (fun c => isDigit c = true) (lastDigits k n).
Proof.
  induction k as [|k IH]; intros n; simpl; [constructor|].
  apply Forall_app. split; [apply IH|].
  constructor; [|constructor]. apply isDigit_digit.
  pose proof (Z.mod_pos_bound n 10 eq_refl). lia.
Qed.

Lemma lastDigits_length k : forall n, length (lastDigits k n) = k.
Proof.
  induction k as [|k IH]; intros n; simpl; [reflexivity|].
  rewrite length_app, IH. simpl. lia.
Qed.

Lemma readDigits_app a : forall acc b,
  readDigits acc (a ++ b) = readDigits (readDigits acc a) b.
Proof. induction a as [|c a IH]; intros acc b; simpl; [reflexivity|apply IH]. Qed.

Lemma readDigits_lastDigits k : forall n acc,
  readDigits acc (lastDigits k n) = acc * 10 ^ Z.of_nat k + n mod 10 ^ Z.of_nat k.
Proof.
  induction k as [|k IH]; intros n acc.
  - simpl. rewrite Z.mod_1_r. lia.
  - cbn [lastDigits]. rewrite readDigits_app, IH. cbn [readDigits]. unfold digit.
    rewrite Nat2Z.inj_succ, Z.pow_succ_r by lia.
    assert (Hp : 0 < 10 ^ Z.of_nat k) by (apply Z.pow_pos_nonneg; lia).
    rewrite (Z.rem_mul_r n 10 (10 ^ Z.of_nat k)) by lia.
    ring.
Qed.

Lemma spanDigits_run ds : forall rest,
  Forall (fun c => isDigit c = true) ds -> endsRun rest ->
  spanDigits (ds ++ rest) = (ds, rest).
Proof.
  induction ds as [|c ds IH]; intros rest Hds Hrest.
  - destruct rest as [|r rest]; [reflexivity|]. simpl in *. now rewrite Hrest.
  - inversion Hds as [|? ? Hc Hds']; subst. simpl. rewrite Hc.
    now rewrite (IH rest Hds' Hrest).
Qed.

Lemma number_lastDigits lo hi k n rest :
  (lo <= k <= hi)%nat -> 0 <= n < 10 ^ Z.of_nat k -> endsRun rest ->
  number lo hi (lastDigits k n ++ rest) = Some (n, rest).
Proof.
  intros Hk Hn Hrest. unfold number.
  rewrite (spanDigits_run _ _ (lastDigits_digits k n) Hrest).
  rewrite lastDigits_length.
  destruct Hk as [Hlo Hhi].
  rewrite (proj2 (Nat.leb_le _ _) Hlo), (proj2 (Nat.leb_le _ _) Hhi). simpl.
  rewrite readDigits_lastDigits, Z.mod_small by lia. reflexivity.
Qed.

Lemma numberFrom_lastDigits lo k n rest :
  (lo <= k)%nat -> 0 <= n < 10 ^ Z.of_nat k -> endsRun rest ->
  numberFrom lo (lastDigits k n ++ rest) = Some (n, rest).
Proof.
  intros Hk Hn Hrest. unfold numberFrom.
  rewrite (spanDigits_run _ _ (lastDigits_digits k n) Hrest).
  rewrite lastDigits_length.
  rewrite (proj2 (Nat.leb_le _ _) Hk).
  rewrite readDigits_lastDigits, Z.mod_small by lia. reflexivity.
Qed.

Lemma countDigits_bound fuel : forall n,
  0 <= n < 10 * 2 ^ Z.of_nat fuel -> n < 10 ^ Z.of_nat (countDigits fuel n).
Proof.
  induction fuel as [|f IH]; intros n Hn.
  - simpl in *. lia.
  - cbn [countDigits]. destruct (n <? 10) eqn:E.
    + apply Z.ltb_lt in E. simpl. lia.
    + apply Z.ltb_ge in E.
      rewrite Nat2Z.inj_succ, Z.pow_succ_r in Hn by lia.
      rewrite Nat2Z.inj_succ, Z.pow_succ_r by lia.
      assert (Hp : 0 < 2 ^ Z.of_nat f) by (apply Z.pow_pos_nonneg; lia).
      assert (H1 : n / 10 < 10 ^ Z.of_nat (countDigits f (n / 10))).
      { apply IH. split; [apply Z.div_pos; lia|].
        apply Z.div_lt_upper_bound; lia. }
      pose proof (Z.div_mod n 10 ltac:(lia)).
      pose proof (Z.mod_pos_bound n 10 eq_refl). lia.
Qed.

Lemma numDigits_bound n : 0 <= n -> n < 10 ^ Z.of_nat (numDigits n).
Proof.
  intros Hn. unfold numDigits. apply countDigits_bound. split; [exact Hn|].
  destruct (Z.eq_dec n 0) as [->|Hz]; [simpl; lia|].
  pose proof (Z.log2_spec n ltac:(lia)) as [_ Hlt].
  rewrite Z2Nat.id by apply Z.log2_nonneg.
  rewrite Z.pow_succ_r in Hlt by apply Z.log2_nonneg. lia.
Qed.

Lemma numberFrom_zeroFill lo w n rest :
  (lo <= w)%nat -> 0 <= n -> endsRun rest ->
  numberFrom lo (zeroFill w n ++ rest) = Some (n, rest).
Proof.
  intros Hw Hn Hrest. unfold zeroFill.
  apply numberFrom_lastDigits; [lia| |exact Hrest].
  split; [exact Hn|].
  eapply Z.lt_le_trans; [apply (numDigits_bound n Hn)|].
  apply Z.pow_le_mono_r; lia.
Qed.

Lemma expect_cons c s : expect c (c :: s) = Some s.
Proof. simpl. now rewrite Z.eqb_refl. Qed.

Lemma daysInMonth_le y m : daysInMonth y m <= 31.
Proof.
  unfold daysInMonth.
  destruct (m =? 2); [destruct (isLeap y); lia|].
  destruct ((m =? 4) || (m =? 6) || (m =? 9) || (m =? 11)); lia.
Qed.

Lemma validCivil_of_days z y m d :
  civil_from_days z = (y, m, d) ->
  days_from_civil y m d = z /\ validCivil y m d = true /\ 1 <= m <= 12 /\ 1 <= d <= 31.
Proof.
  intros E. pose proof (civil_from_days_spec z) as H. rewrite E in H.
  destruct H as (H1 & H2 & H3). pose proof (daysInMonth_le y m).
  split; [exact H1|]. split; [|lia].
  unfold validCivil. repeat (apply andb_true_iff; split); apply Z.leb_le; lia.
Qed.

Lemma timeOfDay_bounds t :
  0 <= hourOf t <= 23 /\ 0 <= minuteOf t <= 59 /\ 0 <= secondOf t <= 59
  /\ 0 <= milliOf t <= 999.
Proof.
  unfold hourOf, minuteOf, secondOf, milliOf, msOfDay, msPerDay.
  Z.div_mod_to_equations. lia.
Qed.

Ltac read_number :=
  first [ rewrite number_lastDigits by (try split; simpl; try lia; reflexivity)
        | rewrite numberFrom_zeroFill by (simpl; try lia; reflexivity) ];
  cbv beta iota.

(** The strict reading is a [momentParse] that reads its own format. *)
Lemma momentStrict_format : ParsesOwnFormat momentStrict.
Proof.
  intros t. unfold formatDate, formatTime.
  destruct (civil_from_days (dayNumber t)) as [[y m] d] eqn:E.
  destruct (validCivil_of_days _ _ _ _ E) as (Hdays & Hvalid & Hm & Hd).
  destruct (timeOfDay_bounds t) as (Hh & Hmi & _).
  rewrite <- (app_nil_r (pad2 (minuteOf t))).
  repeat rewrite <- app_assoc. cbn [app]. unfold pad2, momentStrict.
  read_number. rewrite expect_cons.
  read_number. rewrite expect_cons.
  assert (Hyear : forall rest, endsRun rest ->
            readYear (formatYear y ++ rest) = Some (y, rest)).
  { intros rest Hrest. unfold readYear, formatYear.
    destruct (0 <=? y) eqn:Ey.
    - apply Z.leb_le in Ey. now rewrite numberFrom_zeroFill by (simpl; try lia; assumption).
    - apply Z.leb_gt in Ey. cbn [app].
      replace (numberFrom 1 (45 :: zeroFill 4 (- y) ++ rest)) with (@None (Z * JsString))
        by reflexivity.
      rewrite numberFrom_zeroFill by (simpl; try lia; assumption).
      now rewrite Z.opp_involutive. }
  rewrite Hyear by reflexivity. rewrite expect_cons.
  read_number. rewrite expect_cons.
  read_number.
  rewrite Hvalid, Hdays.
  rewrite (proj2 (Z.leb_le _ _) (proj2 Hh)), (proj2 (Z.leb_le _ _) (proj2 Hmi)).
  cbn [andb]. f_equal.
  unfold hourOf, minuteOf, msOfDay, dayNumber, startOfMinute, msPerDay, msPerMinute.
  Z.div_mod_to_equations. lia.
Qed.

(** A Date written by [toISOString] reads back as the same instant. *)
Lemma dateOfISO_toISOString t : dateOfISO (toISOString t) = Some t.
Proof.
  unfold toISOString.
  destruct (civil_from_days (dayNumber t)) as [[y m] d] eqn:E.
  destruct (validCivil_of_days _ _ _ _ E) as (Hdays & Hvalid & Hm & Hd).
  destruct (timeOfDay_bounds t) as (Hh & Hmi & Hs & Hms).
  repeat rewrite <- app_assoc. cbn [app]. unfold pad2, pad3, dateOfISO.
  assert (Hyear : forall rest, endsRun rest ->
            readIsoYear (isoYear y ++ rest) = Some (y, rest)).
  { intros rest Hrest. unfold readIsoYear, isoYear.
    destruct ((0 <=? y) && (y <=? 9999)) eqn:Ey.
    - apply andb_true_iff in Ey. destruct Ey as [E0 E9].
      apply Z.leb_le in E0, E9.
      now rewrite number_lastDigits by (try split; simpl; try lia; assumption).
    - assert (Hy : y < 0 \/ 9999 < y).
      { apply andb_false_iff in Ey. destruct Ey as [Ey|Ey]; apply Z.leb_gt in Ey; lia. }
      destruct (y <? 0) eqn:Eneg; cbn [app].
      + apply Z.ltb_lt in Eneg.
        replace (number 4 4 (45 :: zeroFill 6 (Z.abs y) ++ rest))
          with (@None (Z * JsString)) by reflexivity.
        rewrite numberFrom_zeroFill by (simpl; try lia; assumption).
        f_equal. f_equal. lia.
      + apply Z.ltb_ge in Eneg.
        replace (number 4 4 (43 :: zeroFill 6 (Z.abs y) ++ rest))
          with (@None (Z * JsString)) by reflexivity.
        rewrite numberFrom_zeroFill by (simpl; try lia; assumption).
        f_equal. f_equal. lia. }
  rewrite Hyear by reflexivity. rewrite expect_cons.
  read_number. rewrite expect_cons.
  read_number. rewrite expect_cons.
  read_number. rewrite expect_cons.
  read_number. rewrite expect_cons.
  read_number. rewrite expect_cons.
  read_number.
  rewrite Hvalid, Hdays.
  rewrite (proj2 (Z.leb_le _ _) (proj2 Hh)), (proj2 (Z.leb_le _ _) (proj2 Hmi)),
          (proj2 (Z.leb_le _ _) (proj2 Hs)).
  cbn [andb]. f_equal.
  unfold hourOf, minuteOf, secondOf, milliOf, msOfDay, dayNumber, msPerDay.
  Z.div_mod_to_equations. lia.
Qed.

(** ** Temporal resolver *)

Lemma startOfMinute_not_past now :
  (startOfMinute now <? now - 1 * msPerMinute) = false.
Proof.
  apply Z.ltb_ge. unfold startOfMinute, msPerMinute.
  pose proof (Z.mod_pos_bound now 60000 eq_refl). lia.
Qed.

(** C4: for every text that matches an immediate-keyword pattern and every
    reference instant, [parseTimeExpression] answers with [immediate],
    [hasDate] and [hasTime] all true and the reference instant's own date and
    time, and the past-time check on that answer is false.  The date library
    is assumed to read back the texts it formats. *)
Theorem immediate_resolves_to_reference_instant
    (h : Host) (laterDateRows timeRows : JsString -> Z -> option JsString)
    (text : JsString) (now : Z) :
  ParsesOwnFormat (momentParse h) ->
  isImmediate h text = true ->
  let r := parseTimeExpression h laterDateRows timeRows text now in
  tp_success r = true /\ tp_complete r = true /\ tp_immediate r = true /\
  tp_hasDate r = true /\ tp_hasTime r = true /\
  tp_date r = Some (formatDate now) /\ tp_time r = Some (formatTime now) /\
  tp_formatted r = Some (formatDate now ++ js "::" ++ formatTime now) /\
  isDateTimeInPast h (formatDate now) (formatTime now) now text = false.
Proof.
  intros Hparse Himm. unfold parseTimeExpression. rewrite Himm. cbn zeta.
  cbn [tp_success tp_complete tp_immediate tp_hasDate tp_hasTime tp_date
       tp_time tp_formatted].
  repeat (split; [reflexivity|]).
  unfold isDateTimeInPast.
  destruct (testI (toUpperUnit h) pastExemptKeywords text); [reflexivity|].
  change (js " ") with [32]. rewrite Hparse.
  apply startOfMinute_not_past.
Qed.

Lemma immediate_resolves_witness :
  isImmediate (refHost None) (js "Quick call please") = true /\
  isDateTimeInPast (refHost None) (formatDate 1704105015123)
    (formatTime 1704105015123) 1704105015123 (js "Quick call please") = false.
Proof.
  split; [vm_compute; reflexivity|].
  apply (immediate_resolves_to_reference_instant (refHost None) noRows noRows
           (js "Quick call please") 1704105015123);
    [exact momentStrict_format | vm_compute; reflexivity].
Defined.

Lemma dayNumber_addDays t n : dayNumber (addDays t n) = dayNumber t + n.
Proof. unfold dayNumber, addDays, msPerDay. now rewrite Z.div_add by lia. Qed.

Lemma weekday_addDays t n : weekday (addDays t n) = (weekday t + n) mod 7.
Proof.
  unfold weekday. rewrite dayNumber_addDays.
  rewrite Zplus_mod_idemp_l. f_equal. ring.
Qed.

Lemma weekday_range t : 0 <= weekday t <= 6.
Proof. unfold weekday. pose proof (Z.mod_pos_bound (dayNumber t + 4) 7 eq_refl). lia. Qed.

(** Dates on different days are written differently. *)
Lemma formatDate_inj a b : formatDate a = formatDate b -> dayNumber a = dayNumber b.
Proof.
  intros E.
  assert (Hmid : forall t, dayNumber (dayNumber t * msPerDay) = dayNumber t)
    by (intros t; unfold dayNumber, msPerDay; now rewrite Z.div_mul by lia).
  assert (Hfmt : forall t, formatDate (dayNumber t * msPerDay) = formatDate t)
    by (intros t; unfold formatDate; now rewrite Hmid).
  assert (Htime : forall t, formatTime (dayNumber t * msPerDay) = formatTime 0).
  { intros t. unfold formatTime, hourOf, minuteOf, msOfDay, msPerDay.
    now rewrite Z.mod_mul by lia. }
  pose proof (momentStrict_format (dayNumber a * msPerDay)) as Ha.
  pose proof (momentStrict_format (dayNumber b * msPerDay)) as Hb.
  rewrite Hfmt, Htime in Ha, Hb. rewrite E in Ha. rewrite Ha in Hb.
  injection Hb as Hb. unfold startOfMinute, msPerMinute, msPerDay in Hb.
  replace (dayNumber a * 86400000) with (dayNumber a * 1440 * 60000) in Hb by ring.
  replace (dayNumber b * 86400000) with (dayNumber b * 1440 * 60000) in Hb by ring.
  rewrite !Z.mod_mul in Hb by lia. lia.
Qed.

Lemma firstRule_weekday s target :
  firstRule datePatterns s = Some (Weekday target) -> 0 <= target <= 6.
Proof.
  unfold datePatterns. cbn [firstRule].
  repeat match goal with
         | |- context [testCS ?p s] => destruct (testCS p s)
         end;
    intros E; inversion E; lia.
Qed.

(** C7: when the first date rule a text triggers is a weekday name, the
    resolved date is the reference date moved forward by 1 to 7 days, so it
    is never the reference date itself: exactly 7 days when the weekday is
    the reference day's own, otherwise the next day (1 to 6 ahead) that
    falls on the named weekday. *)
Theorem weekday_name_resolves_strictly_after
    (h : Host) (laterDateRows timeRows : JsString -> Z -> option JsString)
    (text : JsString) (now targetDay : Z) :
  firstRule datePatterns (trim (toLowerCase h text)) = Some (Weekday targetDay) ->
  let r := parseTimeWithTinyLlama h laterDateRows timeRows text now in
  exists daysToAdd,
    tp_hasDate r = true /\
    tp_date r = Some (formatDate (addDays now daysToAdd)) /\
    1 <= daysToAdd <= 7 /\
    dayNumber (addDays now daysToAdd) = dayNumber now + daysToAdd /\
    formatDate (addDays now daysToAdd) <> formatDate now /\
    weekday (addDays now daysToAdd) = targetDay /\
    (targetDay = weekday now -> daysToAdd = 7) /\
    (targetDay <> weekday now ->
     daysToAdd <= 6 /\
     forall k, 1 <= k < daysToAdd -> weekday (addDays now k) <> targetDay).
Proof.
  intros Hrule. pose proof (firstRule_weekday _ _ Hrule) as Ht.
  pose proof (weekday_range now) as Hw.
  unfold parseTimeWithTinyLlama. rewrite Hrule.
  cbn [tp_hasDate tp_date isSome runDateRule]. unfold getNextWeekday.
  set (n := if targetDay - weekday now <=? 0
            then targetDay - weekday now + 7 else targetDay - weekday now).
  assert (Hn : 1 <= n <= 7 /\ (weekday now + n) mod 7 = targetDay
               /\ (targetDay = weekday now -> n = 7)
               /\ (targetDay <> weekday now -> n <= 6)).
  { subst n. destruct (targetDay - weekday now <=? 0) eqn:E.
    - apply Z.leb_le in E. repeat split; try lia.
      replace (weekday now + (targetDay - weekday now + 7)) with (targetDay + 1 * 7) by ring.
      rewrite Z.mod_add by lia. apply Z.mod_small. lia.
    - apply Z.leb_gt in E. repeat split; try lia.
      replace (weekday now + (targetDay - weekday now)) with targetDay by ring.
      apply Z.mod_small. lia. }
  destruct Hn as (Hn1 & Hn2 & Hn3 & Hn4).
  exists n. split; [reflexivity|]. split; [reflexivity|]. split; [exact Hn1|].
  split; [apply dayNumber_addDays|].
  split.
  { intros E. apply formatDate_inj in E. rewrite dayNumber_addDays in E. lia. }
  split; [rewrite weekday_addDays; exact Hn2|].
  split; [exact Hn3|].
  intros Hne. split; [exact (Hn4 Hne)|].
  intros k Hk. rewrite weekday_addDays. intros Ek.
  specialize (Hn4 Hne).
  assert (Hmod : (weekday now + n) mod 7 = (weekday now + k) mod 7) by congruence.
  revert Hmod. clear - Hk Hn1 Hn4 Hw. Z.div_mod_to_equations. lia.
Qed.

Lemma weekday_name_resolves_witness :
  firstRule datePatterns (trim (asciiLower (js "Monday works"))) = Some (Weekday 1) /\
  exists daysToAdd,
    tp_date (parseTimeWithTinyLlama (refHost None) noRows noRows
               (js "Monday works") 1704105015123)
    = Some (formatDate (addDays 1704105015123 daysToAdd)) /\
    1 <= daysToAdd <= 7 /\
    (1 = weekday 1704105015123 -> daysToAdd = 7).
Proof.
  split; [vm_compute; reflexivity|].
  destruct (weekday_name_resolves_strictly_after (refHost None) noRows noRows
              (js "Monday works") 1704105015123 1 ltac:(vm_compute; reflexivity))
    as (n & _ & Hdate & Hn & _ & _ & _ & Hsame & _).
  exists n. split; [exact Hdate|]. split; [exact Hn|exact Hsame].
Defined.

(** ** Debounced saving *)

Lemma executeSave_timer w : saveTimeout (worldOf (executeSave w)) = saveTimeout w.
Proof.
  unfold executeSave. destruct (saveQueue w); [reflexivity|].
  unfold saveSessionsToFile.
  destruct (sessionsFile w); try reflexivity;
    match goal with
    | |- context [updateEntries ?a ?b ?c ?d] => destruct (updateEntries a b c d)
    end; try reflexivity; destruct (diskWritable w); reflexivity.
Qed.

(** With exactly five identifiers pending and no critical reason, the delay
    is still the full default, not the shorter one. *)
Lemma five_pending_full_delay :
  length fivePending = 5%nat /\ isCriticalEvent fivePending = false /\
  calculateDynamicDelay fivePending = 2000 /\
  calculateDynamicDelay fivePending <> 1000.
Proof. repeat split; try reflexivity. vm_compute. discriminate. Qed.

(** C5 (as amended): if any pending entry has reason [state_change] or
    [completion], scheduling a save cancels the timer and saves at once;
    otherwise it arms a timer of 2000 ms when at most 5 identifiers are
    pending, of 1000 ms when 6 to 9 are, and of 500 ms from 10 on. *)
Theorem debounce_policy (w : World) :
  let pending := Z.of_nat (length (saveQueue w)) in
  (isCriticalEvent (saveQueue w) = true ->
     debounceSave w = executeSave (setTimer None w) /\
     saveTimeout (worldOf (debounceSave w)) = None) /\
  (isCriticalEvent (saveQueue w) = false ->
     exists delay,
       debounceSave w = Returned tt (setTimer (Some delay) (setTimer None w)) /\
       (pending <= 5 -> delay = 2000) /\
       (6 <= pending <= 9 -> delay = 1000) /\
       (10 <= pending -> delay = 500)).
Proof.
  cbv zeta. split; intros Hc.
  - assert (E : debounceSave w = executeSave (setTimer None w)).
    { unfold debounceSave. cbn [saveQueue setTimer]. now rewrite Hc. }
    split; [exact E|]. rewrite E. now rewrite executeSave_timer.
  - exists (calculateDynamicDelay (saveQueue w)). split.
    + unfold debounceSave. cbn [saveQueue setTimer]. now rewrite Hc.
    + unfold calculateDynamicDelay, maxBatchSize, debounceDelay.
      destruct (10 <=? Z.of_nat (length (saveQueue w))) eqn:E10;
        [apply Z.leb_le in E10|apply Z.leb_gt in E10];
        (destruct (5 <? Z.of_nat (length (saveQueue w))) eqn:E5;
         [apply Z.ltb_lt in E5|apply Z.ltb_ge in E5]);
        repeat split; intros; lia.
Qed.

(** ** Pattern tests do not see surrounding white space *)

Ltac bool_to_prop :=
  repeat match goal with
         | H : _ && _ = true |- _ => apply andb_true_iff in H; destruct H
         | H : _ || _ = true |- _ => apply orb_true_iff in H; destruct H
         | H : _ && _ = false |- _ => apply andb_false_iff in H; destruct H
         | H : _ || _ = false |- _ => apply orb_false_iff in H; destruct H
         | H : (_ <=? _) = true |- _ => apply Z.leb_le in H
         | H : (_ <=? _) = false |- _ => apply Z.leb_gt in H
         | H : (_ <? _) = true |- _ => apply Z.ltb_lt in H
         | H : (_ <? _) = false |- _ => apply Z.ltb_ge in H
         | H : (_ =? _) = true |- _ => apply Z.eqb_eq in H
         | H : (_ =? _) = false |- _ => apply Z.eqb_neq in H
         end.

Lemma isWhiteSpace_not_word c : isWhiteSpace c = true -> isWordChar c = false.
Proof.
  intros H. destruct (isWordChar c) eqn:E; [|reflexivity]. exfalso.
  unfold isWhiteSpace, isWordChar in *. bool_to_prop; lia.
Qed.

Lemma canonicalize_word upper c p :
  isWordChar p = true -> canonicalize upper c = canonicalize upper p ->
  isWordChar c = true.
Proof.
  intros Hp E. destruct (isWordChar c) eqn:Hc; [reflexivity|]. exfalso.
  unfold canonicalize, isWordChar in *.
  destruct (c <? 128) eqn:Ec; destruct (p <? 128) eqn:Ep;
    destruct ((97 <=? c) && (c <=? 122)) eqn:Ec1;
    destruct ((97 <=? p) && (p <=? 122)) eqn:Ep1;
    try destruct (upper c <? 128) eqn:Eu;
    bool_to_prop; lia.
Qed.

Section TrimInvariance.
Variable upper : Z -> Z.
Variable alts : list JsString.
Hypothesis alts_end_in_word : forallb endsInWord alts = true.

Let canon := canonicalize upper.

Lemma altAt_prev (p1 p2 : option Z) s alt :
  isWordOpt p1 = isWordOpt p2 -> altAt canon p1 s alt = altAt canon p2 s alt.
Proof.
  intros E. unfold altAt. destruct alt as [|p alt]; simpl.
  - unfold boundary. now rewrite E.
  - destruct s as [|c s]; [reflexivity|]. reflexivity.
Qed.

Lemma testFrom_prev (p1 p2 : option Z) s :
  isWordOpt p1 = isWordOpt p2 ->
  testFrom canon alts p1 s = testFrom canon alts p2 s.
Proof.
  intros E.
  assert (Hex : existsb (altAt canon p1 s) alts = existsb (altAt canon p2 s) alts).
  { clear alts_end_in_word. induction alts as [|a l IH]; simpl; [reflexivity|].
    now rewrite IH, (altAt_prev p1 p2 s a E). }
  destruct s as [|c s]; simpl; unfold boundary; now rewrite E, Hex.
Qed.

Lemma testFrom_trimStart s : forall prev,
  isWordOpt prev = false ->
  testFrom canon alts prev (trimStart s) = testFrom canon alts prev s.
Proof.
  induction s as [|c s IH]; intros prev Hprev; [reflexivity|].
  cbn [trimStart]. destruct (isWhiteSpace c) eqn:Ews; [|reflexivity].
  rewrite (IH prev Hprev). cbn [testFrom hd_error].
  unfold boundary at 1. cbn [isWordOpt].
  rewrite Hprev, (isWhiteSpace_not_word c Ews). cbn [xorb andb orb].
  apply testFrom_prev. cbn [isWordOpt].
  now rewrite Hprev, (isWhiteSpace_not_word c Ews).
Qed.

Lemma matchAt_ws_fail alt : forall u prev,
  endsInWord alt = true -> Forall (fun c => isWhiteSpace c = true) u ->
  matchAt canon alt u prev = None.
Proof.
  induction alt as [|p alt IH]; intros u prev He Hu; [discriminate|].
  destruct u as [|c u]; [reflexivity|].
  inversion Hu as [|? ? Hc Hu']; subst. cbn [matchAt].
  destruct (canon c =? canon p) eqn:E; [|reflexivity].
  apply Z.eqb_eq in E. cbn [endsInWord] in He.
  destruct alt as [|q alt].
  - pose proof (canonicalize_word upper c p He E) as Hw.
    rewrite (isWhiteSpace_not_word c Hc) in Hw. discriminate.
  - apply IH; assumption.
Qed.

Lemma altAt_app_ws ws alt : forall s prev,
  alt = [] \/ endsInWord alt = true ->
  Forall (fun c => isWhiteSpace c = true) ws ->
  altAt canon prev (s ++ ws) alt = altAt canon prev s alt.
Proof.
  induction alt as [|p alt IH]; intros s prev He Hws.
  - unfold altAt. cbn [matchAt]. destruct s as [|c s]; [|reflexivity].
    cbn [app hd_error]. unfold boundary. f_equal.
    destruct Hws as [|c ws Hc _]; [reflexivity|].
    cbn [hd_error isWordOpt]. apply (isWhiteSpace_not_word c Hc).
  - destruct He as [He|He]; [discriminate|].
    destruct s as [|c s].
    + unfold altAt. cbn [app]. now rewrite (matchAt_ws_fail (p :: alt) ws prev He Hws).
    + unfold altAt. cbn [app matchAt].
      destruct (canon c =? canon p); [|reflexivity].
      apply (IH s (Some c)); [|exact Hws].
      cbn [endsInWord] in He. destruct alt; [now left|now right].
Qed.

Lemma existsb_altAt_ws u prev :
  Forall (fun c => isWhiteSpace c = true) u ->
  existsb (altAt canon prev u) alts = false.
Proof.
  intros Hu. revert alts_end_in_word.
  induction alts as [|a l IH]; intros Hall; [reflexivity|].
  cbn [forallb] in Hall. apply andb_true_iff in Hall. destruct Hall as [Ha Hl].
  cbn [existsb]. rewrite (IH Hl). unfold altAt.
  now rewrite (matchAt_ws_fail a u prev Ha Hu).
Qed.

Lemma testFrom_ws u : forall prev,
  Forall (fun c => isWhiteSpace c = true) u ->
  testFrom canon alts prev u = false.
Proof.
  induction u as [|c u IH]; intros prev Hu.
  - cbn [testFrom]. rewrite (existsb_altAt_ws [] prev Hu). now rewrite andb_false_r.
  - cbn [testFrom]. rewrite (existsb_altAt_ws (c :: u) prev Hu), andb_false_r.
    inversion Hu; subst. now apply IH.
Qed.

Lemma testFrom_app_ws ws s : forall prev,
  Forall (fun c => isWhiteSpace c = true) ws ->
  testFrom canon alts prev (s ++ ws) = testFrom canon alts prev s.
Proof.
  assert (Hex : forall s prev, Forall (fun c => isWhiteSpace c = true) ws ->
            existsb (altAt canon prev (s ++ ws)) alts
            = existsb (altAt canon prev s) alts).
  { intros s0 prev Hws. revert alts_end_in_word.
    induction alts as [|a l IH]; intros Hall; [reflexivity|].
    cbn [forallb] in Hall. apply andb_true_iff in Hall. destruct Hall as [Ha Hl].
    cbn [existsb]. rewrite (IH Hl).
    now rewrite (altAt_app_ws ws a s0 prev (or_intror Ha) Hws). }
  induction s as [|c s IH]; intros prev Hws.
  - cbn [app]. rewrite (testFrom_ws ws prev Hws).
    symmetry. apply testFrom_ws. constructor.
  - cbn [app testFrom hd_error]. rewrite (IH (Some c) Hws).
    change (c :: s ++ ws) with ((c :: s) ++ ws). now rewrite (Hex (c :: s) prev Hws).
Qed.

Lemma trimStart_split s :
  exists ws, Forall (fun c => isWhiteSpace c = true) ws /\ s = ws ++ trimStart s.
Proof.
  induction s as [|c s [ws [Hws E]]]; [exists []; split; [constructor|reflexivity]|].
  cbn [trimStart]. destruct (isWhiteSpace c) eqn:Ec.
  - exists (c :: ws). split; [constructor; assumption|]. cbn [app]. now f_equal.
  - exists []. split; [constructor|reflexivity].
Qed.

Lemma regexTest_trim s :
  regexTest canon alts (trim s) = regexTest canon alts s.
Proof.
  unfold regexTest, trim, trimEnd.
  destruct (trimStart_split (rev (trimStart s))) as [ws [Hws E]].
  assert (E' : trimStart s = rev (trimStart (rev (trimStart s))) ++ rev ws).
  { rewrite <- rev_app_distr, <- E. now rewrite rev_involutive. }
  rewrite <- (testFrom_trimStart s None eq_refl).
  rewrite E' at 2. symmetry. apply testFrom_app_ws.
  apply Forall_rev. exact Hws.
Qed.
End TrimInvariance.

(** ** Yes/no interpretation of the model's output *)

Lemma str_eqb_eq a : forall b, str_eqb a b = true <-> a = b.
Proof.
  induction a as [|x a IH]; intros [|y b]; simpl; split; intros H;
    try reflexivity; try discriminate.
  - apply andb_true_iff in H. destruct H as [Hx Hab].
    apply Z.eqb_eq in Hx. apply IH in Hab. now subst.
  - injection H as -> ->. rewrite Z.eqb_refl. now apply IH.
Qed.

Lemma str_eqb_refl a : str_eqb a a = true.
Proof. now apply str_eqb_eq. Qed.

(** C1, at the input on which the code departs from it: the text
    [not interested] is itself an alternative of the explicit no pattern,
    and matches it, yet it is answered positive, against a model that
    answers with the negative label at score 0.75: the yes pattern is tested
    first and its alternative [interested] matches inside the text. *)
Lemma no_pattern_loses_to_yes_pattern :
  In (js "not interested") noPatterns /\
  testI (fun c => c) noPatterns (js "not interested") = true /\
  testI (fun c => c) yesPatterns (js "not interested") = true /\
  sternModel (js "not interested")
  = Some {| label := js "LABEL_0"; score := 0.75%float |} /\
  analyzeSentiment (refHost (Some sternModel)) (js "not interested")
                   yes_no_question = positive.
Proof.
  split; [|repeat split; vm_compute; reflexivity].
  unfold noPatterns. repeat (first [left; reflexivity | right]).
Qed.

(** The order of the tests in [interpretYesNoSentiment], with the model
    loaded and answering: a text that matches the yes pattern is positive;
    one that matches the no pattern and not the yes pattern is negative; one
    that matches neither is negative exactly when the model's label is the
    negative one with a score strictly above 0.7, and positive otherwise. *)
Theorem yes_no_interpretation
    (h : Host) (run : JsString -> option ModelOutput) (text : JsString)
    (out : ModelOutput) :
  sentimentAnalyzer h = Some run ->
  run (trim text) = Some out ->
  let result := analyzeSentiment h text yes_no_question in
  let yes := testI (toUpperUnit h) yesPatterns text in
  let no := testI (toUpperUnit h) noPatterns text in
  let modelNegative :=
    str_eqb (label out) (js "LABEL_0") && (0x1.6666666666666p-1 <? score out)%float in
  (yes = true -> result = positive) /\
  (yes = false -> no = true -> result = negative) /\
  (yes = false -> no = false ->
   (result = negative <-> modelNegative = true) /\
   (modelNegative = false -> result = positive)).
Proof.
  intros Hrun Hout. cbv zeta. unfold analyzeSentiment. rewrite Hrun, Hout.
  unfold interpretYesNoSentiment, testI. cbn [ai_label ai_score].
  rewrite (regexTest_trim (toUpperUnit h) yesPatterns eq_refl text).
  rewrite (regexTest_trim (toUpperUnit h) noPatterns eq_refl text).
  set (yes := regexTest (canonicalize (toUpperUnit h)) yesPatterns text).
  set (no := regexTest (canonicalize (toUpperUnit h)) noPatterns text).
  assert (Hlabel :
    sentiment_eqb
      (if str_eqb (label out) (js "LABEL_2") then positive
       else if str_eqb (label out) (js "LABEL_0") then negative else neutral)
      negative = str_eqb (label out) (js "LABEL_0")).
  { destruct (str_eqb (label out) (js "LABEL_2")) eqn:E2.
    - apply str_eqb_eq in E2. rewrite E2. reflexivity.
    - destruct (str_eqb (label out) (js "LABEL_0")); reflexivity. }
  rewrite Hlabel.
  split; [intros ->; reflexivity|].
  split; [intros -> ->; reflexivity|].
  intros -> ->.
  destruct (str_eqb (label out) (js "LABEL_0") && (0x1.6666666666666p-1 <? score out)%float);
    split; try split; intros; try reflexivity; try discriminate.
Qed.

Lemma yes_no_interpretation_witness :
  sentimentAnalyzer (refHost (Some sternModel)) = Some sternModel /\
  analyzeSentiment (refHost (Some sternModel)) (js "  hmm, call me later ")
                   yes_no_question = negative.
Proof.
  split; [reflexivity|].
  apply (yes_no_interpretation (refHost (Some sternModel)) sternModel
           (js "  hmm, call me later ") {| label := js "LABEL_0"; score := 0.75%float |}
           eq_refl eq_refl);
    vm_compute; reflexivity.
Defined.

(** ** Conflict detector *)

Lemma getProp_object v key : v <> JNull -> getProp (Some v) key = Some (optProp (Some v) key).
Proof. intros Hv. unfold optProp. destruct v; try reflexivity. congruence. Qed.

Lemma scanSchedules_find h c ex table :
  Forall (fun e => snd e <> JNull) table ->
  scanSchedules h c ex table =
  Some match find (conflictsWith h c ex) table with
       | Some e => conflictReport h c e
       | None => noConflict
       end.
Proof.
  induction 1 as [|[phone schedule] table Hv _ IH]; [reflexivity|].
  cbn [scanSchedules find]. unfold conflictsWith at 1. cbn [fst snd] in *.
  destruct (isExcluded ex phone); [exact IH|]. cbn [negb andb].
  rewrite (getProp_object schedule (js "status") Hv).
  destruct (isClosed (optProp (Some schedule) (js "status"))); [exact IH|].
  cbn [negb andb].
  destruct (combined h (optProp (Some schedule) (js "date"))
                     (optProp (Some schedule) (js "time"))) as [e|] eqn:Ee; [|exact IH].
  destruct (minutesApart c e <? 15); [|exact IH].
  unfold conflictReport. cbn [fst snd]. now rewrite Ee.
Qed.

Lemma minutesApart_lt a b : minutesApart a b < 15 <-> Z.abs (a - b) < 15 * msPerMinute.
Proof.
  unfold minutesApart, msPerMinute.
  pose proof (Z.quot_rem' (a - b) 60000) as Hq.
  pose proof (Z.rem_bound_abs (a - b) 60000 ltac:(lia)) as Hr.
  pose proof (Z.rem_sign_mul (a - b) 60000 ltac:(lia)) as Hs.
  split; intros H; nia.
Qed.

Lemma isClosed_spec status :
  isClosed status = true <->
  status = Some (JStr (js "cancelled")) \/ status = Some (JStr (js "completed")).
Proof.
  unfold isClosed, isStr. split.
  - intros H. apply andb_true_iff in H. destruct H as [_ H].
    destruct status as [[| | |s| |]|]; try discriminate.
    apply orb_true_iff in H. destruct H as [H|H]; apply str_eqb_eq in H; subst; auto.
  - intros [-> | ->]; reflexivity.
Qed.

Lemma isExcluded_spec e phone :
  isExcluded (Some e) phone = true <-> e <> [] /\ phone = e.
Proof.
  unfold isExcluded. destruct e as [|c e].
  - split; [discriminate|]. intros [H _]. congruence.
  - rewrite str_eqb_eq. split; [intros ->; split; [discriminate|reflexivity]|tauto].
Qed.

Lemma isExcluded_false exclude phone :
  isExcluded exclude phone = false <->
  (forall e, exclude = Some e -> e <> [] -> phone <> e).
Proof.
  destruct exclude as [e|].
  - destruct (isExcluded (Some e) phone) eqn:E.
    + apply isExcluded_spec in E. destruct E as [Hne ->].
      split; [discriminate|]. intros H. exfalso. now apply (H e eq_refl Hne).
    + split; [|reflexivity]. intros _ e' [= <-] Hne ->.
      rewrite (proj2 (isExcluded_spec e e) (conj Hne eq_refl)) in E. discriminate.
  - split; [discriminate|reflexivity].
Qed.

(** The conflict scan on a table none of whose records is [null]: for a
    candidate that reads as a valid instant, [checkTimeConflict] reports the
    first entry, in the table's iteration order, that is not excluded, is
    neither cancelled nor completed and whose own date and time read as an
    instant strictly less than 15 minutes away; it reports a conflict
    exactly when there is such an entry.  14 minutes either side conflict,
    15 minutes either side do not. *)
Theorem conflict_detection
    (h : Host) (table : list (JsString * Json)) (newDate newTime : option Json)
    (exclude : option JsString) (candidate : Z) :
  Forall (fun e => snd e <> JNull) table ->
  combined h newDate newTime = Some candidate ->
  let result := checkTimeConflict h (Content table) newDate newTime exclude in
  (result = match find (conflictsWith h candidate exclude) table with
            | Some e => conflictReport h candidate e
            | None => noConflict
            end) /\
  (hasConflict result = true <->
   exists phone schedule existing,
     In (phone, schedule) table /\
     (forall e, exclude = Some e -> e <> [] -> phone <> e) /\
     optProp (Some schedule) (js "status") <> Some (JStr (js "cancelled")) /\
     optProp (Some schedule) (js "status") <> Some (JStr (js "completed")) /\
     combined h (optProp (Some schedule) (js "date"))
                (optProp (Some schedule) (js "time")) = Some existing /\
     Z.abs (Z.quot (candidate - existing) 60000) < 15) /\
  (forall before phone schedule after,
     table = before ++ (phone, schedule) :: after ->
     conflictsWith h candidate exclude (phone, schedule) = true ->
     (forall e, In e before -> conflictsWith h candidate exclude e = false) ->
     hasConflict result = true /\ conflictingPhone result = Some phone /\
     conflictingDate result = optProp (Some schedule) (js "date") /\
     conflictingTime result = optProp (Some schedule) (js "time")) /\
  (forall t, minutesApart (t + 14 * 60000) t = 14 /\ minutesApart (t - 14 * 60000) t = 14
             /\ minutesApart (t + 15 * 60000) t = 15
             /\ minutesApart (t - 15 * 60000) t = 15) /\
  (forall a b, minutesApart a b = minutesApart b a).
Proof.
  intros Hrec Hcand. cbv zeta. unfold checkTimeConflict. rewrite Hcand.
  rewrite (scanSchedules_find h candidate exclude table Hrec).
  split; [reflexivity|]. split; [|split; [|split]].
  - split.
    + destruct (find (conflictsWith h candidate exclude) table) as [[phone schedule]|] eqn:Ef;
        [|discriminate].
      intros _. apply find_some in Ef. destruct Ef as [Hin Hc].
      unfold conflictsWith in Hc. cbn [fst snd] in Hc.
      apply andb_true_iff in Hc. destruct Hc as [Hc Hd].
      apply andb_true_iff in Hc. destruct Hc as [Hex Hcl].
      apply negb_true_iff in Hex, Hcl.
      destruct (combined h (optProp (Some schedule) (js "date"))
                         (optProp (Some schedule) (js "time"))) as [e|] eqn:Ee;
        [|discriminate].
      apply Z.ltb_lt in Hd. exists phone, schedule, e.
      split; [exact Hin|]. split; [now apply isExcluded_false|].
      split; [intros E; rewrite (proj2 (isClosed_spec _) (or_introl E)) in Hcl; discriminate|].
      split; [intros E; rewrite (proj2 (isClosed_spec _) (or_intror E)) in Hcl; discriminate|].
      split; [exact Ee|exact Hd].
    + intros (phone & schedule & e & Hin & Hex & Hcl1 & Hcl2 & Ee & Hd).
      apply isExcluded_false in Hex.
      assert (Hcl : isClosed (optProp (Some schedule) (js "status")) = false).
      { destruct (isClosed (optProp (Some schedule) (js "status"))) eqn:E; [|reflexivity].
        apply isClosed_spec in E. tauto. }
      assert (Hc : conflictsWith h candidate exclude (phone, schedule) = true).
      { unfold conflictsWith. cbn [fst snd]. rewrite Hex, Hcl, Ee.
        apply (proj2 (Z.ltb_lt _ _)) in Hd. exact Hd. }
      destruct (find (conflictsWith h candidate exclude) table) as [e'|] eqn:Ef.
      * apply find_some in Ef. destruct Ef as [_ Hc'].
        unfold conflictReport. unfold conflictsWith in Hc'.
        apply andb_true_iff in Hc'. destruct Hc' as [_ Hc'].
        destruct (combined h (optProp (Some (snd e')) (js "date"))
                           (optProp (Some (snd e')) (js "time"))); [reflexivity|discriminate].
      * pose proof (find_none _ _ Ef _ Hin) as Hn. congruence.
  - intros before phone schedule after -> Hc Hbefore.
    assert (Ef : find (conflictsWith h candidate exclude)
                      (before ++ (phone, schedule) :: after) = Some (phone, schedule)).
    { clear Hrec. induction before as [|b before IH]; cbn [app find].
      - now rewrite Hc.
      - rewrite (Hbefore b (or_introl eq_refl)). apply IH.
        intros e He. apply Hbefore. now right. }
    rewrite Ef. unfold conflictReport. unfold conflictsWith in Hc. cbn [fst snd] in *.
    apply andb_true_iff in Hc. destruct Hc as [_ Hc].
    destruct (combined h (optProp (Some schedule) (js "date"))
                       (optProp (Some schedule) (js "time"))); [|discriminate].
    repeat split; reflexivity.
  - intros t. unfold minutesApart, msPerMinute.
    replace (t + 14 * 60000 - t) with (14 * 60000) by ring.
    replace (t - 14 * 60000 - t) with (- 14 * 60000) by ring.
    replace (t + 15 * 60000 - t) with (15 * 60000) by ring.
    replace (t - 15 * 60000 - t) with (- 15 * 60000) by ring.
    repeat split; reflexivity.
  - intros a b. unfold minutesApart.
    replace (b - a) with (- (a - b)) by ring.
    rewrite Z.quot_opp_l by (unfold msPerMinute; lia). now rewrite Z.abs_opp.
Qed.

Lemma conflict_detection_witness :
  combined (refHost None) (Some (JStr (js "15/01/2024"))) (Some (JStr (js "10:00")))
    = Some 1705312800000 /\
  conflictingPhone
    (checkTimeConflict (refHost None) (Content sampleTable)
       (Some (JStr (js "15/01/2024"))) (Some (JStr (js "10:00"))) (Some (js "111")))
    = Some (js "333").
Proof.
  split; [vm_compute; reflexivity|].
  destruct (conflict_detection (refHost None) sampleTable
              (Some (JStr (js "15/01/2024"))) (Some (JStr (js "10:00")))
              (Some (js "111")) 1705312800000) as [Hres _].
  - repeat constructor; discriminate.
  - vm_compute; reflexivity.
  - rewrite Hres. vm_compute. reflexivity.
Defined.

(** C10: [checkTimeConflict] always answers, and answers no conflict when
    the candidate does not read as a valid instant, when the schedule file
    is absent or cannot be read or parsed, and when the scan itself fails on
    an entry. *)
Theorem conflict_check_fails_open
    (h : Host) (file : File) (newDate newTime : option Json)
    (exclude : option JsString) :
  let result := checkTimeConflict h file newDate newTime exclude in
  (combined h newDate newTime = None -> result = noConflict) /\
  (file = Missing \/ file = Unreadable -> result = noConflict) /\
  (forall table candidate,
     file = Content table ->
     combined h newDate newTime = Some candidate ->
     scanSchedules h candidate exclude table = None ->
     result = noConflict) /\
  hasConflict noConflict = false.
Proof.
  cbv zeta. unfold checkTimeConflict. repeat split.
  - intros E. destruct file; try reflexivity. now rewrite E.
  - intros [-> | ->]; reflexivity.
  - intros table candidate -> E1 E2. now rewrite E1, E2.
Qed.

(** C3, at the input on which the code departs from it: the table holds a
    [null] record before the booking of [111], which is scheduled, is not
    excluded and lies 0 minutes from the candidate; the candidate reads as a
    valid instant; yet [checkTimeConflict] reports no conflict, because
    reading the status of the [null] record throws and the whole scan is
    given up (a record whose date and time do not read as an instant is
    passed over by the same loop). *)
Theorem null_record_hides_conflict :
  let table := (js "100", JNull) :: sampleTable in
  let date := Some (JStr (js "15/01/2024")) in
  let time := Some (JStr (js "10:00")) in
  let existing := booking "15/01/2024" "10:00" "scheduled" in
  In (js "111", existing) table /\
  optProp (Some existing) (js "status") = Some (JStr (js "scheduled")) /\
  combined (refHost None) date time = Some 1705312800000 /\
  combined (refHost None) (optProp (Some existing) (js "date"))
           (optProp (Some existing) (js "time")) = Some 1705312800000 /\
  minutesApart 1705312800000 1705312800000 = 0 /\
  conflictsWith (refHost None) 1705312800000 None (js "111", existing) = true /\
  hasConflict
    (checkTimeConflict (refHost None) (Content table) date time None) = false /\
  hasConflict
    (checkTimeConflict (refHost None) (Content sampleTable) date time None) = true.
Proof.
  cbv zeta. split; [right; left; reflexivity|].
  repeat split; vm_compute; reflexivity.
Qed.

(** The scan does fail: an entry that is [null] stops it, and the check
    then answers no conflict although a later entry is 5 minutes away. *)
Example scan_failure_hides_conflict :
  let table := (js "222", JNull) :: sampleTable in
  scanSchedules (refHost None) 1705312800000 None table = None /\
  checkTimeConflict (refHost None) (Content table)
    (Some (JStr (js "15/01/2024"))) (Some (JStr (js "10:00"))) None = noConflict.
Proof. split; vm_compute; reflexivity. Qed.

(** ** What the effects leave untouched *)

Lemma sameStores_refl w : sameStores w w.
Proof. repeat split. Qed.

Lemma sameStores_trans w1 w2 w3 : sameStores w1 w2 -> sameStores w2 w3 -> sameStores w1 w3.
Proof.
  intros (A1 & A2 & A3 & A4 & A5) (B1 & B2 & B3 & B4 & B5).
  repeat split; congruence.
Qed.

Lemma send_returns to text w :
  (forall k, transport w k = true) ->
  exists w', send to text w = Returned tt w' /\ sameStores w w'.
Proof.
  intros Hup. unfold send. rewrite Hup. eexists. split; [reflexivity|].
  repeat split.
Qed.

Lemma saveSessionsToFile_stores ids w : sameStores w (worldOf (saveSessionsToFile ids w)).
Proof.
  unfold saveSessionsToFile.
  destruct (sessionsFile w); cbn [worldOf]; try apply sameStores_refl;
    match goal with
    | |- context [updateEntries ?a ?b ?c ?d] => destruct (updateEntries a b c d)
    end; cbn [worldOf]; try apply sameStores_refl;
    destruct (diskWritable w) eqn:E; cbn [worldOf]; try apply sameStores_refl;
    repeat split; cbn; congruence.
Qed.

Lemma executeSave_returns w :
  exists w', executeSave w = Returned tt w' /\ sameStores w w'.
Proof.
  unfold executeSave. destruct (saveQueue w) as [|q qs] eqn:Eq.
  - exists w. split; [reflexivity|apply sameStores_refl].
  - pose proof (saveSessionsToFile_stores (map fst (q :: qs)) w) as Hs.
    destruct (saveSessionsToFile (map fst (q :: qs)) w) as [[] w'|w']; cbn [worldOf] in Hs.
    + eexists. split; [reflexivity|].
      destruct Hs as (A1 & A2 & A3 & A4 & A5). repeat split; cbn; assumption.
    + exists w'. split; [reflexivity|exact Hs].
Qed.

Lemma debounceSave_returns w :
  exists w', debounceSave w = Returned tt w' /\ sameStores w w'.
Proof.
  unfold debounceSave. destruct (isCriticalEvent (saveQueue (setTimer None w))).
  - destruct (executeSave_returns (setTimer None w)) as (w' & E & Hs).
    exists w'. split; [exact E|].
    destruct Hs as (A1 & A2 & A3 & A4 & A5). repeat split; assumption.
  - eexists. split; [reflexivity|]. repeat split.
Qed.

Lemma markForSave_returns id why w :
  exists w', markForSave id why w = Returned tt w' /\ sameStores w w'.
Proof.
  unfold markForSave, bind, modify.
  match goal with
  | |- context [debounceSave ?x] => destruct (debounceSave_returns x) as (w' & E & Hs)
  end.
  exists w'. rewrite E. split; [reflexivity|].
  destruct Hs as (A1 & A2 & A3 & A4 & A5). repeat split; assumption.
Qed.

Lemma createOrUpdateSession_existing id u w s :
  mapGet id (userSessions w) = Some s ->
  exists w',
    createOrUpdateSession id u w = Returned (assign s u (clock w)) w' /\
    userSessions w' = mapSet id (assign s u (clock w)) (userSessions w) /\
    transport w' = transport w /\ callScheduleFile w' = callScheduleFile w /\
    clock w' = clock w /\ diskWritable w' = diskWritable w.
Proof.
  intros Hs. unfold createOrUpdateSession. rewrite Hs. unfold bind at 1.
  match goal with
  | |- context [markForSave ?a ?b ?x] =>
      destruct (markForSave_returns a b x) as (w' & E & (A1 & A2 & A3 & A4 & A5))
  end.
  exists w'. rewrite E. split; [reflexivity|].
  repeat split; assumption.
Qed.

Lemma mapGet_mapReplace {A} k (v : A) m :
  mapHas k m = true -> mapGet k (mapReplace k v m) = Some v.
Proof.
  induction m as [|[k' v'] m IH]; [discriminate|].
  cbn [mapHas mapReplace mapGet]. destruct (str_eqb k' k) eqn:E.
  - intros _. cbn [mapGet]. now rewrite E.
  - cbn [orb mapGet]. rewrite E. exact IH.
Qed.

Lemma mapGet_app_new {A} k (v : A) m :
  mapHas k m = false -> mapGet k (m ++ [(k, v)]) = Some v.
Proof.
  induction m as [|[k' v'] m IH]; cbn [mapHas app mapGet].
  - intros _. now rewrite str_eqb_refl.
  - destruct (str_eqb k' k); [discriminate|exact IH].
Qed.

Lemma mapGet_mapSet {A} k (v : A) m : mapGet k (mapSet k v m) = Some v.
Proof.
  unfold mapSet. destruct (mapHas k m) eqn:E.
  - now apply mapGet_mapReplace.
  - now apply mapGet_app_new.
Qed.

(** ** Conversation driver *)

Lemma reply_then_update from text u w s :
  mapGet from (userSessions w) = Some s ->
  (forall k, transport w k = true) ->
  exists w',
    (reply from text ;; createOrUpdateSession from u ;; ret tt) w = Returned tt w' /\
    mapGet from (userSessions w') = Some (assign s u (clock w)) /\
    transport w' = transport w /\ callScheduleFile w' = callScheduleFile w /\
    clock w' = clock w /\ diskWritable w' = diskWritable w.
Proof.
  intros Hs Hup. unfold reply, bind.
  destruct (send_returns from text w Hup) as (w1 & E1 & (A1 & A2 & A3 & A4 & A5)).
  rewrite E1.
  assert (Hs1 : mapGet from (userSessions w1) = Some s) by (rewrite A1; exact Hs).
  destruct (createOrUpdateSession_existing from u w1 s Hs1)
    as (w2 & E2 & B1 & B2 & B3 & B4 & B5).
  rewrite E2. exists w2. split; [reflexivity|].
  rewrite B1, mapGet_mapSet, A4. repeat split; congruence.
Qed.

Lemma countAttempt_number n c :
  Nat.iter n countAttempt (Some (JNum c)) = Some (JNum (c + Z.of_nat n)).
Proof.
  induction n as [|n IH]; [cbn; f_equal; f_equal; lia|].
  rewrite Nat2Z.inj_succ, Nat.iter_succ, IH.
  unfold countAttempt, orZeroPlusOne, orElse, plusOne.
  destruct (truthy (Some (JNum (c + Z.of_nat n)))) eqn:E.
  - f_equal. f_equal. lia.
  - assert (Hz : c + Z.of_nat n = 0)
      by (destruct (c + Z.of_nat n); [reflexivity|discriminate|discriminate]).
    cbn. f_equal. f_equal. lia.
Qed.

Lemma countAttempt_fresh n :
  Nat.iter (S n) countAttempt None = Some (JNum (1 + Z.of_nat n)).
Proof.
  rewrite Nat.iter_succ_r. change (countAttempt None) with (Some (JNum 1)).
  apply countAttempt_number.
Qed.

Lemma route_clarifying s :
  state s = Some (JStr CLARIFYING_RESPONSE) ->
  route (state s) = HandleClarificationResponse.
Proof. intros ->. reflexivity. Qed.

(** C6: with the outbound channel delivering, a session in [GREETING] or
    [WAITING_INITIAL_RESPONSE] is handled by [handleInitialResponse], which
    moves it to [ASKING_CALL_TIME] on a positive classification, to
    [ASKING_REASON] on a negative one, and to [CLARIFYING_RESPONSE] with one
    more clarification attempt counted on a neutral one; a session in
    [CLARIFYING_RESPONSE] stays there on a neutral classification, again with
    one more attempt counted, and does so for any number of neutral messages
    in a row. *)
Theorem initial_and_clarification_transitions
    (h : Host) (from : JsString) (w : World) (s : Session) (body : JsString) :
  mapGet from (userSessions w) = Some s ->
  (forall k, transport w k = true) ->
  let sentiment := analyzeSentiment h body yes_no_question in
  (state s = Some (JStr GREETING) \/ state s = Some (JStr WAITING_INITIAL_RESPONSE) ->
   route (state s) = HandleInitialResponse /\
   exists s',
     mapGet from (userSessions (worldOf (handleInitialResponse h from s body w))) = Some s' /\
     match sentiment with
     | positive => state s' = Some (JStr ASKING_CALL_TIME)
     | negative => state s' = Some (JStr ASKING_REASON)
     | neutral => state s' = Some (JStr CLARIFYING_RESPONSE) /\
                  clarificationAttempts s' = countAttempt (clarificationAttempts s)
     end) /\
  (state s = Some (JStr CLARIFYING_RESPONSE) ->
   route (state s) = HandleClarificationResponse /\
   (exists s',
     mapGet from (userSessions (worldOf (handleClarificationResponse h from s body w)))
       = Some s' /\
     match sentiment with
     | positive => state s' = Some (JStr ASKING_CALL_TIME)
     | negative => state s' = Some (JStr ASKING_REASON)
     | neutral => state s' = Some (JStr CLARIFYING_RESPONSE) /\
                  clarificationAttempts s' = countAttempt (clarificationAttempts s)
     end) /\
   (forall bodies,
      (forall b, In b bodies -> analyzeSentiment h b yes_no_question = neutral) ->
      exists s',
        mapGet from (userSessions (clarifyRounds h from bodies w)) = Some s' /\
        state s' = Some (JStr CLARIFYING_RESPONSE) /\
        clarificationAttempts s'
        = Nat.iter (length bodies) countAttempt (clarificationAttempts s))) /\
  (forall n c, Nat.iter n countAttempt (Some (JNum c)) = Some (JNum (c + Z.of_nat n))) /\
  (forall n, Nat.iter (S n) countAttempt None = Some (JNum (1 + Z.of_nat n))).
Proof.
  intros Hs Hup. cbv zeta.
  split; [|split; [|split; [exact countAttempt_number|exact countAttempt_fresh]]].
  - intros Hstate. split; [destruct Hstate as [-> | ->]; reflexivity|].
    unfold handleInitialResponse, tryCatch.
    destruct (analyzeSentiment h body yes_no_question);
      match goal with
      | |- context [(reply from ?t ;; createOrUpdateSession from ?u ;; ret tt) w] =>
          destruct (reply_then_update from t u w s Hs Hup) as (w' & E & Hget & _)
      end; rewrite E; cbn [worldOf]; eexists; (split; [exact Hget|]);
      try reflexivity; split; reflexivity.
  - intros Hstate. split; [now apply route_clarifying|]. split.
    + unfold handleClarificationResponse, tryCatch.
      destruct (analyzeSentiment h body yes_no_question);
        match goal with
        | |- context [(reply from ?t ;; createOrUpdateSession from ?u ;; ret tt) w] =>
            destruct (reply_then_update from t u w s Hs Hup) as (w' & E & Hget & _)
        end; rewrite E; cbn [worldOf]; eexists; (split; [exact Hget|]);
        try reflexivity.
      split; [cbn; exact Hstate|reflexivity].
    + intros bodies. revert w s Hs Hup Hstate.
      induction bodies as [|b bodies IH]; intros w s Hs Hup Hstate Hneutral.
      * exists s. repeat split; assumption.
      * cbn [clarifyRounds]. rewrite Hs, (route_clarifying s Hstate).
        unfold handleClarificationResponse, tryCatch.
        rewrite (Hneutral b (or_introl eq_refl)).
        match goal with
        | |- context [(reply from ?t ;; createOrUpdateSession from ?u ;; ret tt) w] =>
            destruct (reply_then_update from t u w s Hs Hup)
              as (w' & E & Hget & Htr & _)
        end.
        rewrite E. cbn [worldOf].
        match type of Hget with _ = Some ?x => set (s1 := x) in * end.
        destruct (IH w' s1 Hget) as (s' & G1 & G2 & G3).
        { intros k. rewrite Htr. apply Hup. }
        { cbn. exact Hstate. }
        { intros b' Hb'. apply Hneutral. now right. }
        exists s'. split; [exact G1|]. split; [exact G2|].
        rewrite G3. cbn [length]. rewrite Nat.iter_succ_r. reflexivity.
Qed.

Lemma initial_and_clarification_witness :
  mapGet sampleSender
    (userSessions (worldWith (sessionIn WAITING_INITIAL_RESPONSE None) Missing))
    = Some (sessionIn WAITING_INITIAL_RESPONSE None) /\
  exists s',
    mapGet sampleSender
      (userSessions
         (worldOf (handleInitialResponse (refHost None) sampleSender
                     (sessionIn WAITING_INITIAL_RESPONSE None) (js "maybe")
                     (worldWith (sessionIn WAITING_INITIAL_RESPONSE None) Missing))))
      = Some s' /\
    state s' = Some (JStr CLARIFYING_RESPONSE) /\
    clarificationAttempts s' = Some (JNum 1).
Proof.
  split; [reflexivity|].
  destruct (initial_and_clarification_transitions (refHost None) sampleSender
              (worldWith (sessionIn WAITING_INITIAL_RESPONSE None) Missing)
              (sessionIn WAITING_INITIAL_RESPONSE None) (js "maybe")
              eq_refl (fun _ => eq_refl)) as [Hinit _].
  destruct (Hinit (or_intror eq_refl)) as [_ (s' & Hget & Hm)].
  assert (E : analyzeSentiment (refHost None) (js "maybe") yes_no_question = neutral)
    by (vm_compute; reflexivity).
  rewrite E in Hm. destruct Hm as [Hstate Hcount].
  exists s'. split; [exact Hget|]. split; [exact Hstate|exact Hcount].
Defined.

Lemma mapGet_insertIndex i k v o :
  mapHas k o = false -> mapGet k (insertIndex i k v o) = Some v.
Proof.
  induction o as [|[k' v'] o IH]; cbn [mapHas insertIndex mapGet].
  - intros _. now rewrite str_eqb_refl.
  - destruct (str_eqb k' k) eqn:E; [discriminate|]. cbn [orb]. intros Hn.
    destruct (arrayIndex k') as [j|].
    + destruct (j <? i); cbn [mapGet].
      * rewrite E. now apply IH.
      * now rewrite str_eqb_refl.
    + cbn [mapGet]. now rewrite str_eqb_refl.
Qed.

Lemma mapGet_objSet k v o : mapGet k (objSet k v o) = Some v.
Proof.
  unfold objSet. destruct (mapHas k o) eqn:E.
  - now apply mapGet_mapReplace.
  - destruct (arrayIndex k).
    + now apply mapGet_insertIndex.
    + now apply mapGet_app_new.
Qed.

(** C2: for a session in [CONFIRMING_SCHEDULE] that holds a pending
    schedule, with the outbound channel delivering: a positive reply re-runs
    the conflict check for the pending date and time, excluding the sender;
    on a conflict the session moves to [ASKING_DATE] with the pending and
    partial schedules cleared and the booking file untouched; on no conflict
    the session moves to [COMPLETED] and, the disk being writable, the
    booking is in the file under the sender's number; a negative reply moves
    the session to [ASKING_CALL_TIME] with the pending schedule cleared and
    the booking file untouched. *)
Theorem schedule_confirmation
    (h : Host) (from : JsString) (w : World) (s : Session) (body : JsString)
    (fields : list (JsString * Json)) :
  mapGet from (userSessions w) = Some s ->
  state s = Some (JStr CONFIRMING_SCHEDULE) ->
  pendingSchedule s = Some (JObj fields) ->
  (forall k, transport w k = true) ->
  let phoneNumber := extractPhoneNumber from in
  let check :=
    checkTimeConflict h (callScheduleFile w) (mapGet (js "date") fields)
                      (mapGet (js "time") fields) (Some phoneNumber) in
  let w' := worldOf (handleScheduleConfirmation h from s body w) in
  route (state s) = HandleScheduleConfirmation /\
  (analyzeSentiment h body yes_no_question = positive ->
   hasConflict check = true ->
   callScheduleFile w' = callScheduleFile w /\
   exists s',
     mapGet from (userSessions w') = Some s' /\
     state s' = Some (JStr ASKING_DATE) /\
     pendingSchedule s' = Some JNull /\ partialSchedule s' = Some JNull) /\
  (analyzeSentiment h body yes_no_question = positive ->
   hasConflict check = false ->
   (exists s',
      mapGet from (userSessions w') = Some s' /\
      state s' = Some (JStr COMPLETED)) /\
   (diskWritable w = true ->
    exists table booking,
      callScheduleFile w' = Content table /\
      mapGet phoneNumber table = Some (JObj booking) /\
      mapGet (js "date") booking = mapGet (js "date") fields /\
      mapGet (js "time") booking = mapGet (js "time") fields /\
      mapGet (js "status") booking = Some (JStr (js "scheduled")))) /\
  (analyzeSentiment h body yes_no_question = negative ->
   callScheduleFile w' = callScheduleFile w /\
   exists s',
     mapGet from (userSessions w') = Some s' /\
     state s' = Some (JStr ASKING_CALL_TIME) /\
     pendingSchedule s' = Some JNull).
Proof.
  intros Hs Hstate Hpending Hup. cbv zeta.
  split; [rewrite Hstate; reflexivity|].
  unfold handleScheduleConfirmation, tryCatch. rewrite Hpending.
  cbn [getProp]. unfold optProp. cbn [getProp].
  split; [|split].
  - intros ->. intros Hconf.
    match goal with |- context [worldOf ?o] => remember o as out eqn:Hout end.
    unfold bind at 1, gets at 1 in Hout. rewrite Hconf in Hout.
    unfold bind at 1, reply at 1 in Hout.
    match type of Hout with
    | context [send from ?t w] =>
        destruct (send_returns from t w Hup) as (w1 & E1 & (A1 & A2 & A3 & A4 & A5))
    end.
    rewrite E1 in Hout.
    assert (Hs1 : mapGet from (userSessions w1) = Some s) by (rewrite A1; exact Hs).
    assert (Hup1 : forall k, transport w1 k = true) by (intros k; rewrite A2; apply Hup).
    match type of Hout with
    | context [(reply from ?t ;; createOrUpdateSession from ?u ;; ret tt) w1] =>
        destruct (reply_then_update from t u w1 s Hs1 Hup1)
          as (w2 & E2 & Hget & _ & Hfile & _)
    end.
    rewrite E2 in Hout. subst out. cbn [worldOf]. split; [congruence|].
    eexists. split; [exact Hget|]. repeat split.
  - intros ->. intros Hconf.
    match goal with |- context [worldOf ?o] => remember o as out eqn:Hout end.
    unfold bind at 1, gets at 1 in Hout. rewrite Hconf in Hout.
    unfold bind at 1, gets at 1 in Hout.
    unfold bind at 1, saveCallSchedule at 1, modify at 1 in Hout.
    match type of Hout with
    | context [bind (reply from ?t) ?k ?x] => set (w1 := x) in Hout; set (t1 := t) in Hout
    end.
    assert (Hs1 : mapGet from (userSessions w1) = Some s).
    { subst w1. destruct (diskWritable w); exact Hs. }
    assert (Hup1 : forall k, transport w1 k = true).
    { intros k. subst w1. destruct (diskWritable w); apply Hup. }
    unfold bind at 1, reply at 1 in Hout.
    destruct (send_returns from t1 w1 Hup1) as (w2 & E2 & (A1 & A2 & A3 & A4 & A5)).
    rewrite E2 in Hout. unfold bind at 1 in Hout.
    assert (Hs2 : mapGet from (userSessions w2) = Some s) by (rewrite A1; exact Hs1).
    match type of Hout with
    | context [createOrUpdateSession from ?u w2] =>
        destruct (createOrUpdateSession_existing from u w2 s Hs2)
          as (w3 & E3 & B1 & B2 & B3 & B4 & B5)
    end.
    rewrite E3 in Hout.
    destruct (markForSave_returns from completion w3) as (w4 & E4 & (C1 & C2 & C3 & C4 & C5)).
    rewrite E4 in Hout. subst out. cbn [worldOf]. split.
    + eexists. split; [rewrite C1, B1; apply mapGet_mapSet|]. reflexivity.
    + intros Hdisk. rewrite C3, B3, A3. subst w1. rewrite Hdisk.
      cbn [callScheduleFile setScheduleFile].
      eexists. eexists. split; [reflexivity|]. split; [apply mapGet_objSet|].
      destruct (mapGet (js "date") fields), (mapGet (js "time") fields),
               (mapGet (js "formatted") fields), (mapGet (js "originalText") fields);
        repeat split; reflexivity.
  - intros ->.
    match goal with |- context [worldOf ?o] => remember o as out eqn:Hout end.
    match type of Hout with
    | context [(reply from ?t ;; createOrUpdateSession from ?u ;; ret tt) w] =>
        destruct (reply_then_update from t u w s Hs Hup)
          as (w2 & E2 & Hget & _ & Hfile & _)
    end.
    rewrite E2 in Hout. subst out. cbn [worldOf]. split; [exact Hfile|].
    eexists. split; [exact Hget|]. repeat split.
Qed.

Lemma schedule_confirmation_witness :
  mapGet sampleSender
    (userSessions (worldWith (sessionIn CONFIRMING_SCHEDULE (Some (JObj samplePending)))
                             (Content sampleTable)))
    = Some (sessionIn CONFIRMING_SCHEDULE (Some (JObj samplePending))) /\
  exists s',
    mapGet sampleSender
      (userSessions
         (worldOf (handleScheduleConfirmation (refHost (Some blandModel)) sampleSender
                     (sessionIn CONFIRMING_SCHEDULE (Some (JObj samplePending)))
                     (js "yes please")
                     (worldWith (sessionIn CONFIRMING_SCHEDULE (Some (JObj samplePending)))
                                (Content sampleTable)))))
      = Some s' /\
    state s' = Some (JStr COMPLETED).
Proof.
  split; [reflexivity|].
  destruct (schedule_confirmation (refHost (Some blandModel)) sampleSender
              (worldWith (sessionIn CONFIRMING_SCHEDULE (Some (JObj samplePending)))
                         (Content sampleTable))
              (sessionIn CONFIRMING_SCHEDULE (Some (JObj samplePending)))
              (js "yes please") samplePending eq_refl eq_refl eq_refl
              (fun _ => eq_refl)) as (_ & _ & Hbook & _).
  destruct Hbook as [Hsession _]; [vm_compute; reflexivity|vm_compute; reflexivity|].
  exact Hsession.
Defined.

(** ** Maps under update and deletion *)

Lemma mapGet_mapReplace_other {A} k id (v : A) m :
  str_eqb k id = false -> mapGet id (mapReplace k v m) = mapGet id m.
Proof.
  intros Hne. induction m as [|[k' v'] m IH]; [reflexivity|].
  cbn [mapReplace mapGet]. destruct (str_eqb k' k) eqn:E; cbn [mapGet].
  - apply str_eqb_eq in E. subst k'. now rewrite Hne.
  - now rewrite IH.
Qed.

Lemma mapGet_app_other {A} k id (v : A) m :
  str_eqb k id = false -> mapGet id (m ++ [(k, v)]) = mapGet id m.
Proof.
  intros Hne. induction m as [|[k' v'] m IH]; cbn [app mapGet].
  - now rewrite Hne.
  - now rewrite IH.
Qed.

Lemma mapGet_mapSet_other {A} k id (v : A) m :
  str_eqb k id = false -> mapGet id (mapSet k v m) = mapGet id m.
Proof.
  intros Hne. unfold mapSet. destruct (mapHas k m).
  - now apply mapGet_mapReplace_other.
  - now apply mapGet_app_other.
Qed.

Lemma mapGet_mapDelete_other {A} k id (m : list (JsString * A)) :
  str_eqb k id = false -> mapGet id (mapDelete k m) = mapGet id m.
Proof.
  intros Hne. induction m as [|[k' v'] m IH]; [reflexivity|].
  cbn [mapDelete mapGet]. destruct (str_eqb k' k) eqn:E.
  - apply str_eqb_eq in E. subst k'. now rewrite Hne.
  - cbn [mapGet]. now rewrite IH.
Qed.

Lemma mapHas_In {A} k (m : list (JsString * A)) :
  mapHas k m = true <-> In k (map fst m).
Proof.
  induction m as [|[k' v'] m IH]; cbn [mapHas map In fst].
  - split; [discriminate|tauto].
  - rewrite orb_true_iff, IH, str_eqb_eq. tauto.
Qed.

Lemma mapReplace_keys {A} k (v : A) m : map fst (mapReplace k v m) = map fst m.
Proof.
  induction m as [|[k' v'] m IH]; [reflexivity|].
  cbn [mapReplace]. destruct (str_eqb k' k); cbn [map fst]; [reflexivity|now rewrite IH].
Qed.

Lemma mapSet_NoDup {A} k (v : A) m :
  NoDup (map fst m) -> NoDup (map fst (mapSet k v m)).
Proof.
  intros Hm. unfold mapSet. destruct (mapHas k m) eqn:E.
  - now rewrite mapReplace_keys.
  - rewrite map_app. cbn [map fst].
    apply NoDup_app; [exact Hm|constructor; [intros []|constructor]|].
    intros x Hx [<-|[]]. apply mapHas_In in Hx. congruence.
Qed.

Lemma mapGet_unique {A} k (v : A) m :
  NoDup (map fst m) -> In (k, v) m -> mapGet k m = Some v.
Proof.
  induction m as [|[k' v'] m IH]; intros Hm Hin; [destruct Hin|].
  cbn [map fst] in Hm. inversion Hm as [|? ? Hnot Hm']; subst.
  cbn [mapGet]. destruct Hin as [E|Hin].
  - injection E as -> ->. now rewrite str_eqb_refl.
  - destruct (str_eqb k' k) eqn:E; [|now apply IH].
    apply str_eqb_eq in E. subst k'. exfalso. apply Hnot.
    change k with (fst (k, v)). now apply in_map.
Qed.

(** ** Session persistence *)

(** What [serializeSession] writes and what the load path rebuilds from it. *)
Lemma serialize_then_revive now s created active :
  createdAt s = Some created -> lastActivity s = Some active ->
  exists fields s',
    serializeSession now s = Some (JObj fields) /\
    reviveSession (JObj fields) = Some s' /\
    map fst fields
    = map fst (literal [ (js "state", state s);
                         (js "currentQuestion", currentQuestion s);
                         (js "data", data s) ])
      ++ skipn 3 serializedKeys /\
    state s' = state s /\ currentQuestion s' = currentQuestion s /\
    data s' = data s /\
    createdAt s' = Some created /\ lastActivity s' = Some active /\
    partialSchedule s' = None /\ pendingSchedule s' = None /\
    finalSchedule s' = None /\ clarificationAttempts s' = None /\
    pastDateAttempt s' = None /\ completedAt s' = None.
Proof.
  intros Hc Ha. unfold serializeSession. rewrite Hc, Ha.
  eexists. eexists. split; [reflexivity|]. split; [reflexivity|].
  cbn [state currentQuestion data createdAt lastActivity partialSchedule
       pendingSchedule finalSchedule clarificationAttempts pastDateAttempt completedAt].
  unfold optProp.
  destruct (state s), (currentQuestion s), (data s);
    (split; [reflexivity|]);
    repeat (split; [first [reflexivity | apply dateOfISO_toISOString]|]);
    reflexivity.
Qed.

Lemma loadEntries_other id : forall table w,
  Forall (fun e => snd e <> JNull) table ->
  ~ In id (map fst table) ->
  exists w',
    loadEntries table w = Returned tt w' /\
    mapGet id (userSessions w') = mapGet id (userSessions w) /\
    clock w' = clock w /\
    (NoDup (map fst (userSessions w)) -> NoDup (map fst (userSessions w'))).
Proof.
  induction table as [|[k v] table IH]; intros w Hrec Hnot.
  - exists w. repeat split; auto.
  - inversion Hrec as [|? ? Hv Hrec']; subst. cbn [snd] in Hv.
    cbn [loadEntries]. destruct (reviveSession v) as [session|] eqn:Er;
      [|destruct v; try discriminate; congruence].
    unfold bind, modify.
    match goal with |- context [loadEntries table ?x] => set (w1 := x) end.
    destruct (IH w1 Hrec') as (w' & E & Hget & Hclock & Hnd).
    { intros Hin. apply Hnot. now right. }
    exists w'. split; [exact E|]. split; [|split].
    + rewrite Hget. subst w1. cbn [userSessions setSessions].
      apply mapGet_mapSet_other.
      destruct (str_eqb k id) eqn:Ek; [|reflexivity].
      apply str_eqb_eq in Ek. subst k. exfalso. apply Hnot. now left.
    + rewrite Hclock. reflexivity.
    + intros Hw. apply Hnd. subst w1. cbn [userSessions setSessions].
      now apply mapSet_NoDup.
Qed.

Lemma loadEntries_yields id j s' : forall table w,
  Forall (fun e => snd e <> JNull) table ->
  NoDup (map fst table) ->
  mapGet id table = Some j ->
  reviveSession j = Some s' ->
  exists w',
    loadEntries table w = Returned tt w' /\
    mapGet id (userSessions w') = Some s' /\
    clock w' = clock w /\
    (NoDup (map fst (userSessions w)) -> NoDup (map fst (userSessions w'))).
Proof.
  induction table as [|[k v] table IH]; intros w Hrec Hnd Hget Hrev; [discriminate|].
  inversion Hrec as [|? ? Hv Hrec']; subst. cbn [snd] in Hv.
  cbn [map fst] in Hnd. inversion Hnd as [|? ? Hnot Hnd']; subst.
  cbn [loadEntries]. destruct (reviveSession v) as [session|] eqn:Er;
    [|destruct v; try discriminate; congruence].
  unfold bind, modify.
  match goal with |- context [loadEntries table ?x] => set (w1 := x) end.
  cbn [mapGet] in Hget. destruct (str_eqb k id) eqn:Ek.
  - injection Hget as ->. apply str_eqb_eq in Ek. subst k.
    destruct (loadEntries_other id table w1 Hrec' Hnot) as (w' & E & Hg & Hclock & Hkeep).
    exists w'. split; [exact E|]. split; [|split].
    + rewrite Hg. subst w1. cbn [userSessions setSessions].
      rewrite mapGet_mapSet. congruence.
    + rewrite Hclock. reflexivity.
    + intros Hw. apply Hkeep. subst w1. cbn [userSessions setSessions].
      now apply mapSet_NoDup.
  - destruct (IH w1 Hrec' Hnd' Hget Hrev) as (w' & E & Hg & Hclock & Hkeep).
    exists w'. split; [exact E|]. split; [exact Hg|]. split.
    + rewrite Hclock. reflexivity.
    + intros Hw. apply Hkeep. subst w1. cbn [userSessions setSessions].
      now apply mapSet_NoDup.
Qed.

Lemma notice_returns to text w :
  exists w', tryCatch (send to text) (ret tt) w = Returned tt w' /\
             userSessions w' = userSessions w.
Proof.
  unfold tryCatch, send. destruct (transport w (sendCount w));
    eexists; (split; [reflexivity|reflexivity]).
Qed.

Lemma sweep_keeps h now id : forall entries w,
  (forall s, In (id, s) entries -> isExpired h now s = false) ->
  exists n w', sweep h now entries w = Returned n w' /\
               mapGet id (userSessions w') = mapGet id (userSessions w).
Proof.
  induction entries as [|[k s] entries IH]; intros w Hkeep.
  - exists 0, w. split; reflexivity.
  - cbn [sweep]. destruct (isExpired h now s) eqn:Ex.
    + unfold bind at 1.
      match goal with
      | |- context [tryCatch (send k ?t) (ret tt) w] =>
          destruct (notice_returns k t w) as (w1 & E1 & H1)
      end.
      rewrite E1. unfold bind at 1, modify at 1. unfold bind at 1.
      match goal with |- context [sweep h now entries ?x] => set (w2 := x) end.
      destruct (IH w2) as (n & w' & E & Hg).
      { intros s0 Hin. apply Hkeep. now right. }
      rewrite E. exists (n + 1), w'. split; [reflexivity|].
      rewrite Hg. subst w2. cbn [userSessions setSessions]. rewrite H1.
      apply mapGet_mapDelete_other.
      destruct (str_eqb k id) eqn:Ek; [|reflexivity].
      apply str_eqb_eq in Ek. subst k.
      rewrite (Hkeep s (or_introl eq_refl)) in Ex. discriminate.
    + destruct (IH w) as (n & w' & E & Hg).
      { intros s0 Hin. apply Hkeep. now right. }
      exists n, w'. split; assumption.
Qed.

Lemma In_mapGet {A} k (v : A) m : mapGet k m = Some v -> exists k', In (k', v) m /\ k' = k.
Proof.
  induction m as [|[k' v'] m IH]; [discriminate|]. cbn [mapGet].
  destruct (str_eqb k' k) eqn:E.
  - intros [= ->]. apply str_eqb_eq in E. exists k'. split; [now left|exact E].
  - intros H. destruct (IH H) as (k0 & Hin & Hk). exists k0. split; [now right|exact Hk].
Qed.

(** The load path keeps what it rebuilt for an identifier whose session has
    not expired. *)
Lemma load_path_yields h w id table j s' :
  sessionsFile w = Content table ->
  Forall (fun e => snd e <> JNull) table ->
  NoDup (map fst table) ->
  NoDup (map fst (userSessions w)) ->
  mapGet id table = Some j ->
  reviveSession j = Some s' ->
  isExpired h (clock w) s' = false ->
  mapGet id (userSessions (worldOf (loadSessionsFromFile h w))) = Some s'.
Proof.
  intros Hfile Hrec Hnd Hw Hget Hrev Hlive.
  unfold loadSessionsFromFile, tryCatch. unfold bind at 1, gets at 1. rewrite Hfile.
  unfold bind at 1.
  destruct (loadEntries_yields id j s' table w Hrec Hnd Hget Hrev)
    as (w1 & E1 & Hg1 & Hclock & Hkeep).
  rewrite E1. unfold cleanupExpiredSessions.
  unfold bind at 1, gets at 1. unfold bind at 1, gets at 1. unfold bind at 1.
  destruct (sweep_keeps h (clock w1) id (userSessions w1) w1) as (n & w2 & E2 & Hg2).
  { intros s Hin. pose proof (mapGet_unique id s _ (Hkeep Hw) Hin) as Hs.
    rewrite Hg1 in Hs. injection Hs as <-. now rewrite Hclock. }
  rewrite E2. destruct (0 <? n).
  - unfold forceSave.
    pose proof (saveSessionsToFile_stores (map fst (userSessions w2)) w2) as (A1 & _).
    destruct (saveSessionsToFile (map fst (userSessions w2)) w2) as [[] w3|w3];
      cbn [worldOf ret] in *; rewrite A1; congruence.
  - cbn [worldOf ret]. congruence.
Qed.

(** C8: a session whose two instants are valid dates is serialized, and the
    session the load path rebuilds from the serialized entry has the same
    [state], [data], [createdAt] and [lastActivity] (to the millisecond,
    hence to the second); [loadSessionsFromFile] leaves that session under
    its identifier unless its expiry sweep finds it older than the timeout. *)
Theorem session_round_trip
    (h : Host) (now : Z) (s : Session) (created active : Z) :
  createdAt s = Some created ->
  lastActivity s = Some active ->
  exists entry s',
    serializeSession now s = Some entry /\
    reviveSession entry = Some s' /\
    state s' = state s /\ data s' = data s /\
    createdAt s' = createdAt s /\ lastActivity s' = lastActivity s /\
    option_map (fun t => t / 1000) (createdAt s')
    = option_map (fun t => t / 1000) (createdAt s) /\
    option_map (fun t => t / 1000) (lastActivity s')
    = option_map (fun t => t / 1000) (lastActivity s) /\
    (forall w id table,
       sessionsFile w = Content table ->
       Forall (fun e => snd e <> JNull) table ->
       NoDup (map fst table) ->
       NoDup (map fst (userSessions w)) ->
       mapGet id table = Some entry ->
       isExpired h (clock w) s' = false ->
       mapGet id (userSessions (worldOf (loadSessionsFromFile h w))) = Some s').
Proof.
  intros Hc Ha.
  destruct (serialize_then_revive now s created active Hc Ha)
    as (fields & s' & Hser & Hrev & _ & Hst & _ & Hdata & Hc' & Ha' & _).
  exists (JObj fields), s'.
  split; [exact Hser|]. split; [exact Hrev|].
  split; [exact Hst|]. split; [exact Hdata|].
  split; [congruence|]. split; [congruence|].
  split; [congruence|]. split; [congruence|].
  intros w id table Hfile Hrec Hnd Hw Hget Hlive.
  exact (load_path_yields h w id table (JObj fields) s' Hfile Hrec Hnd Hw Hget Hrev Hlive).
Qed.

Lemma session_round_trip_witness :
  createdAt (sessionIn ASKING_CALL_TIME None) = Some 1705312000000 /\
  exists entry s',
    serializeSession 1705312800000 (sessionIn ASKING_CALL_TIME None) = Some entry /\
    reviveSession entry = Some s' /\
    state s' = Some (JStr ASKING_CALL_TIME) /\
    createdAt s' = Some 1705312000000.
Proof.
  split; [reflexivity|].
  destruct (session_round_trip (refHost None) 1705312800000
              (sessionIn ASKING_CALL_TIME None) 1705312000000 1705312000000
              eq_refl eq_refl)
    as (entry & s' & Hser & Hrev & Hst & _ & Hc & _).
  exists entry, s'. repeat split; assumption.
Defined.

(** C9: the serialized form of a session (with [state], [currentQuestion]
    and [data] set and valid dates) has exactly the fields [state],
    [currentQuestion], [data], [createdAt], [lastActivity],
    [waitingForFreeText], [freeTextContext] and [metadata]; the pending,
    partial and final schedules and the clarification counter are not
    written, so whatever the session held, the session rebuilt from the
    serialized entry, and left by [loadSessionsFromFile] unless expired,
    holds none of them. *)
Theorem serialized_fields_drop_candidates
    (h : Host) (now : Z) (s : Session) (created active : Z) (st question d : Json) :
  createdAt s = Some created ->
  lastActivity s = Some active ->
  state s = Some st ->
  currentQuestion s = Some question ->
  data s = Some d ->
  exists fields s',
    serializeSession now s = Some (JObj fields) /\
    map fst fields = serializedKeys /\
    mapGet (js "pendingSchedule") fields = None /\
    mapGet (js "partialSchedule") fields = None /\
    mapGet (js "finalSchedule") fields = None /\
    mapGet (js "clarificationAttempts") fields = None /\
    reviveSession (JObj fields) = Some s' /\
    pendingSchedule s' = None /\ partialSchedule s' = None /\
    finalSchedule s' = None /\ clarificationAttempts s' = None /\
    (forall w id table,
       sessionsFile w = Content table ->
       Forall (fun e => snd e <> JNull) table ->
       NoDup (map fst table) ->
       NoDup (map fst (userSessions w)) ->
       mapGet id table = Some (JObj fields) ->
       isExpired h (clock w) s' = false ->
       exists loaded,
         mapGet id (userSessions (worldOf (loadSessionsFromFile h w))) = Some loaded /\
         pendingSchedule loaded = None /\ partialSchedule loaded = None /\
         finalSchedule loaded = None /\ clarificationAttempts loaded = None).
Proof.
  intros Hc Ha Hst Hq Hd.
  destruct (serialize_then_revive now s created active Hc Ha)
    as (fields & s' & Hser & Hrev & Hkeys & _ & _ & _ & _ & _
        & Hpartial & Hpending & Hfinal & Hcount & _).
  assert (Hk : map fst fields = serializedKeys)
    by (rewrite Hkeys, Hst, Hq, Hd; reflexivity).
  exists fields, s'.
  split; [exact Hser|]. split; [exact Hk|].
  assert (Habsent : forall key, ~ In key serializedKeys -> mapGet key fields = None).
  { intros key Hnot. rewrite <- Hk in Hnot. clear - Hnot.
    induction fields as [|[k v] fields IH]; [reflexivity|].
    cbn [mapGet]. destruct (str_eqb k key) eqn:E.
    - apply str_eqb_eq in E. subst k. exfalso. apply Hnot. now left.
    - apply IH. intros Hin. apply Hnot. now right. }
  assert (Hno : forall key, existsb (str_eqb key) serializedKeys = false ->
                            ~ In key serializedKeys).
  { intros key E Hin.
    assert (E' : existsb (str_eqb key) serializedKeys = true).
    { apply existsb_exists. exists key. split; [exact Hin|apply str_eqb_refl]. }
    congruence. }
  split; [apply Habsent, Hno; reflexivity|].
  split; [apply Habsent, Hno; reflexivity|].
  split; [apply Habsent, Hno; reflexivity|].
  split; [apply Habsent, Hno; reflexivity|].
  split; [exact Hrev|].
  split; [exact Hpending|]. split; [exact Hpartial|].
  split; [exact Hfinal|]. split; [exact Hcount|].
  intros w id table Hfile Hrec Hnd Hw Hget Hlive.
  exists s'. split;
    [exact (load_path_yields h w id table (JObj fields) s' Hfile Hrec Hnd Hw Hget Hrev Hlive)|].
  repeat split; assumption.
Qed.

Lemma serialized_fields_witness :
  pendingSchedule (sessionIn CONFIRMING_SCHEDULE (Some (JObj samplePending)))
    = Some (JObj samplePending) /\
  exists fields s',
    serializeSession 1705312800000
      (sessionIn CONFIRMING_SCHEDULE (Some (JObj samplePending))) = Some (JObj fields) /\
    map fst fields = serializedKeys /\
    reviveSession (JObj fields) = Some s' /\
    pendingSchedule s' = None.
Proof.
  split; [reflexivity|].
  destruct (serialized_fields_drop_candidates (refHost None) 1705312800000
              (sessionIn CONFIRMING_SCHEDULE (Some (JObj samplePending)))
              1705312000000 1705312000000
              (JStr CONFIRMING_SCHEDULE) (JStr (js "question")) (JObj [])
              eq_refl eq_refl eq_refl eq_refl eq_refl)
    as (fields & s' & Hser & Hkeys & _ & _ & _ & _ & Hrev & Hp & _).
  exists fields, s'. repeat split; assumption.
Defined.

(** ** The engine on concrete inputs *)

(** Reference instant: Monday 1 January 2024, 10:30:15.123. *)
Example monday_from_monday :
  weekday 1704105015123 = 1 /\
  getNextWeekday 1704105015123 1 = js "08/01/2024" /\
  getNextWeekday 1704105015123 2 = js "02/01/2024" /\
  getNextWeekday 1704105015123 0 = js "07/01/2024".
Proof. repeat split; vm_compute; reflexivity. Qed.

Example immediate_text_resolves_to_now :
  let r := parseTimeExpression (refHost None) noRows noRows (js "call me right now")
             1704105015123 in
  tp_immediate r = true /\ tp_date r = Some (js "01/01/2024")
  /\ tp_time r = Some (js "10:30").
Proof. repeat split; vm_compute; reflexivity. Qed.

Example iso_text_of_reference :
  toISOString 1704105015123 = js "2024-01-01T10:30:15.123Z" /\
  formatLong 1704105015123 = js "Monday, January 1st at 10:30 AM".
Proof. split; vm_compute; reflexivity. Qed.

Example yes_no_samples :
  analyzeSentiment (refHost (Some sternModel)) (js "Sure, go ahead") yes_no_question
    = positive /\
  analyzeSentiment (refHost (Some sternModel)) (js "no thanks") yes_no_question
    = negative /\
  analyzeSentiment (refHost (Some blandModel)) (js "hmm") yes_no_question = positive /\
  analyzeSentiment (refHost None) (js "hmm, maybe") yes_no_question = neutral.
Proof. repeat split; vm_compute; reflexivity. Qed.

Example delays_by_pending_count :
  let queue n := firstn n (fivePending ++ fivePending ++ fivePending) in
  map (fun n => calculateDynamicDelay (queue n)) [0; 4; 5; 6; 9; 10; 11]%nat
  = [2000; 2000; 2000; 1000; 1000; 500; 500].
Proof. vm_compute. reflexivity. Qed.

Example fifteen_minutes_is_clear :
  hasConflict
    (checkTimeConflict (refHost None) (Content sampleTable)
       (Some (JStr (js "15/01/2024"))) (Some (JStr (js "10:25"))) None) = false /\
  conflictingPhone
    (checkTimeConflict (refHost None) (Content sampleTable)
       (Some (JStr (js "15/01/2024"))) (Some (JStr (js "10:24"))) None)
    = Some (js "333").
Proof. split; vm_compute; reflexivity. Qed.

(** ** Identifiers and phone numbers *)

(** [extractPhoneNumber] gives the part of an identifier before its first
    [@]: the result holds no [@], the identifier is the result followed by
    nothing or by an [@] and a remainder, and the identifier built for a
    phone number without [@] gives that phone number back. *)
Theorem extractPhoneNumber_before_at (whatsappId : JsString) :
  let phone := extractPhoneNumber whatsappId in
  ~ In 64 phone /\
  (whatsappId = phone \/ exists rest, whatsappId = phone ++ 64 :: rest) /\
  (forall number suffix,
     ~ In 64 number -> extractPhoneNumber (number ++ 64 :: suffix) = number).
Proof.
  cbv zeta. repeat split.
  - induction whatsappId as [|c s IH]; cbn [extractPhoneNumber]; [tauto|].
    destruct (c =? 64) eqn:E; [tauto|]. apply Z.eqb_neq in E.
    intros [H|H]; [congruence|tauto].
  - induction whatsappId as [|c s IH]; cbn [extractPhoneNumber]; [now left|].
    destruct (c =? 64) eqn:E.
    + apply Z.eqb_eq in E. subst. right. now exists s.
    + destruct IH as [IH|[rest IH]].
      * left. now rewrite <- IH.
      * right. exists rest. cbn [app]. now rewrite <- IH.
  - intros number suffix. induction number as [|c s IH]; intros Hn.
    + reflexivity.
    + cbn [app extractPhoneNumber]. destruct (c =? 64) eqn:E.
      * apply Z.eqb_eq in E. exfalso. apply Hn. now left.
      * f_equal. apply IH. intros H. apply Hn. now right.
Qed.

(** ** Objects under assignment *)

Lemma str_eqb_sym a b : str_eqb a b = str_eqb b a.
Proof.
  destruct (str_eqb a b) eqn:E1, (str_eqb b a) eqn:E2; try reflexivity.
  - apply str_eqb_eq in E1. subst. now rewrite str_eqb_refl in E2.
  - apply str_eqb_eq in E2. subst. now rewrite str_eqb_refl in E1.
Qed.

Lemma str_eqb_neq a b : str_eqb a b = false <-> a <> b.
Proof.
  split.
  - intros E ->. now rewrite str_eqb_refl in E.
  - intros H. destruct (str_eqb a b) eqn:E; [|reflexivity].
    apply str_eqb_eq in E. contradiction.
Qed.

Lemma mapGet_insertIndex_other i k id v o :
  str_eqb k id = false -> mapGet id (insertIndex i k v o) = mapGet id o.
Proof.
  intros E. induction o as [|[k' v'] o IH]; cbn [insertIndex mapGet].
  - now rewrite E.
  - destruct (arrayIndex k') as [j|].
    + destruct (j <? i); cbn [mapGet]; [now rewrite IH|now rewrite E].
    + cbn [mapGet]. now rewrite E.
Qed.

Lemma mapGet_objSet_other k id v o :
  str_eqb k id = false -> mapGet id (objSet k v o) = mapGet id o.
Proof.
  intros E. unfold objSet. destruct (mapHas k o).
  - now apply mapGet_mapReplace_other.
  - destruct (arrayIndex k).
    + now apply mapGet_insertIndex_other.
    + now apply mapGet_app_other.
Qed.




Lemma mapGet_In {A} k (v : A) m : mapGet k m = Some v -> In (k, v) m.
Proof.
  induction m as [|[k' v'] m IH]; cbn [mapGet]; [discriminate|].
  destruct (str_eqb k' k) eqn:E.
  - intros [= ->]. apply str_eqb_eq in E. subst. now left.
  - intros H. right. now apply IH.
Qed.

(** ** The schedule file under [saveCallSchedule] *)

Lemma saveCallSchedule_writable phone scheduleData w :
  diskWritable w = true ->
  saveCallSchedule phone scheduleData w
  = Returned tt
      (setScheduleFile
         (Content (objSet phone (bookingOf scheduleData (clock w))
                          (tableOf (callScheduleFile w)))) w).
Proof.
  intros Hd. unfold saveCallSchedule, modify. rewrite Hd.
  unfold bookingOf, tableOf. destruct (callScheduleFile w); reflexivity.
Qed.

Lemma literal_mapReplace_same k v (m : list (JsString * option Json)) :
  mapHas k m = true -> mapGet k (literal (mapReplace k (Some v) m)) = Some v.
Proof.
  induction m as [|[k' [v'|]] m IH]; cbn [mapHas mapReplace]; [discriminate| |];
    destruct (str_eqb k' k) eqn:E; cbn [orb literal mapGet]; intros H.
  - now rewrite E.
  - rewrite E. now apply IH.
  - now rewrite E.
  - now apply IH.
Qed.

Lemma literal_app (a b : list (JsString * option Json)) :
  literal (a ++ b) = literal a ++ literal b.
Proof.
  induction a as [|[k [v|]] a IH]; cbn [app literal]; [reflexivity| |exact IH].
  now rewrite IH.
Qed.

Lemma mapHas_literal k (m : list (JsString * option Json)) :
  mapHas k m = false -> mapHas k (literal m) = false.
Proof.
  induction m as [|[k' [v'|]] m IH]; cbn [mapHas literal]; [reflexivity| |];
    destruct (str_eqb k' k); cbn [orb]; try discriminate; exact IH.
Qed.

Lemma literal_mapSet_same k v (m : list (JsString * option Json)) :
  mapGet k (literal (mapSet k (Some v) m)) = Some v.
Proof.
  unfold mapSet. destruct (mapHas k m) eqn:E.
  - now apply literal_mapReplace_same.
  - rewrite literal_app. cbn [literal]. apply mapGet_app_new.
    now apply mapHas_literal.
Qed.

Lemma literal_mapReplace_other k k' v (m : list (JsString * option Json)) :
  str_eqb k k' = false ->
  mapGet k' (literal (mapReplace k (Some v) m)) = mapGet k' (literal m).
Proof.
  intros Hne. induction m as [|[k0 [v0|]] m IH]; cbn [mapReplace literal mapGet];
    [reflexivity| |].
  - destruct (str_eqb k0 k) eqn:E; cbn [literal mapGet].
    + apply str_eqb_eq in E. subst k0. now rewrite Hne.
    + now rewrite IH.
  - destruct (str_eqb k0 k) eqn:E; cbn [literal mapGet]; [|exact IH].
    apply str_eqb_eq in E. subst k0. now rewrite Hne.
Qed.

Lemma literal_mapSet_other k k' v (m : list (JsString * option Json)) :
  str_eqb k k' = false ->
  mapGet k' (literal (mapSet k (Some v) m)) = mapGet k' (literal m).
Proof.
  intros Hne. unfold mapSet. destruct (mapHas k m).
  - now apply literal_mapReplace_other.
  - rewrite literal_app. cbn [literal]. apply mapGet_app_other. exact Hne.
Qed.

Lemma bookingOf_fields scheduleData now :
  optProp (Some (bookingOf scheduleData now)) (js "status")
  = Some (JStr (js "scheduled")) /\
  optProp (Some (bookingOf scheduleData now)) (js "createdAt")
  = Some (JStr (toISOString now)) /\
  (forall key, key <> js "status" -> key <> js "createdAt" ->
     optProp (Some (bookingOf scheduleData now)) key
     = mapGet key (literal scheduleData)).
Proof.
  unfold optProp, bookingOf. cbn [getProp]. split; [|split].
  - apply literal_mapSet_same.
  - rewrite literal_mapSet_other by reflexivity. apply literal_mapSet_same.
  - intros key H1 H2.
    rewrite literal_mapSet_other by (apply str_eqb_neq; congruence).
    apply literal_mapSet_other. apply str_eqb_neq. congruence.
Qed.

(** [saveCallSchedule] on a schedule file that holds an object, is absent or
    cannot be read or parsed.  The booking it builds has the status
    [scheduled] and the present time as [createdAt], also when the caller's
    data holds these keys, and the caller's data otherwise.  On a file that
    holds an object it returns; when the write succeeds the file holds the
    caller's new entry, which replaces any previous entry of that caller,
    and every other caller's entry is as it was.  On a file that is absent
    or cannot be parsed it returns, and a successful write leaves the
    caller's entry as the only one.  When the write fails nothing changes.
    Sessions, the sessions file, the save queue and the outbox are never
    touched. *)
Theorem saveCallSchedule_effect
    (phoneNumber : JsString) (scheduleData : list (JsString * option Json))
    (w : World) :
  let booking := bookingOf scheduleData (clock w) in
  let frame w' :=
    userSessions w' = userSessions w /\ sessionsFile w' = sessionsFile w /\
    saveQueue w' = saveQueue w /\ outbox w' = outbox w in
  (optProp (Some booking) (js "status") = Some (JStr (js "scheduled")) /\
   optProp (Some booking) (js "createdAt") = Some (JStr (toISOString (clock w))) /\
   (forall key, key <> js "status" -> key <> js "createdAt" ->
      optProp (Some booking) key = mapGet key (literal scheduleData))) /\
  (forall table,
     callScheduleFile w = Content table ->
     exists w',
       saveCallSchedule phoneNumber scheduleData w = Returned tt w' /\
       (diskWritable w = false -> w' = w) /\
       (diskWritable w = true ->
        exists table',
          callScheduleFile w' = Content table' /\
          mapGet phoneNumber table' = Some booking /\
          (forall other, other <> phoneNumber ->
             mapGet other table' = mapGet other table) /\
          frame w')) /\
  (callScheduleFile w = Missing \/ callScheduleFile w = Unreadable ->
   exists w',
     saveCallSchedule phoneNumber scheduleData w = Returned tt w' /\
     (diskWritable w = false -> w' = w) /\
     (diskWritable w = true ->
      callScheduleFile w' = Content [(phoneNumber, booking)] /\ frame w')).
Proof.
  cbv zeta. split; [apply bookingOf_fields|]. split.
  - intros table Hf. destruct (diskWritable w) eqn:Hd.
    + rewrite (saveCallSchedule_writable _ _ _ Hd). eexists. split; [reflexivity|].
      split; [discriminate|]. intros _. eexists. split; [reflexivity|].
      rewrite Hf. cbn [tableOf].
      split; [apply mapGet_objSet|]. split; [|repeat split].
      intros other Ho. apply mapGet_objSet_other. apply str_eqb_neq. congruence.
    + exists w. unfold saveCallSchedule, modify. rewrite Hd.
      split; [reflexivity|]. split; [reflexivity|discriminate].
  - intros Hf. destruct (diskWritable w) eqn:Hd.
    + rewrite (saveCallSchedule_writable _ _ _ Hd). eexists. split; [reflexivity|].
      split; [discriminate|]. intros _.
      cbn [callScheduleFile setScheduleFile]. split; [|repeat split].
      assert (Ht : tableOf (callScheduleFile w) = [])
        by (destruct Hf as [-> | ->]; reflexivity).
      rewrite Ht. unfold objSet. cbn [mapHas].
      destruct (arrayIndex phoneNumber); reflexivity.
    + exists w. unfold saveCallSchedule, modify. rewrite Hd.
      split; [reflexivity|]. split; [reflexivity|discriminate].
Qed.





(** ** The sessions file under [saveSessionsToFile] *)

Lemma mapHas_false_mapGet {A} k (m : list (JsString * A)) :
  mapHas k m = false <-> mapGet k m = None.
Proof.
  induction m as [|[k' v'] m IH]; cbn [mapHas mapGet]; [tauto|].
  destruct (str_eqb k' k); cbn [orb]; [split; discriminate|exact IH].
Qed.

Lemma mapDelete_keys_incl {A} k (m : list (JsString * A)) x :
  In x (map fst (mapDelete k m)) -> In x (map fst m).
Proof.
  induction m as [|[k' v'] m IH]; cbn [mapDelete map fst]; [tauto|].
  destruct (str_eqb k' k); cbn [map fst In]; tauto.
Qed.

Lemma mapDelete_NoDup {A} k (m : list (JsString * A)) :
  NoDup (map fst m) -> NoDup (map fst (mapDelete k m)).
Proof.
  induction m as [|[k' v'] m IH]; cbn [mapDelete map fst]; [auto|].
  intros H. inversion H as [|? ? Hn Hm]; subst.
  destruct (str_eqb k' k); [exact Hm|].
  cbn [map fst]. constructor; [|auto].
  intros Hin. apply Hn. now apply mapDelete_keys_incl in Hin.
Qed.

Lemma mapGet_mapDelete {A} k (m : list (JsString * A)) :
  NoDup (map fst m) -> mapGet k (mapDelete k m) = None.
Proof.
  induction m as [|[k' v'] m IH]; cbn [mapDelete map fst mapGet]; [reflexivity|].
  intros H. inversion H as [|? ? Hn Hm]; subst.
  destruct (str_eqb k' k) eqn:E.
  - apply str_eqb_eq in E. subst. apply mapHas_false_mapGet.
    destruct (mapHas k m) eqn:Eh; [|reflexivity].
    apply mapHas_In in Eh. contradiction.
  - cbn [mapGet]. rewrite E. auto.
Qed.

Lemma insertIndex_keys i k v o x :
  In x (map fst (insertIndex i k v o)) <-> x = k \/ In x (map fst o).
Proof.
  induction o as [|[k' v'] o IH]; cbn [insertIndex map fst In].
  - intuition.
  - destruct (arrayIndex k') as [j|]; [destruct (j <? i)|]; cbn [map fst In];
      rewrite ?IH; intuition.
Qed.

Lemma insertIndex_NoDup i k v o :
  ~ In k (map fst o) -> NoDup (map fst o) -> NoDup (map fst (insertIndex i k v o)).
Proof.
  induction o as [|[k' v'] o IH]; cbn [insertIndex map fst In]; intros Hk Hn.
  - repeat constructor. tauto.
  - inversion Hn as [|? ? Hn1 Hn2]; subst.
    assert (Hall : NoDup (k :: k' :: map fst o)).
    { constructor; [cbn [In]; tauto|assumption]. }
    destruct (arrayIndex k') as [j|]; [destruct (j <? i)|]; cbn [map fst];
      try exact Hall.
    constructor.
    + rewrite insertIndex_keys. intros [->|H]; tauto.
    + apply IH; tauto.
Qed.

Lemma objSet_NoDup k v o :
  NoDup (map fst o) -> NoDup (map fst (objSet k v o)).
Proof.
  intros Hn. unfold objSet. destruct (mapHas k o) eqn:E.
  - now rewrite mapReplace_keys.
  - assert (Hk : ~ In k (map fst o)).
    { intros Hin. apply mapHas_In in Hin. congruence. }
    destruct (arrayIndex k).
    + now apply insertIndex_NoDup.
    + pose proof (mapSet_NoDup k v o Hn) as H. unfold mapSet in H.
      now rewrite E in H.
Qed.

(** What the entry of [k] becomes when [k] is listed for saving. *)
Lemma updateEntries_spec now sessions : forall ids table,
  NoDup (map fst table) ->
  (forall k s, In k ids -> mapGet k sessions = Some s ->
               serializeSession now s <> None) ->
  exists table',
    updateEntries now sessions ids table = Some table' /\
    NoDup (map fst table') /\
    (forall k, In k ids ->
       mapGet k table' = match mapGet k sessions with
                         | Some s => serializeSession now s
                         | None => None
                         end) /\
    (forall k, ~ In k ids -> mapGet k table' = mapGet k table).
Proof.
  induction ids as [|id rest IH]; intros table Hnd Hser.
  - exists table. cbn [updateEntries In]. repeat split; [assumption|tauto].
  - cbn [updateEntries].
    assert (Hrest : forall k s, In k rest -> mapGet k sessions = Some s ->
                                serializeSession now s <> None).
    { intros k s Hk. apply Hser. now right. }
    assert (Hdec : forall k, In k rest \/ ~ In k rest).
    { intros k. destruct (in_dec (list_eq_dec Z.eq_dec) k rest); tauto. }
    destruct (mapGet id sessions) as [s|] eqn:Es.
    + destruct (serializeSession now s) as [entry|] eqn:Ee.
      2:{ exfalso. apply (Hser id s); [now left|assumption|assumption]. }
      destruct (IH (objSet id entry table) (objSet_NoDup _ _ _ Hnd) Hrest)
        as (table' & E & Hnd' & Hin & Hout).
      exists table'. repeat split; [assumption|assumption| |].
      * intros k [<-|Hk].
        -- destruct (Hdec id) as [Hr|Hr]; [now apply Hin|].
           rewrite (Hout _ Hr), Es, Ee. apply mapGet_objSet.
        -- now apply Hin.
      * intros k Hk. cbn [In] in Hk. rewrite Hout by tauto.
        apply mapGet_objSet_other. apply str_eqb_neq. intros ->. tauto.
    + destruct (IH (mapDelete id table) (mapDelete_NoDup _ _ Hnd) Hrest)
        as (table' & E & Hnd' & Hin & Hout).
      exists table'. repeat split; [assumption|assumption| |].
      * intros k [<-|Hk].
        -- destruct (Hdec id) as [Hr|Hr]; [now apply Hin|].
           rewrite (Hout _ Hr), Es. now apply mapGet_mapDelete.
        -- now apply Hin.
      * intros k Hk. cbn [In] in Hk. rewrite Hout by tauto.
        apply mapGet_mapDelete_other. apply str_eqb_neq. intros ->. tauto.
Qed.

(** A session whose two instants are valid dates can be serialized. *)
Lemma serializeSession_valid now s :
  createdAt s <> None -> lastActivity s <> None -> serializeSession now s <> None.
Proof.
  unfold serializeSession. destruct (createdAt s), (lastActivity s); congruence.
Qed.

(** Saving a list of identifiers to a readable file on a writable disk, all
    the listed sessions having valid dates: the file then holds, for each
    listed identifier, the serialized session of the map, or no entry when
    the map has no such session; the entries of the identifiers not listed
    are untouched; nothing but the file changes. *)
Theorem saveSessionsToFile_entries
    (whatsappIds : list JsString) (w : World) (table : list (JsString * Json)) :
  sessionsFile w = Content table \/ (sessionsFile w = Missing /\ table = []) ->
  NoDup (map fst table) ->
  diskWritable w = true ->
  (forall k s, In k whatsappIds -> mapGet k (userSessions w) = Some s ->
               createdAt s <> None /\ lastActivity s <> None) ->
  exists table',
    saveSessionsToFile whatsappIds w
    = Returned tt (setSessionsFile (Content table') w) /\
    (forall k, In k whatsappIds ->
       mapGet k table' = match mapGet k (userSessions w) with
                         | Some s => serializeSession (clock w) s
                         | None => None
                         end) /\
    (forall k, ~ In k whatsappIds -> mapGet k table' = mapGet k table).
Proof.
  intros Hfile Hnd Hd Hvalid.
  destruct (updateEntries_spec (clock w) (userSessions w) whatsappIds table Hnd)
    as (table' & E & _ & Hin & Hout).
  { intros k s Hk Hs. destruct (Hvalid k s Hk Hs).
    now apply serializeSession_valid. }
  exists table'. split; [|split; assumption].
  unfold saveSessionsToFile.
  destruct Hfile as [-> | [-> ->]]; rewrite E, Hd; reflexivity.
Qed.

Lemma saveSessionsToFile_entries_witness :
  exists table',
    sessionsFile (worldOf (saveSessionsToFile [js "222@c.us"; js "333@c.us"] twoSessions))
    = Content table' /\
    mapGet (js "333@c.us") table' = None /\
    mapGet (js "222@c.us") table'
    = serializeSession 1705312800000 (idleSince 1705312000000).
Proof.
  destruct (saveSessionsToFile_entries [js "222@c.us"; js "333@c.us"] twoSessions
              staleEntries)
    as (table' & E & Hin & _).
  - left. reflexivity.
  - repeat constructor; cbn; intuition discriminate.
  - reflexivity.
  - intros k s [<-|[<-|[]]]; cbn; intros [= <-]; split; discriminate.
  - exists table'. rewrite E. split; [reflexivity|]. split.
    + apply (Hin (js "333@c.us")). cbn. tauto.
    + apply (Hin (js "222@c.us")). cbn. tauto.
Defined.

(** [executeSave] never throws.  With an empty queue it does nothing.  When
    the file cannot be read or the disk cannot be written, nothing changes:
    the queue keeps its entries for the next save.  When the save goes
    through, the queue is emptied and the time of the save recorded. *)
Theorem executeSave_outcome (w : World) :
  exists w',
    executeSave w = Returned tt w' /\
    (saveQueue w = [] -> w' = w) /\
    (sessionsFile w = Unreadable \/ diskWritable w = false -> w' = w) /\
    (forall saved,
       saveQueue w <> [] ->
       saveSessionsToFile (map fst (saveQueue w)) w = Returned tt saved ->
       saveQueue w' = [] /\ lastSaveTime w' = Some (clock w) /\
       sessionsFile w' = sessionsFile saved /\ userSessions w' = userSessions w).
Proof.
  unfold executeSave. destruct (saveQueue w) as [|q qs] eqn:Eq.
  - exists w. split; [reflexivity|]. split; [reflexivity|]. split; [reflexivity|].
    intros saved H. congruence.
  - pose proof (saveSessionsToFile_stores (map fst (q :: qs)) w) as Hst.
    destruct (saveSessionsToFile (map fst (q :: qs)) w) as [[] w1|w1] eqn:Es.
    + eexists. split; [reflexivity|]. split; [discriminate|]. split.
      * intros Hfail. exfalso. revert Es. unfold saveSessionsToFile.
        destruct Hfail as [-> | Hd]; [discriminate|].
        destruct (sessionsFile w);
          try match goal with
              | |- context [updateEntries ?a ?b ?c ?d] =>
                  destruct (updateEntries a b c d)
              end; rewrite ?Hd; discriminate.
      * intros saved _ [= <-]. cbn [worldOf] in Hst.
        destruct Hst as (A1 & _ & _ & A4 & _). cbn. repeat split; congruence.
    + exists w1. split; [reflexivity|]. split; [discriminate|]. split.
      * intros _. revert Es. unfold saveSessionsToFile.
        destruct (sessionsFile w);
          try match goal with
              | |- context [updateEntries ?a ?b ?c ?d] =>
                  destruct (updateEntries a b c d)
              end; try destruct (diskWritable w); congruence.
      * intros saved _ H. discriminate.
Qed.

Lemma mapSet_keys {A} id (v : A) m k :
  In k (map fst (mapSet id v m)) <-> k = id \/ In k (map fst m).
Proof.
  unfold mapSet. destruct (mapHas id m) eqn:E.
  - rewrite mapReplace_keys. apply mapHas_In in E. split; [tauto|].
    intros [->|H]; assumption.
  - rewrite map_app, in_app_iff. cbn. intuition.
Qed.

Lemma isCriticalEvent_mapSet id info q :
  match reason info with state_change | completion => True | _ => False end ->
  isCriticalEvent (mapSet id info q) = true.
Proof.
  intros Hr. unfold isCriticalEvent. apply existsb_exists.
  exists (id, info). split.
  - apply mapGet_In, mapGet_mapSet.
  - cbn [snd]. destruct (reason info); tauto.
Qed.

(** A change of state is on disk when [createOrUpdateSession] returns: for a
    session of the map, with a readable sessions file, a writable disk and
    valid dates throughout, an update that sets the state leaves the save
    queue empty and no timer armed, and the file holds the serialized
    updated session under the identifier. *)
Theorem state_change_reaches_disk
    (whatsappId : JsString) (updates : Updates) (w : World) (s : Session)
    (st : Json) (table : list (JsString * Json)) :
  mapGet whatsappId (userSessions w) = Some s ->
  u_state updates = Some st ->
  sessionsFile w = Content table \/ (sessionsFile w = Missing /\ table = []) ->
  NoDup (map fst table) ->
  diskWritable w = true ->
  Forall (fun e => createdAt (snd e) <> None /\ lastActivity (snd e) <> None)
         (userSessions w) ->
  let s' := assign s updates (clock w) in
  let w' := worldOf (createOrUpdateSession whatsappId updates w) in
  saveQueue w' = [] /\ saveTimeout w' = None /\ lastSaveTime w' = Some (clock w) /\
  mapGet whatsappId (userSessions w') = Some s' /\
  exists table',
    sessionsFile w' = Content table' /\
    mapGet whatsappId table' = serializeSession (clock w) s' /\
    (forall k, ~ In k (map fst (saveQueue w)) -> k <> whatsappId ->
               mapGet k table' = mapGet k table).
Proof.
  intros Hs Hu Hfile Hnd Hd Hvalid. cbv zeta.
  unfold createOrUpdateSession. rewrite Hs.
  unfold getSaveReason. rewrite Hu. cbn [isSome].
  unfold bind at 1. unfold markForSave, bind, modify.
  set (s' := assign s updates (clock w)).
  set (w1 := setSessions (mapSet whatsappId s' (userSessions w)) w).
  set (q' := mapSet whatsappId {| timestamp := clock w1; reason := state_change |}
                    (saveQueue w1)).
  unfold debounceSave.
  change (saveQueue (setTimer None (setQueue q' w1))) with q'.
  assert (Hcrit : isCriticalEvent q' = true) by (apply isCriticalEvent_mapSet; exact I).
  rewrite Hcrit.
  set (w2 := setTimer None (setQueue q' w1)).
  destruct (saveSessionsToFile_entries (map fst q') w2 table) as (table' & E & Hin & Hout).
  { exact Hfile. }
  { exact Hnd. }
  { exact Hd. }
  { intros k x _ Hx. change (userSessions w2) with (mapSet whatsappId s' (userSessions w)) in Hx.
    destruct (str_eqb whatsappId k) eqn:Ek.
    - apply str_eqb_eq in Ek. subst k. rewrite mapGet_mapSet in Hx.
      injection Hx as <-. unfold s'. cbn [assign createdAt lastActivity].
      split; [|discriminate].
      apply mapGet_In in Hs. rewrite Forall_forall in Hvalid.
      exact (proj1 (Hvalid _ Hs)).
    - rewrite (mapGet_mapSet_other _ _ _ _ Ek) in Hx.
      apply mapGet_In in Hx. rewrite Forall_forall in Hvalid.
      exact (Hvalid _ Hx). }
  unfold executeSave. change (saveQueue w2) with q'.
  destruct q' as [|q0 qs] eqn:Eq'.
  { discriminate. }
  rewrite <- Eq' in *. rewrite E. cbn [bind ret worldOf].
  split; [reflexivity|]. split; [reflexivity|]. split; [reflexivity|].
  split; [apply mapGet_mapSet|].
  exists table'. split; [reflexivity|]. split.
  - rewrite Hin.
    + change (userSessions w2) with (mapSet whatsappId s' (userSessions w)).
      now rewrite mapGet_mapSet.
    + unfold q'. apply mapSet_keys. now left.
  - intros k Hk Hne. apply Hout. unfold q'. rewrite mapSet_keys. intros [->|H]; tauto.
Qed.

Lemma state_change_reaches_disk_witness :
  saveQueue
    (worldOf (createOrUpdateSession (js "222@c.us")
                (stateUpdate COMPLETED (js "completed")) twoSessions)) = [] /\
  exists table',
    sessionsFile
      (worldOf (createOrUpdateSession (js "222@c.us")
                  (stateUpdate COMPLETED (js "completed")) twoSessions))
    = Content table' /\
    mapGet (js "222@c.us") table'
    = serializeSession 1705312800000
        (assign (idleSince 1705312000000) (stateUpdate COMPLETED (js "completed"))
                1705312800000).
Proof.
  destruct (state_change_reaches_disk (js "222@c.us")
              (stateUpdate COMPLETED (js "completed")) twoSessions
              (idleSince 1705312000000) (JStr COMPLETED) staleEntries)
    as (Hq & _ & _ & _ & table' & Hf & Hg & _).
  - reflexivity.
  - reflexivity.
  - left. reflexivity.
  - repeat constructor; cbn; intuition discriminate.
  - reflexivity.
  - repeat constructor; discriminate.
  - split; [exact Hq|]. exists table'. split; [exact Hf|exact Hg].
Defined.

(** ** Expiry *)

Lemma mapDelete_app_notin {A} k (v : A) done rest :
  ~ In k (map fst done) -> mapDelete k (done ++ (k, v) :: rest) = done ++ rest.
Proof.
  induction done as [|[k' v'] done IH]; cbn [app mapDelete map fst In]; intros Hn.
  - now rewrite str_eqb_refl.
  - destruct (str_eqb k' k) eqn:E.
    + apply str_eqb_eq in E. subst. tauto.
    + f_equal. apply IH. tauto.
Qed.

(** The sweep leaves in the map exactly the sessions that are not expired,
    in their order, whether or not the notices could be sent; it counts the
    sessions it deleted and touches neither file. *)
Lemma sweep_filter h now : forall entries done w,
  userSessions w = done ++ entries ->
  NoDup (map fst (done ++ entries)) ->
  exists n w',
    sweep h now entries w = Returned n w' /\
    userSessions w' = done ++ filter (fun e => negb (isExpired h now (snd e))) entries /\
    n = Z.of_nat (length (filter (fun e => isExpired h now (snd e)) entries)) /\
    sessionsFile w' = sessionsFile w /\ callScheduleFile w' = callScheduleFile w /\
    clock w' = clock w /\ diskWritable w' = diskWritable w /\
    saveQueue w' = saveQueue w.
Proof.
  induction entries as [|[id s] rest IH]; intros done w Hw Hnd.
  - exists 0, w. cbn [sweep filter]. repeat split; try reflexivity. exact Hw.
  - cbn [sweep filter snd]. destruct (isExpired h now s) eqn:Ex; cbn [negb].
    + unfold bind at 1.
      set (notice := tryCatch _ _ w).
      assert (Hn : exists w1, notice = Returned tt w1 /\
                userSessions w1 = userSessions w /\ sessionsFile w1 = sessionsFile w /\
                callScheduleFile w1 = callScheduleFile w /\ clock w1 = clock w /\
                diskWritable w1 = diskWritable w /\ saveQueue w1 = saveQueue w).
      { unfold notice, tryCatch, send.
        destruct (transport w (sendCount w)); eexists; (split; [reflexivity|]);
          repeat split. }
      destruct Hn as (w1 & -> & Hu1 & Hf1 & Hc1 & Hk1 & Hd1 & Hq1).
      unfold bind at 1. unfold modify at 1.
      set (w2 := setSessions (mapDelete id (userSessions w1)) w1).
      destruct (IH done w2) as (n & w' & E & Hu & Hcount & Hf & Hc & Hk & Hd & Hq).
      { unfold w2. cbn [userSessions setSessions]. rewrite Hu1, Hw.
        apply mapDelete_app_notin.
        rewrite map_app in Hnd. cbn [map fst] in Hnd.
        apply NoDup_remove_2 in Hnd. intros Hin. apply Hnd. apply in_or_app. now left. }
      { rewrite map_app in *. cbn [map fst] in Hnd. now apply NoDup_remove_1 in Hnd. }
      exists (n + 1), w'. unfold bind. rewrite E. cbn [ret].
      subst w2.
      cbn [setSessions sessionsFile callScheduleFile clock diskWritable saveQueue] in *.
      repeat split; try congruence.
      cbn [length]. lia.
    + destruct (IH (done ++ [(id, s)]) w) as (n & w' & E & Hu & Hrest).
      { now rewrite <- app_assoc. }
      { now rewrite <- app_assoc. }
      exists n, w'. split; [exact E|]. split; [|exact Hrest].
      now rewrite Hu, <- app_assoc.
Qed.

Lemma updateEntries_other now sessions k : forall ids table table',
  ~ In k ids ->
  updateEntries now sessions ids table = Some table' ->
  mapGet k table' = mapGet k table.
Proof.
  induction ids as [|id rest IH]; intros table table' Hk; cbn [updateEntries].
  - now intros [= <-].
  - cbn [In] in Hk.
    assert (Hne : str_eqb id k = false) by (apply str_eqb_neq; intros ->; tauto).
    destruct (mapGet id sessions) as [s|].
    + destruct (serializeSession now s) as [entry|]; [|discriminate].
      intros E. rewrite (IH _ _ ltac:(tauto) E). now apply mapGet_objSet_other.
    + intros E. rewrite (IH _ _ ltac:(tauto) E). now apply mapGet_mapDelete_other.
Qed.

(** Whatever its outcome, saving a list of identifiers leaves the file entry
    of an identifier that is not listed as it was. *)
Lemma saveSessionsToFile_other ids w k table :
  ~ In k ids ->
  sessionsFile w = Content table ->
  exists table',
    sessionsFile (worldOf (saveSessionsToFile ids w)) = Content table' /\
    mapGet k table' = mapGet k table.
Proof.
  intros Hk Hf. unfold saveSessionsToFile. rewrite Hf.
  destruct (updateEntries (clock w) (userSessions w) ids table) as [table'|] eqn:E.
  - destruct (diskWritable w).
    + exists table'. split; [reflexivity|]. now apply (updateEntries_other _ _ _ _ _ _ Hk E).
    + exists table. now split.
  - exists table. now split.
Qed.

Lemma filter_keys_incl {A} (p : JsString * A -> bool) m k :
  In k (map fst (filter p m)) -> In k (map fst m).
Proof.
  rewrite !in_map_iff. intros ((k', v) & <- & Hin). apply filter_In in Hin.
  exists (k', v). tauto.
Qed.

(** [cleanupExpiredSessions] leaves in the session map exactly the sessions
    that are not expired, in their order, whether or not the notices could be
    delivered and whether or not the save that follows succeeds; a session
    is expired when it has been idle for strictly more than the configured
    number of days. *)
Theorem cleanup_removes_exactly_the_expired (h : Host) (w : World) :
  NoDup (map fst (userSessions w)) ->
  let w' := worldOf (cleanupExpiredSessions h w) in
  userSessions w'
  = filter (fun e => negb (isExpired h (clock w) (snd e))) (userSessions w) /\
  (forall s active,
     lastActivity s = Some active ->
     (isExpired h (clock w) s = true
      <-> sessionTimeoutDays h * 86400000 < clock w - active)).
Proof.
  intros Hnd. cbv zeta. split.
  - unfold cleanupExpiredSessions, bind, gets.
    destruct (sweep_filter h (clock w) (userSessions w) [] w eq_refl Hnd)
      as (n & w1 & E & Hu & _). rewrite E. cbn [app] in Hu.
    destruct (0 <? n).
    + unfold forceSave.
      pose proof (saveSessionsToFile_stores (map fst (userSessions w1)) w1) as (A & _).
      now rewrite A.
    + exact Hu.
  - intros s active Ha. unfold isExpired. rewrite Ha. rewrite Z.ltb_lt. lia.
Qed.

Lemma cleanup_removes_exactly_the_expired_witness :
  userSessions (worldOf (cleanupExpiredSessions (refHost None) twoSessions))
  = [(js "222@c.us", idleSince 1705312000000)].
Proof.
  destruct (cleanup_removes_exactly_the_expired (refHost None) twoSessions) as [E _].
  - repeat constructor; cbn; intuition discriminate.
  - rewrite E. reflexivity.
Defined.

(** The save that follows a cleanup lists only the sessions that remain, so
    the file entry of an expired session is not removed: it is there after
    the cleanup as it was before. *)
Theorem cleanup_keeps_the_file_entry
    (h : Host) (w : World) (whatsappId : JsString) (s : Session)
    (table : list (JsString * Json)) :
  NoDup (map fst (userSessions w)) ->
  mapGet whatsappId (userSessions w) = Some s ->
  isExpired h (clock w) s = true ->
  sessionsFile w = Content table ->
  let w' := worldOf (cleanupExpiredSessions h w) in
  mapGet whatsappId (userSessions w') = None /\
  exists table',
    sessionsFile w' = Content table' /\
    mapGet whatsappId table' = mapGet whatsappId table.
Proof.
  intros Hnd Hs Hx Hf. cbv zeta.
  destruct (cleanup_removes_exactly_the_expired h w Hnd) as [Hu _].
  assert (Hgone : ~ In whatsappId
                    (map fst (filter (fun e => negb (isExpired h (clock w) (snd e)))
                                     (userSessions w)))).
  { rewrite in_map_iff. intros ((k, x) & Hk & Hin). cbn [fst] in Hk. subst k.
    apply filter_In in Hin. destruct Hin as [Hin Hkeep]. cbn [snd] in Hkeep.
    rewrite (mapGet_unique _ _ _ Hnd Hin) in Hs. injection Hs as ->.
    now rewrite Hx in Hkeep. }
  split.
  - rewrite Hu. apply mapHas_false_mapGet.
    destruct (mapHas whatsappId _) eqn:E; [|reflexivity].
    apply mapHas_In in E. contradiction.
  - unfold cleanupExpiredSessions, bind, gets.
    destruct (sweep_filter h (clock w) (userSessions w) [] w eq_refl Hnd)
      as (n & w1 & E & Hu1 & _ & Hf1 & _). rewrite E. cbn [app] in Hu1.
    destruct (0 <? n).
    + unfold forceSave. apply saveSessionsToFile_other.
      * now rewrite Hu1.
      * congruence.
    + exists table. split; [cbn; congruence|reflexivity].
Qed.

Lemma cleanup_keeps_the_file_entry_witness :
  mapGet (js "111@c.us")
    (userSessions (worldOf (cleanupExpiredSessions (refHost None) twoSessions))) = None /\
  exists table',
    sessionsFile (worldOf (cleanupExpiredSessions (refHost None) twoSessions))
    = Content table' /\
    mapGet (js "111@c.us") table' = Some (JObj [(js "state", JStr ASKING_CALL_TIME)]).
Proof.
  apply (cleanup_keeps_the_file_entry (refHost None) twoSessions (js "111@c.us")
           (idleSince 1700000000000) staleEntries).
  - repeat constructor; cbn; intuition discriminate.
  - reflexivity.
  - reflexivity.
  - reflexivity.
Defined.

(** ** The past-time check *)

(** [isDateTimeInPast]: a text with one of the exempt keywords is never in
    the past, whatever the date; a date and time the date library cannot
    read is never in the past; and, when the library reads back what it
    formats, the minute of an instant [t] is in the past exactly when no
    exempt keyword occurs and that minute starts more than one minute before
    the reference instant.  So a time in the current minute or later is
    accepted, and a time more than a minute old is refused. *)
Theorem past_check_has_a_one_minute_buffer
    (h : Host) (now : Z) (text : JsString) :
  let exempt := testI (toUpperUnit h) pastExemptKeywords text in
  (forall date time, exempt = true -> isDateTimeInPast h date time now text = false) /\
  (forall date time,
     momentParse h (date ++ js " " ++ time) = None ->
     isDateTimeInPast h date time now text = false) /\
  (ParsesOwnFormat (momentParse h) ->
   forall t,
     let past := isDateTimeInPast h (formatDate t) (formatTime t) now text in
     (past = true <-> exempt = false /\ startOfMinute t < now - 60000) /\
     (startOfMinute now <= t -> past = false) /\
     (exempt = false -> t < now - 60000 -> past = true)).
Proof.
  cbv zeta. unfold isDateTimeInPast. split; [|split].
  - intros date time ->. reflexivity.
  - intros date time ->. now destruct (testI _ _ _).
  - intros Hp t. change (js " ") with [32]. rewrite (Hp t).
    unfold msPerMinute. replace (now - 1 * 60000) with (now - 60000) by lia.
    assert (Hm : forall x, exists q r, x = 60000 * q + r /\ 0 <= r < 60000 /\
                                     startOfMinute x = 60000 * q).
    { intros x. exists (x / 60000), (x mod 60000). unfold startOfMinute, msPerMinute.
      pose proof (Z.mod_pos_bound x 60000 ltac:(lia)).
      pose proof (Z.div_mod x 60000 ltac:(lia)). lia. }
    destruct (Hm t) as (qt & rt & Et & Hrt & ->).
    destruct (Hm now) as (qn & rn & En & Hrn & ->).
    destruct (testI _ _ _).
    + repeat split; try discriminate; intros; intuition discriminate.
    + destruct (60000 * qt <? now - 60000) eqn:E.
      * apply Z.ltb_lt in E. repeat split; trivial; intros; lia.
      * apply Z.ltb_ge in E. repeat split; trivial; try discriminate; intros; lia.
Qed.

(** ** The classifier in the general context *)

(** [analyzeSentiment] with the general context and a loaded model whose run
    returns: a positive or negative label with a score strictly above 0.6 is
    the result; in every other case (neutral label, unknown label, score of
    0.6 or less) the result is that of the keyword analysis, so a positive
    label of low confidence with no keyword is neutral.  Without a model, or
    when the run throws, the result is the keyword analysis in either
    context. *)
Theorem general_sentiment_thresholds
    (h : Host) (text : JsString) (context : Context) :
  (forall run out,
     sentimentAnalyzer h = Some run -> run (trim text) = Some out ->
     let result := analyzeSentiment h text general in
     let confident := (0x1.3333333333333p-1 <? score out)%float in
     let keywords := analyzeKeywordSentiment h text general in
     (label out = js "LABEL_2" -> confident = true -> result = positive) /\
     (label out = js "LABEL_0" -> confident = true -> result = negative) /\
     (confident = false -> result = keywords) /\
     (label out <> js "LABEL_2" -> label out <> js "LABEL_0" -> result = keywords)) /\
  (sentimentAnalyzer h = None \/
   (exists run, sentimentAnalyzer h = Some run /\ run (trim text) = None) ->
   analyzeSentiment h text context = analyzeKeywordSentiment h text context).
Proof.
  split.
  - intros run out Hrun Hout. cbv zeta. unfold analyzeSentiment. rewrite Hrun, Hout.
    repeat split.
    + intros -> ->. reflexivity.
    + intros -> ->. reflexivity.
    + intros ->. rewrite !andb_false_r. reflexivity.
    + intros H2 H0. apply str_eqb_neq in H2, H0. rewrite H2, H0. reflexivity.
  - intros [Hn | (run & Hrun & Hout)]; unfold analyzeSentiment.
    + now rewrite Hn.
    + now rewrite Hrun, Hout.
Qed.

Lemma noWord_trimStart s :
  Forall (fun c => isWordChar c = false) s ->
  Forall (fun c => isWordChar c = false) (trimStart s).
Proof.
  induction 1 as [|c s Hc Hs IH]; cbn [trimStart]; [constructor|].
  destruct (isWhiteSpace c); [exact IH|now constructor].
Qed.

Lemma noWord_trim s :
  Forall (fun c => isWordChar c = false) s ->
  Forall (fun c => isWordChar c = false) (trim s).
Proof.
  intros H. unfold trim, trimEnd.
  apply Forall_rev, noWord_trimStart, Forall_rev, noWord_trimStart, H.
Qed.

(** A pattern between word boundaries finds nothing in a text without word
    characters: there is no boundary in it. *)
Lemma regexTest_noWord canon alts s :
  Forall (fun c => isWordChar c = false) s -> regexTest canon alts s = false.
Proof.
  unfold regexTest. intros H.
  assert (G : forall prev, isWordOpt prev = false -> testFrom canon alts prev s = false).
  { induction H as [|c s Hc Hs IH]; intros prev Hp; cbn [testFrom].
    - unfold boundary. rewrite Hp. reflexivity.
    - unfold boundary. rewrite Hp. cbn [hd_error isWordOpt]. rewrite Hc.
      cbn [xorb andb orb]. apply IH. exact Hc. }
  now apply G.
Qed.

(** In the general context the keyword analysis of a message without any
    letter, digit or underscore is neutral: every pattern, those of the
    emoji included, sits between word boundaries, and such a message has
    none.  A lone thumbs-up is not positive there. *)
Theorem general_keywords_need_a_word_character (h : Host) (text : JsString) :
  Forall (fun c => isWordChar c = false) (toLowerCase h text) ->
  analyzeKeywordSentiment h text general = neutral.
Proof.
  intros H. apply noWord_trim in H. unfold analyzeKeywordSentiment, testI, testCS.
  now rewrite !(regexTest_noWord _ _ _ H).
Qed.

Lemma general_keywords_need_a_word_character_witness :
  analyzeKeywordSentiment (refHost None) [55357; 56397; 32; 55357; 56397] general
  = neutral.
Proof.
  apply general_keywords_need_a_word_character.
  repeat constructor.
Defined.

(** ** Relative days *)

Lemma matchAt_exact alt : forall s prev last rest,
  matchAt (fun c => c) alt s prev = Some (last, rest) ->
  s = alt ++ rest /\ last = fold_left (fun _ c => Some c) alt prev.
Proof.
  induction alt as [|p alt IH]; intros s prev last rest; cbn [matchAt app fold_left].
  - intros [= <- <-]. now split.
  - destruct s as [|c s]; [discriminate|].
    destruct (c =? p) eqn:E; [|discriminate]. apply Z.eqb_eq in E. subst c.
    intros H. apply IH in H. destruct H as [-> ->]. now split.
Qed.

Lemma testFrom_suffix canon alts : forall pre prev s,
  testFrom canon alts (fold_left (fun _ c => Some c) pre prev) s = true ->
  testFrom canon alts prev (pre ++ s) = true.
Proof.
  induction pre as [|c pre IH]; intros prev s H; cbn [app fold_left] in *.
  - exact H.
  - cbn [testFrom]. rewrite (IH (Some c) s H). apply orb_true_r.
Qed.

Lemma matchAt_app alt : forall rest prev,
  matchAt (fun c => c) alt (alt ++ rest) prev
  = Some (fold_left (fun _ c => Some c) alt prev, rest).
Proof.
  induction alt as [|p alt IH]; intros rest prev; cbn [matchAt app fold_left].
  - reflexivity.
  - now rewrite Z.eqb_refl.
Qed.

Lemma testFrom_here canon alts prev s alt :
  boundary prev (hd_error s) = true -> In alt alts ->
  altAt canon prev s alt = true -> testFrom canon alts prev s = true.
Proof.
  intros Hb Hin Ha.
  assert (E : boundary prev (hd_error s) && existsb (altAt canon prev s) alts = true).
  { rewrite Hb. apply existsb_exists. now exists alt. }
  destruct s; cbn [testFrom]; rewrite E; reflexivity.
Qed.

(** Where the phrase stands as whole words, so does its last word. *)
Lemma phrase_contains_tomorrow : forall s prev,
  testFrom (fun c => c) [js "day after tomorrow"] prev s = true ->
  testFrom (fun c => c) pat_tomorrow prev s = true.
Proof.
  induction s as [|c s IH]; intros prev H.
  - cbn in H. rewrite andb_false_r in H. discriminate.
  - cbn [testFrom] in H. apply orb_true_iff in H. destruct H as [H|H].
    + apply andb_true_iff in H. destruct H as [_ H].
      cbn [existsb] in H. rewrite orb_false_r in H. unfold altAt in H.
      destruct (matchAt _ _ (c :: s) prev) as [[last rest]|] eqn:Em; [|discriminate].
      apply matchAt_exact in Em. destruct Em as [Es ->]. rewrite Es.
      change (testFrom (fun c => c) pat_tomorrow prev
                (js "day after " ++ js "tomorrow" ++ rest) = true).
      apply testFrom_suffix.
      change (fold_left (fun _ c0 => Some c0) (js "day after ") prev) with (Some 32).
      change (fold_left (fun _ c0 => Some c0) (js "day after tomorrow") prev)
        with (Some 119) in H.
      apply (testFrom_here _ _ _ _ (js "tomorrow")).
      * reflexivity.
      * now left.
      * unfold altAt. rewrite matchAt_app. exact H.
    + cbn [testFrom]. rewrite (IH _ H). apply orb_true_r.
Qed.

(** The phrase "day after tomorrow" resolves to tomorrow: the row of
    "tomorrow" comes first and matches the last word of the phrase.  Unless
    "yesterday" or "today" (or their short forms) also occur as words, the
    date found is the reference day plus one. *)
Theorem day_after_tomorrow_resolves_to_tomorrow
    (h : Host) (laterDateRows timeRows : JsString -> Z -> option JsString)
    (text : JsString) (now : Z) :
  let lowerText := trim (toLowerCase h text) in
  testCS [js "day after tomorrow"] lowerText = true ->
  testCS pat_yesterday lowerText = false ->
  testCS pat_today lowerText = false ->
  let r := parseTimeWithTinyLlama h laterDateRows timeRows text now in
  tp_hasDate r = true /\
  tp_date r = Some (formatDate (addDays now 1)) /\
  tp_date r <> Some (formatDate (addDays now 2)).
Proof.
  cbv zeta. intros Hp Hy Ht.
  apply phrase_contains_tomorrow in Hp.
  unfold parseTimeWithTinyLlama. cbn [tp_hasDate tp_date].
  unfold datePatterns. cbn [firstRule]. rewrite Hy, Ht.
  unfold testCS, regexTest. rewrite Hp. cbn [runDateRule isSome].
  repeat split. intros E.
  assert (Hinj : forall a b : JsString, Some a = Some b -> a = b)
    by (intros a b H; congruence).
  apply Hinj, formatDate_inj in E.
  rewrite !dayNumber_addDays in E. lia.
Qed.

Lemma day_after_tomorrow_resolves_to_tomorrow_witness :
  tp_date (parseTimeWithTinyLlama (refHost None) noRows noRows
             (js "The day after tomorrow, please") 1704105015123)
  = Some (js "02/01/2024").
Proof.
  apply (day_after_tomorrow_resolves_to_tomorrow (refHost None) noRows noRows
           (js "The day after tomorrow, please") 1704105015123); reflexivity.
Defined.

(** ** Comprehensive keyword detector *)

Section DetectorFacts.
Import ComprehensiveKeywordDetector.

Lemma firstMatch_In upper patterns s p :
  firstMatch upper patterns s = Some p -> In p patterns /\ test upper p s = true.
Proof.
  induction patterns as [|q rest IH]; cbn [firstMatch]; [discriminate|].
  destruct (test upper q s) eqn:E.
  - intros [= <-]. split; [now left|exact E].
  - intros H. destruct (IH H). split; [now right|assumption].
Qed.

Lemma firstMatch_existsb upper patterns s :
  isSome (firstMatch upper patterns s) = existsb (fun p => test upper p s) patterns.
Proof.
  induction patterns as [|q rest IH]; cbn [firstMatch existsb]; [reflexivity|].
  destruct (test upper q s); [reflexivity|exact IH].
Qed.

Ltac each_pattern H :=
  repeat (destruct H as [H|H]; [subst; vm_compute; repeat split|]); try contradiction.

Lemma detectUrgency_report (h : Host) (text : JsString) :
  report (detectUrgency h text)
  = (if existsb (fun p => test (toUpperUnit h) p (lowered h text)) urgencyPatterns
     then (true, Some (js "low"), 0x1.3333333333333p-1%float)
     else (false, Some (js "none"), 0%float)).
Proof.
  rewrite <- firstMatch_existsb. unfold report, detectUrgency, graded.
  destruct (firstMatch _ urgencyPatterns _) as [p|] eqn:E; [|reflexivity].
  apply firstMatch_In in E. destruct E as [Hin _]. cbn [isSome].
  unfold urgencyPatterns in Hin. cbn [In] in Hin. each_pattern Hin.
Qed.

Lemma detectPoliteness_report (h : Host) (text : JsString) :
  report (detectPoliteness h text)
  = (if existsb (fun p => test (toUpperUnit h) p (lowered h text)) politenessPatterns
     then (true, Some (js "low"), 0x1p-1%float)
     else (false, Some (js "neutral"), 0%float)).
Proof.
  rewrite <- firstMatch_existsb. unfold report, detectPoliteness, graded.
  destruct (firstMatch _ politenessPatterns _) as [p|] eqn:E; [|reflexivity].
  apply firstMatch_In in E. destruct E as [Hin _]. cbn [isSome].
  unfold politenessPatterns in Hin. cbn [In] in Hin. each_pattern Hin.
Qed.

Lemma detectCancellation_report (h : Host) (text : JsString) :
  report (detectCancellationRescheduling h text)
  = (if existsb (fun p => test (toUpperUnit h) p (lowered h text)) cancellationPatterns
     then (true, Some (js "unavailable"), 0x1.999999999999ap-1%float)
     else (false, Some (js "none"), 0%float)).
Proof.
  rewrite <- firstMatch_existsb. unfold report, detectCancellationRescheduling, graded.
  destruct (firstMatch _ cancellationPatterns _) as [p|] eqn:E; [|reflexivity].
  apply firstMatch_In in E. destruct E as [Hin _]. cbn [isSome].
  unfold cancellationPatterns in Hin. cbn [In] in Hin. each_pattern Hin.
Qed.

Lemma detectConfusion_report (h : Host) (text : JsString) :
  report (detectConfusion h text)
  = (if test (toUpperUnit h) (hd (Words []) confusionPatterns) (lowered h text)
     then (true, Some (js "high"), 0x1.ccccccccccccdp-1%float)
     else if existsb (fun p => test (toUpperUnit h) p (lowered h text))
                     (tl confusionPatterns)
     then (true, Some (js "low"), 0x1p-1%float)
     else (false, Some (js "none"), 0%float)).
Proof.
  rewrite <- firstMatch_existsb. unfold report, detectConfusion, graded.
  set (first := hd (Words []) confusionPatterns).
  set (others := tl confusionPatterns).
  change (firstMatch (toUpperUnit h) confusionPatterns (lowered h text))
    with (if test (toUpperUnit h) first (lowered h text) then Some first
          else firstMatch (toUpperUnit h) others (lowered h text)).
  destruct (test _ first _); [vm_compute; reflexivity|].
  destruct (firstMatch _ others _) as [p|] eqn:E; [|reflexivity].
  apply firstMatch_In in E. destruct E as [Hin _]. cbn [isSome].
  unfold others, confusionPatterns in Hin. cbn [tl In] in Hin. each_pattern Hin.
Qed.

(** The detectors of urgency, politeness and cancellation grade a match by
    looking for a fixed text in the source of the matching pattern.  None of
    their patterns has a source that includes any of those texts, so the
    grading never applies: a detected urgency is always of level [low] with
    confidence 0.6, a detected politeness of level [low] with confidence 0.5,
    and a detected cancellation always the action [unavailable] with
    confidence 0.8.  The levels [high] and [medium] and the actions [cancel]
    and [reschedule] are never reported. *)
Theorem grading_by_source_never_applies (h : Host) (text : JsString) :
  let found patterns :=
    existsb (fun p => test (toUpperUnit h) p (lowered h text)) patterns in
  report (detectUrgency h text)
  = (if found urgencyPatterns
     then (true, Some (js "low"), 0x1.3333333333333p-1%float)
     else (false, Some (js "none"), 0%float)) /\
  report (detectPoliteness h text)
  = (if found politenessPatterns
     then (true, Some (js "low"), 0x1p-1%float)
     else (false, Some (js "neutral"), 0%float)) /\
  report (detectCancellationRescheduling h text)
  = (if found cancellationPatterns
     then (true, Some (js "unavailable"), 0x1.999999999999ap-1%float)
     else (false, Some (js "none"), 0%float)).
Proof.
  cbv zeta. split; [|split].
  - apply detectUrgency_report.
  - apply detectPoliteness_report.
  - apply detectCancellation_report.
Qed.

(** [detectConfusion] reports the level [high] exactly when its first
    pattern (the one with "confused", "what", "huh") matches; any other
    match is of level [low]; the level [medium] is never reported. *)
Theorem confusion_is_high_or_low (h : Host) (text : JsString) :
  let s := lowered h text in
  let direct := test (toUpperUnit h) (hd (Words []) confusionPatterns) s in
  let other := existsb (fun p => test (toUpperUnit h) p s) (tl confusionPatterns) in
  report (detectConfusion h text)
  = (if direct then (true, Some (js "high"), 0x1.ccccccccccccdp-1%float)
     else if other then (true, Some (js "low"), 0x1p-1%float)
     else (false, Some (js "none"), 0%float)) /\
  level (detectConfusion h text) <> Some (js "medium").
Proof.
  cbv zeta. pose proof (detectConfusion_report h text) as H. split; [exact H|].
  unfold report in H.
  destruct (test _ _ _); [|destruct (existsb _ _)]; injection H as _ -> _; discriminate.
Qed.

Ltac by_report H :=
  unfold report in H;
  repeat match type of H with
         | context [if ?b then _ else _] => destruct b
         end;
  injection H as ? ? ?.

Lemma urgency_facts (h : Host) (text : JsString) :
  let u := detectUrgency h text in
  let found := existsb (fun p => test (toUpperUnit h) p (lowered h text)) urgencyPatterns in
  detected u = found /\ isLevel u "high" = false /\ isLevel u "none" = negb found.
Proof.
  cbv zeta. pose proof (detectUrgency_report h text) as H. unfold isLevel.
  by_report H; repeat match goal with E : _ = _ |- _ => rewrite E; clear E end;
    repeat split.
Qed.

Lemma politeness_facts (h : Host) (text : JsString) :
  let p := detectPoliteness h text in
  let found :=
    existsb (fun p => test (toUpperUnit h) p (lowered h text)) politenessPatterns in
  detected p = found /\ isLevel p "high" = false /\ isLevel p "neutral" = negb found.
Proof.
  cbv zeta. pose proof (detectPoliteness_report h text) as H. unfold isLevel.
  by_report H; repeat match goal with E : _ = _ |- _ => rewrite E; clear E end;
    repeat split.
Qed.

Lemma cancellation_facts (h : Host) (text : JsString) :
  let c := detectCancellationRescheduling h text in
  detected c
  = existsb (fun p => test (toUpperUnit h) p (lowered h text)) cancellationPatterns /\
  isLevel c "cancel" = false.
Proof.
  cbv zeta. pose proof (detectCancellation_report h text) as H. unfold isLevel.
  by_report H; repeat match goal with E : _ = _ |- _ => rewrite E; clear E end;
    repeat split.
Qed.

Lemma confusion_facts (h : Host) (text : JsString) :
  let f := detectConfusion h text in
  detected f && isLevel f "high"
  = test (toUpperUnit h) (hd (Words []) confusionPatterns) (lowered h text).
Proof.
  cbv zeta. pose proof (detectConfusion_report h text) as H. unfold isLevel.
  by_report H; repeat match goal with E : _ = _ |- _ => rewrite E; clear E end;
    reflexivity.
Qed.

(** [analyzeComprehensiveSentiment]: the sentiment is [confused_neutral]
    when the first confusion pattern matches; otherwise neutral when any
    cancellation pattern matches, whatever the keyword analysis says;
    otherwise the sentiment of the keyword analysis.  It is never
    [urgent_positive], a cancellation never makes it negative, and
    politeness never raises a neutral to positive. *)
Theorem comprehensive_sentiment_cases
    (h : Host) (now : Z) (text : JsString) (context : Context) :
  let s := lowered h text in
  let confused := test (toUpperUnit h) (hd (Words []) confusionPatterns) s in
  let cancelling := existsb (fun p => test (toUpperUnit h) p s) cancellationPatterns in
  let r := analyzeComprehensiveSentiment h now text context in
  sentiment r
  = (if confused then confused_neutral
     else if cancelling then basic neutral
     else basic (analyzeKeywordSentiment h text context)) /\
  sentiment r <> urgent_positive.
Proof.
  cbv zeta.
  assert (E : sentiment (analyzeComprehensiveSentiment h now text context)
              = (if test (toUpperUnit h) (hd (Words []) confusionPatterns) (lowered h text)
                 then confused_neutral
                 else if existsb (fun p => test (toUpperUnit h) p (lowered h text))
                                 cancellationPatterns
                 then basic neutral
                 else basic (analyzeKeywordSentiment h text context))).
  { unfold analyzeComprehensiveSentiment, analyzeMessage.
    cbn [sentiment findings urgency confusion cancellation politeness].
    destruct (urgency_facts h text) as (_ & -> & _).
    destruct (politeness_facts h text) as (_ & -> & _).
    destruct (cancellation_facts h text) as (-> & ->).
    rewrite confusion_facts, !andb_false_r. reflexivity. }
  split; [exact E|]. rewrite E.
  destruct (test _ _ _); [discriminate|]. destruct (existsb _ _); discriminate.
Qed.

(** The tone [analyzeMessage] reports is never [urgent] and never [polite]:
    it is [confused] when the first confusion pattern matches, else
    [cancelling] when a cancellation pattern matches, else [friendly] for a
    greeting, else [closing] for a farewell, else [neutral].  The flags
    [isUrgent] and [isPolite] hold whenever any urgency or politeness
    pattern matches. *)
Theorem tone_is_never_urgent_or_polite (h : Host) (now : Z) (text : JsString) :
  let s := lowered h text in
  let found patterns := existsb (fun p => test (toUpperUnit h) p s) patterns in
  let confused := test (toUpperUnit h) (hd (Words []) confusionPatterns) s in
  let o := overall (analyzeMessage h now text) in
  tone o
  = (if confused then js "confused"
     else if found cancellationPatterns then js "cancelling"
     else if found greetingPatterns then js "friendly"
     else if found farewellPatterns then js "closing"
     else js "neutral") /\
  isUrgent o = found urgencyPatterns /\
  isPolite o = found politenessPatterns /\
  isGreeting o = found greetingPatterns /\
  isFarewell o = found farewellPatterns.
Proof.
  cbv zeta. unfold analyzeMessage, determineTone.
  cbn [overall tone isUrgent isPolite isGreeting isFarewell
       urgency confusion cancellation politeness greeting farewell].
  destruct (urgency_facts h text) as (-> & -> & ->).
  destruct (politeness_facts h text) as (-> & -> & ->).
  destruct (cancellation_facts h text) as (-> & _).
  rewrite confusion_facts, !andb_false_r.
  assert (Hg : detected (detectGreeting h text)
               = existsb (fun p => test (toUpperUnit h) p (lowered h text))
                         greetingPatterns).
  { rewrite <- firstMatch_existsb. unfold detectGreeting.
    now destruct (firstMatch _ _ _). }
  assert (Hf : detected (detectFarewell h text)
               = existsb (fun p => test (toUpperUnit h) p (lowered h text))
                         farewellPatterns).
  { rewrite <- firstMatch_existsb. unfold detectFarewell.
    now destruct (firstMatch _ _ _). }
  rewrite Hg, Hf, !negb_involutive, !andb_diag. repeat split.
Qed.

End DetectorFacts.

(** ** Shared utilities *)

Lemma decimal_small n : 0 <= n <= 9 -> decimal n = [digit n].
Proof.
  intros H. assert (E : allFrom 10 0 (fun k => str_eqb (decimal k) [digit k]) = true)
    by (vm_compute; reflexivity).
  apply str_eqb_eq. apply (allFrom_spec _ _ _ E). lia.
Qed.

Lemma decimal_two n : 10 <= n <= 99 -> decimal n = pad2 n.
Proof.
  intros H. assert (E : allFrom 90 10 (fun k => str_eqb (decimal k) (pad2 k)) = true)
    by (vm_compute; reflexivity).
  apply str_eqb_eq. apply (allFrom_spec _ _ _ E). lia.
Qed.

Lemma padStart_decimal n : 0 <= n <= 99 -> padStart 2 (decimal n) = pad2 n.
Proof.
  intros H. destruct (Z_lt_le_dec n 10) as [Hs|Hl].
  - rewrite decimal_small by lia. unfold padStart, pad2. cbn [length Nat.sub repeat app].
    unfold lastDigits. rewrite (Z.div_small n 10), (Z.mod_small n 10) by lia. reflexivity.
  - rewrite decimal_two by lia. unfold padStart.
    unfold pad2. rewrite lastDigits_length. reflexivity.
Qed.

Lemma numDigits_large n : 1000 <= n -> (4 <= numDigits n)%nat.
Proof.
  intros H. pose proof (numDigits_bound n ltac:(lia)) as Hb.
  destruct (Nat.le_gt_cases 4 (numDigits n)) as [Hk|Hk]; [exact Hk|].
  exfalso.
  assert (10 ^ Z.of_nat (numDigits n) <= 10 ^ 3).
  { apply Z.pow_le_mono_r; lia. }
  change (10 ^ 3) with 1000 in *. lia.
Qed.

Lemma decimal_year y : 1000 <= y -> decimal y = formatYear y.
Proof.
  intros H. unfold decimal, formatYear.
  destruct (y <? 0) eqn:E1; [apply Z.ltb_lt in E1; lia|].
  destruct (0 <=? y) eqn:E2; [|apply Z.leb_gt in E2; lia].
  unfold zeroFill. pose proof (numDigits_large y H).
  now rewrite !Nat.max_r by lia.
Qed.

(** The two date formatters agree from the year 1000 on: for the calendar
    date of any instant, [formatDate] of the shared utilities, given the day
    as a number or as its decimal text, writes what the date library's
    ["DD/MM/YYYY"] format writes. *)
Theorem formatters_agree (t y m d : Z) :
  civil_from_days (dayNumber t) = (y, m, d) ->
  1000 <= y ->
  BotUtils.formatDate (JNum d) (JNum m) (Some (JNum y)) = Some (formatDate t) /\
  BotUtils.formatDate (JStr (decimal d)) (JNum m) (Some (JNum y)) = Some (formatDate t).
Proof.
  intros E Hy. unfold formatDate. rewrite E.
  apply validCivil_of_days in E. destruct E as (_ & _ & Hm & Hd).
  unfold BotUtils.formatDate. cbn [jsonToString toStringJs].
  rewrite !padStart_decimal, decimal_year by lia. now split.
Qed.

Lemma formatters_agree_witness :
  BotUtils.formatDate (JNum 1) (JNum 1) (Some (JNum 2024))
  = Some (formatDate 1704105015123).
Proof.
  apply (formatters_agree 1704105015123 2024 1 1); [reflexivity|lia].
Defined.

Lemma indexOf_days_range s : -1 <= indexOf BotUtils.days s <= 6.
Proof.
  unfold BotUtils.days. cbn [indexOf].
  repeat match goal with
         | |- context [if ?b then _ else _] => destruct b
         end; lia.
Qed.

Lemma indexOf_nth names : forall s i,
  indexOf names s = i -> 0 <= i -> nth_error names (Z.to_nat i) = Some s.
Proof.
  induction names as [|name rest IH]; intros s i; cbn [indexOf].
  - intros <-. lia.
  - destruct (str_eqb name s) eqn:E.
    + intros <- _. apply str_eqb_eq in E. now subst.
    + destruct (indexOf rest s <? 0) eqn:El; intros <- Hi; [lia|].
      apply Z.ltb_ge in El.
      replace (Z.to_nat (indexOf rest s + 1)) with (S (Z.to_nat (indexOf rest s))) by lia.
      cbn [nth_error]. now apply IH.
Qed.

(** [getNextWeekday] of the shared utilities moves the date forward by one
    to seven days.  For a day name of the list, in any letter case the host
    lowers to it, the result falls on that weekday, a full week ahead when
    the reference day is that weekday, and on the date the script's own
    [getNextWeekday] writes.  A name that is not in the list is looked up as
    [-1], and the result is then the next Saturday. *)
Theorem next_weekday_of_utilities (h : Host) (now : Z) (targetDay : JsString) :
  let next := BotUtils.getNextWeekday h now targetDay in
  let index := indexOf BotUtils.days (toLowerCase h targetDay) in
  (exists n, next = addDays now n /\ 1 <= n <= 7) /\
  (0 <= index ->
     nth_error BotUtils.days (Z.to_nat index) = Some (toLowerCase h targetDay) /\
     weekday next = index /\
     (weekday now = index -> next = addDays now 7) /\
     formatDate next = getNextWeekday now index) /\
  (index = -1 -> weekday next = 6).
Proof.
  cbv zeta. unfold BotUtils.getNextWeekday, BotUtils.daysUntil, getNextWeekday.
  pose proof (indexOf_days_range (toLowerCase h targetDay)) as Hi.
  pose proof (weekday_range now) as Hw.
  pose proof (indexOf_nth BotUtils.days (toLowerCase h targetDay) _ eq_refl) as Hnth.
  rewrite !weekday_addDays.
  remember (indexOf BotUtils.days (toLowerCase h targetDay)) as i eqn:Ei.
  remember (weekday now) as c eqn:Ec. clear Ei Ec.
  assert (Hrem : Z.rem (i - c + 7) 7 = (i - c + 7) mod 7).
  { apply Z.rem_mod_nonneg; lia. }
  rewrite Hrem. clear Hrem.
  pose proof (Z.mod_pos_bound (i - c + 7) 7 ltac:(lia)) as Hb.
  assert (Hz : (i - c + 7) mod 7 = 0 <-> i = c \/ (i = -1 /\ c = 6)).
  { split.
    - intros Hz. apply Z.mod_divide in Hz; [|lia]. destruct Hz as [k Hk]. lia.
    - intros [->|[-> ->]]; [rewrite Z.sub_diag|]; reflexivity. }
  assert (Hnz : (i - c + 7) mod 7 <> 0 ->
                (i - c + 7) mod 7 = if i - c <=? 0 then i - c + 7 else i - c).
  { intros Hne. destruct (i - c <=? 0) eqn:El.
    - apply Z.leb_le in El. apply Z.mod_small. lia.
    - apply Z.leb_gt in El. replace (i - c + 7) with (i - c + 1 * 7) by lia.
      rewrite Z.mod_add by lia. apply Z.mod_small. lia. }
  destruct ((i - c + 7) mod 7 =? 0) eqn:E;
    [apply Z.eqb_eq in E|apply Z.eqb_neq in E].
  - apply Hz in E. split; [|split].
    + exists 7. split; [reflexivity|lia].
    + intros H0. split; [now apply Hnth|]. destruct E as [->|[-> _]]; [|lia].
      split; [|split].
      * rewrite Z.add_mod, Z.mod_same, Z.add_0_r, Z.mod_mod by lia.
        apply Z.mod_small. lia.
      * reflexivity.
      * rewrite Z.sub_diag. reflexivity.
    + intros ->. destruct E as [E|[_ ->]]; [subst c|]; reflexivity.
  - specialize (Hnz E). split; [|split].
    + eexists. split; [reflexivity|]. lia.
    + intros H0. split; [now apply Hnth|]. split; [|split].
      * rewrite Z.add_mod_idemp_r by lia.
        replace (c + (i - c + 7)) with (i + 1 * 7) by lia.
        rewrite Z.mod_add by lia. apply Z.mod_small. lia.
      * intros Hc. exfalso. apply E. apply Hz. left. congruence.
      * now rewrite Hnz.
    + intros ->. rewrite Z.add_mod_idemp_r by lia.
      replace (c + (-1 - c + 7)) with 6 by lia. reflexivity.
Qed.

(** ** The fallback resolver *)

Lemma isPrefix_app p : forall s, isPrefix p (p ++ s) = true.
Proof.
  induction p as [|x p IH]; intros s; cbn [isPrefix app]; [reflexivity|].
  rewrite Z.eqb_refl. apply IH.
Qed.

Lemma isPrefix_split p : forall s, isPrefix p s = true -> exists rest, s = p ++ rest.
Proof.
  induction p as [|x p IH]; intros s; cbn [isPrefix].
  - intros _. now exists s.
  - destruct s as [|c s]; [discriminate|]. intros H.
    apply andb_true_iff in H. destruct H as [Hc H]. apply Z.eqb_eq in Hc. subst c.
    destruct (IH _ H) as [rest ->]. now exists rest.
Qed.

Lemma includes_spec text part :
  includes text part = true <-> exists pre post, text = pre ++ part ++ post.
Proof.
  unfold includes. split.
  - induction text as [|c s IH]; cbn [containsAny existsb]; rewrite orb_false_r.
    + rewrite orb_false_r. intros H. apply isPrefix_split in H. destruct H as [rest ->].
      now exists [], rest.
    + intros H. apply orb_true_iff in H. destruct H as [H|H].
      * apply isPrefix_split in H. destruct H as [rest ->]. now exists [], rest.
      * destruct (IH H) as (pre & post & ->). now exists (c :: pre), post.
  - intros (pre & post & ->). induction pre as [|c pre IH].
    + cbn [app]. destruct (part ++ post) eqn:E; cbn [containsAny existsb].
      * destruct part; [reflexivity|discriminate].
      * rewrite <- E, isPrefix_app. reflexivity.
    + cbn [app containsAny]. rewrite IH. apply orb_true_r.
Qed.

Lemma includes_part text a b c :
  includes text (a ++ b ++ c) = true -> includes text b = true.
Proof.
  rewrite !includes_spec. intros (pre & post & ->).
  exists (pre ++ a), (c ++ post). now rewrite <- !app_assoc.
Qed.

Lemma dayOfThisWeekOrNext_range now k :
  0 <= k <= 6 ->
  exists n, dayOfThisWeekOrNext now k = addDays now n /\ 1 <= n <= 7 /\
            (n = if k - weekday now <=? 0 then k - weekday now + 7 else k - weekday now).
Proof.
  intros Hk. pose proof (weekday_range now) as Hw. unfold dayOfThisWeekOrNext, addDays.
  unfold msPerDay.
  destruct (now + (k - weekday now) * 86400000 <=? now) eqn:E;
    [apply Z.leb_le in E|apply Z.leb_gt in E].
  - exists (k - weekday now + 7). destruct (k - weekday now <=? 0) eqn:E2;
      [apply Z.leb_le in E2|apply Z.leb_gt in E2]; repeat split; lia.
  - exists (k - weekday now). destruct (k - weekday now <=? 0) eqn:E2;
      [apply Z.leb_le in E2|apply Z.leb_gt in E2]; repeat split; lia.
Qed.

(** [parseTimeSimple] always gives a date and a time.  The date is the
    reference day or one of the seven days after it.  Any text that contains
    "tomorrow" resolves to the next day, so "day after tomorrow" does too:
    its own branch is never taken.  Without "tomorrow" and "next week", the
    first weekday name of the list that the text contains resolves as in the
    main resolver's [getNextWeekday]. *)
Theorem fallback_resolver_dates (h : Host) (text : JsString) (now : Z) :
  let lowerText := trim (toLowerCase h text) in
  let r := parseTimeSimple h text now in
  tp_success r = true /\ tp_hasDate r = true /\ tp_hasTime r = true /\
  (exists n, 0 <= n <= 7 /\ tp_date r = Some (formatDate (addDays now n))) /\
  (includes lowerText (js "tomorrow") = true ->
   tp_date r = Some (formatDate (addDays now 1))) /\
  (includes lowerText (js "day after tomorrow") = true ->
   tp_date r = Some (formatDate (addDays now 1))) /\
  (forall name k,
     includes lowerText (js "tomorrow") = false ->
     includes lowerText (js "next week") = false ->
     find (fun row => includes lowerText (fst row)) simpleWeekdays = Some (name, k) ->
     tp_date r = Some (getNextWeekday now k)).
Proof.
  cbv zeta. unfold parseTimeSimple. cbn [tp_success tp_hasDate tp_hasTime tp_date].
  set (s := trim (toLowerCase h text)).
  split; [reflexivity|]. split; [reflexivity|]. split; [reflexivity|].
  assert (Hw : forall k, 0 <= k <= 6 ->
               formatDate (dayOfThisWeekOrNext now k) = getNextWeekday now k).
  { intros k Hk. unfold getNextWeekday.
    destruct (dayOfThisWeekOrNext_range now k Hk) as (n & -> & _ & ->). reflexivity. }
  split; [|split; [|split]].
  - assert (Hd : forall k, 0 <= k <= 6 ->
                 exists n, 0 <= n <= 7 /\
                   formatDate (dayOfThisWeekOrNext now k) = formatDate (addDays now n)).
    { intros k Hk. destruct (dayOfThisWeekOrNext_range now k Hk) as (n & -> & Hn & _).
      exists n. split; [lia|reflexivity]. }
    repeat match goal with
           | |- context [if includes s ?p then _ else _] => destruct (includes s p)
           end;
      try (destruct (Hd 0 ltac:(lia)) as (n & Hn & ->); exists n; now split);
      try (destruct (Hd 1 ltac:(lia)) as (n & Hn & ->); exists n; now split);
      try (destruct (Hd 2 ltac:(lia)) as (n & Hn & ->); exists n; now split);
      try (destruct (Hd 3 ltac:(lia)) as (n & Hn & ->); exists n; now split);
      try (destruct (Hd 4 ltac:(lia)) as (n & Hn & ->); exists n; now split);
      try (destruct (Hd 5 ltac:(lia)) as (n & Hn & ->); exists n; now split);
      try (destruct (Hd 6 ltac:(lia)) as (n & Hn & ->); exists n; now split);
      try (exists 1; split; [lia|reflexivity]);
      try (exists 2; split; [lia|reflexivity]);
      try (exists 7; split; [lia|reflexivity]).
    exists 0. split; [lia|]. unfold addDays. now rewrite Z.mul_0_l, Z.add_0_r.
  - intros ->. reflexivity.
  - intros H.
    rewrite (includes_part s (js "day after ") (js "tomorrow") [] H). reflexivity.
  - intros name k Ht Hn Hf.
    destruct (includes s (js "day after tomorrow")) eqn:Ed.
    { rewrite (includes_part s (js "day after ") (js "tomorrow") [] Ed) in Ht.
      discriminate. }
    rewrite Ht, Hn. unfold simpleWeekdays in Hf. cbn [find fst] in Hf.
    repeat match type of Hf with
           | context [if includes s ?p then _ else _] =>
               destruct (includes s p);
               [injection Hf as _ <-; f_equal; apply Hw; lia|]
           end.
    discriminate.
Qed.

(** ** Automatic welcomes *)

Lemma setHas_In x s : setHas x s = true <-> In x s.
Proof.
  unfold setHas. rewrite existsb_exists. split.
  - intros (y & Hy & E). apply str_eqb_eq in E. now subst.
  - intros H. exists x. split; [assumption|apply str_eqb_refl].
Qed.

Lemma setAdd_In x s y : In y (setAdd x s) <-> y = x \/ In y s.
Proof.
  unfold setAdd. destruct (setHas x s) eqn:E.
  - apply setHas_In in E. split; [tauto|]. intros [->|H]; assumption.
  - rewrite in_app_iff. cbn. intuition.
Qed.

Lemma setDelete_In x s y : In y (setDelete x s) <-> In y s /\ y <> x.
Proof.
  unfold setDelete. rewrite filter_In, negb_true_iff, str_eqb_neq. tauto.
Qed.

Lemma send_outcome to text w :
  (transport w (sendCount w) = true ->
   exists w', send to text w = Returned tt w' /\ outbox w' = outbox w ++ [(to, text)] /\
              userSessions w' = userSessions w /\ clock w' = clock w) /\
  (transport w (sendCount w) = false ->
   exists w', send to text w = Thrown w' /\ outbox w' = outbox w /\
              userSessions w' = userSessions w).
Proof.
  unfold send. split; intros ->; eexists; repeat split.
Qed.

Lemma saveSessionsToFile_outbox ids w :
  outbox (worldOf (saveSessionsToFile ids w)) = outbox w.
Proof.
  unfold saveSessionsToFile.
  destruct (sessionsFile w); cbn [worldOf]; try reflexivity;
    match goal with
    | |- context [updateEntries ?a ?b ?c ?d] => destruct (updateEntries a b c d)
    end; cbn [worldOf]; try reflexivity; destruct (diskWritable w); reflexivity.
Qed.

Lemma executeSave_outbox w : outbox (worldOf (executeSave w)) = outbox w.
Proof.
  unfold executeSave. destruct (saveQueue w); [reflexivity|].
  pose proof (saveSessionsToFile_outbox (map fst (p :: l)) w) as H.
  destruct (saveSessionsToFile _ w); cbn [worldOf] in *; exact H.
Qed.

Lemma markForSave_outbox id why w : outbox (worldOf (markForSave id why w)) = outbox w.
Proof.
  unfold markForSave, bind, modify, debounceSave.
  match goal with |- context [isCriticalEvent ?q] => destruct (isCriticalEvent q) end.
  - match goal with |- context [executeSave ?x] =>
      pose proof (executeSave_outbox x) as H;
      destruct (executeSave_returns x) as (w' & E & _) end.
    rewrite E in *. exact H.
  - reflexivity.
Qed.

Lemma createOrUpdateSession_outbox id u w :
  outbox (worldOf (createOrUpdateSession id u w)) = outbox w.
Proof.
  unfold createOrUpdateSession.
  destruct (mapGet id (userSessions w)); unfold bind;
    match goal with |- context [markForSave ?a ?b ?x] =>
      pose proof (markForSave_outbox a b x) as H;
      destruct (markForSave_returns a b x) as (w' & E & _) end;
    rewrite E in *; exact H.
Qed.

Lemma createOrUpdateSession_new id u w :
  mapGet id (userSessions w) = None ->
  exists w',
    createOrUpdateSession id u w = Returned (newSession u (clock w)) w' /\
    userSessions w' = userSessions w ++ [(id, newSession u (clock w))] /\
    outbox w' = outbox w.
Proof.
  intros Hn. pose proof (createOrUpdateSession_outbox id u w) as Ho.
  unfold createOrUpdateSession in *. rewrite Hn in *. unfold bind at 1 in Ho.
  unfold bind at 1.
  match goal with |- context [markForSave ?a ?b ?x] =>
    destruct (markForSave_returns a b x) as (w' & E & (A1 & _)) end.
  rewrite E in *. exists w'. split; [reflexivity|]. split; [|exact Ho].
  rewrite A1. cbn [userSessions setSessions]. unfold mapSet.
  apply mapHas_false_mapGet in Hn. now rewrite Hn.
Qed.

Lemma sendAutoWelcomeMessage_cases
    (h : Host) (whatsappId : JsString) (sent : list JsString) (w : World) :
  let '(ok, sent', w') := sendAutoWelcomeMessage h whatsappId sent w in
  let greeting := getMessage h (js "messages.welcome.initial") in
  (In whatsappId sent \/ mapHas whatsappId (userSessions w) = true ->
   ok = false /\ sent' = sent /\ w' = w) /\
  (~ In whatsappId sent -> mapHas whatsappId (userSessions w) = false ->
   (transport w (sendCount w) = true ->
    ok = true /\ outbox w' = outbox w ++ [(whatsappId, greeting)] /\
    In whatsappId sent' /\
    userSessions w'
    = userSessions w
      ++ [(whatsappId,
           newSession (stateUpdate WAITING_INITIAL_RESPONSE (js "initial_response"))
                      (clock w))] /\
    (forall other, In other sent -> In other sent')) /\
   (transport w (sendCount w) = false ->
    ok = false /\ outbox w' = outbox w /\ ~ In whatsappId sent' /\
    userSessions w' = userSessions w /\
    (forall other, In other sent' <-> In other sent))).
Proof.
  unfold sendAutoWelcomeMessage.
  destruct (setHas whatsappId sent) eqn:Es.
  { apply setHas_In in Es. split; [intros _; now repeat split|]. intros Hn. contradiction. }
  destruct (mapHas whatsappId (userSessions w)) eqn:Em.
  { split; [intros _; now repeat split|]. intros _ Hf. discriminate. }
  assert (Hnot : ~ In whatsappId sent).
  { intros Hin. apply setHas_In in Hin. congruence. }
  destruct (send_outcome whatsappId (getMessage h (js "messages.welcome.initial")) w)
    as [Hok Hfail].
  unfold bind. destruct (transport w (sendCount w)) eqn:Et.
  - destruct (Hok eq_refl) as (w1 & -> & Ho1 & Hu1 & Hc1).
    destruct (createOrUpdateSession_new whatsappId
                (stateUpdate WAITING_INITIAL_RESPONSE (js "initial_response")) w1)
      as (w2 & -> & Hu2 & Ho2).
    { apply mapHas_false_mapGet. now rewrite Hu1. }
    split; [intros [Hin|Hf]; [contradiction|discriminate]|].
    intros _ _. split; [|discriminate]. intros _.
    split; [reflexivity|]. split; [congruence|]. split; [|split].
    + apply setAdd_In. now left.
    + rewrite Hu2, Hu1, Hc1. reflexivity.
    + intros other Ho. apply setAdd_In. now right.
  - destruct (Hfail eq_refl) as (w1 & -> & Ho1 & Hu1).
    split; [intros [Hin|Hf]; [contradiction|discriminate]|].
    intros _ _. split; [discriminate|]. intros _.
    split; [reflexivity|]. split; [exact Ho1|]. split; [|split; [exact Hu1|]].
    + rewrite setDelete_In. tauto.
    + intros other. rewrite setDelete_In, setAdd_In. split.
      * intros [[->|H] Hne]; [contradiction|exact H].
      * intros H. split; [now right|]. intros ->. contradiction.
Qed.

(** [sendAutoWelcomeMessage]: an identifier already welcomed, or with a
    session, gets nothing and nothing changes.  Otherwise, if the message is
    delivered, the outbox gains exactly the greeting for the identifier, the
    identifier is marked as welcomed and a session waiting for the initial
    response is created; if the send fails, the mark is withdrawn and no
    session is created, so that the welcome can be tried again. *)
Theorem welcome_once_or_retry
    (h : Host) (whatsappId : JsString) (sent : list JsString) (w : World) :
  let '(ok, sent', w') := sendAutoWelcomeMessage h whatsappId sent w in
  let greeting := getMessage h (js "messages.welcome.initial") in
  (In whatsappId sent \/ mapHas whatsappId (userSessions w) = true ->
   ok = false /\ sent' = sent /\ w' = w) /\
  (~ In whatsappId sent -> mapHas whatsappId (userSessions w) = false ->
   (transport w (sendCount w) = true ->
    ok = true /\ outbox w' = outbox w ++ [(whatsappId, greeting)] /\
    In whatsappId sent' /\
    userSessions w'
    = userSessions w
      ++ [(whatsappId,
           newSession (stateUpdate WAITING_INITIAL_RESPONSE (js "initial_response"))
                      (clock w))]) /\
   (transport w (sendCount w) = false ->
    ok = false /\ outbox w' = outbox w /\ ~ In whatsappId sent' /\
    userSessions w' = userSessions w /\
    (forall other, In other sent' <-> In other sent))).
Proof.
  pose proof (sendAutoWelcomeMessage_cases h whatsappId sent w) as H.
  destruct (sendAutoWelcomeMessage h whatsappId sent w) as [[ok sent'] w'].
  cbv zeta in *. destruct H as [H1 H2]. split; [exact H1|].
  intros Hn Hm. destruct (H2 Hn Hm) as [Hd Hf]. split; [|exact Hf].
  intros Ht. destruct (Hd Ht) as (A & B & C & D & _). now repeat split.
Qed.

Lemma delay_keeps ms w :
  outbox (worldOf (delay ms w)) = outbox w /\
  userSessions (worldOf (delay ms w)) = userSessions w.
Proof.
  unfold delay. destruct (saveTimeout w) as [due|]; [|now split].
  destruct (due <=? ms); [|now split].
  unfold bind, modify.
  set (w1 := setClock _ _).
  pose proof (executeSave_outbox w1) as Ho.
  destruct (executeSave_returns w1) as (w2 & E & (Hu & _)).
  rewrite E in *. cbn [worldOf] in *. split; [exact Ho|exact Hu].
Qed.

Lemma sentTo_app id a b : sentTo id (a ++ b) = (sentTo id a + sentTo id b)%nat.
Proof. unfold sentTo. now rewrite filter_app, length_app. Qed.

Lemma mapHas_app {A} k (m1 m2 : list (JsString * A)) :
  mapHas k (m1 ++ m2) = mapHas k m1 || mapHas k m2.
Proof.
  induction m1 as [|[k' v] m1 IH]; cbn [app mapHas]; [reflexivity|].
  now rewrite IH, orb_assoc.
Qed.

Lemma welcomes_at_most_once (h : Host) : forall targets sent w,
  let '(sent', w') := sendWelcomeToNewTargetNumbers h targets sent w in
  forall id,
    (sentTo id (outbox w') <= sentTo id (outbox w) + 1)%nat /\
    (In id sent \/ mapHas id (userSessions w) = true ->
     sentTo id (outbox w') = sentTo id (outbox w)).
Proof.
  induction targets as [|phoneNumber rest IH]; intros sent w.
  - cbn [sendWelcomeToNewTargetNumbers]. intros id. split; [lia|reflexivity].
  - cbn [sendWelcomeToNewTargetNumbers].
    set (id0 := whatsappIdOf phoneNumber).
    destruct (mapHas id0 (userSessions w)) eqn:Em; cbn [negb andb]; [apply IH|].
    destruct (setHas id0 sent) eqn:Es; cbn [negb andb]; [apply IH|].
    assert (Hnot : ~ In id0 sent).
    { intros Hin. apply setHas_In in Hin. congruence. }
    pose proof (sendAutoWelcomeMessage_cases h id0 sent w) as Hc.
    destruct (sendAutoWelcomeMessage h id0 sent w) as [[ok sent1] w1].
    cbv zeta in Hc. destruct Hc as [_ Hc]. specialize (Hc Hnot Em).
    destruct Hc as [Hd Hf].
    destruct (delay_keeps 2000 w1) as [Ho2 Hu2].
    specialize (IH sent1 (worldOf (delay 2000 w1))).
    destruct (sendWelcomeToNewTargetNumbers h rest sent1 _) as [sent' w'].
    intros id. destruct (IH id) as [IH1 IH2]. rewrite Ho2, Hu2 in *.
    destruct (transport w (sendCount w)) eqn:Et.
    + destruct (Hd eq_refl) as (_ & Ho1 & Hin1 & Hu1 & Hmono).
      rewrite Ho1, Hu1 in *. rewrite sentTo_app in *.
      destruct (str_eqb id0 id) eqn:Eid.
      * apply str_eqb_eq in Eid. subst id.
        rewrite (IH2 (or_introl Hin1)).
        unfold sentTo at 2 4. cbn [filter fst]. rewrite str_eqb_refl. cbn [length].
        split; [lia|]. intros [Hin|Hm]; [contradiction|congruence].
      * assert (Hz : sentTo id [(id0, getMessage h (js "messages.welcome.initial"))] = 0%nat).
        { unfold sentTo. cbn [filter fst]. now rewrite Eid. }
        rewrite Hz, Nat.add_0_r in *. split; [exact IH1|].
        intros [Hin|Hm]; apply IH2.
        -- left. now apply Hmono.
        -- right. rewrite mapHas_app, Hm. reflexivity.
    + destruct (Hf eq_refl) as (_ & Ho1 & _ & Hu1 & Hsame).
      rewrite Ho1, Hu1 in *. split; [exact IH1|].
      intros [Hin|Hm]; apply IH2; [left; now apply Hsame|now right].
Qed.

(** [sendWelcomeToNewTargetNumbers] sends each identifier at most one
    message, also when the target list names a number more than once and
    whatever sends fail; an identifier that was already welcomed or already
    had a session receives none. *)
Theorem each_target_is_welcomed_at_most_once
    (h : Host) (targets : list Json) (sent : list JsString) (w : World)
    (whatsappId : JsString) :
  let w' := snd (sendWelcomeToNewTargetNumbers h targets sent w) in
  (sentTo whatsappId (outbox w') <= sentTo whatsappId (outbox w) + 1)%nat /\
  (In whatsappId sent \/ mapHas whatsappId (userSessions w) = true ->
   sentTo whatsappId (outbox w') = sentTo whatsappId (outbox w)).
Proof.
  cbv zeta. pose proof (welcomes_at_most_once h targets sent w) as H.
  destruct (sendWelcomeToNewTargetNumbers h targets sent w) as [sent' w'].
  exact (H whatsappId).
Qed.

(** The identifier built for a target given as a string without [@] passes
    [isTargetPhoneNumber]; a target given as anything but a string (a JSON
    number, say) matches no identifier, so the replies to the welcome sent
    to it are not taken for those of a target. *)
Theorem target_check_needs_strings (targets : list Json) :
  (forall phone, In (JStr phone) targets -> ~ In 64 phone ->
     isTargetPhoneNumber targets (whatsappIdOf (JStr phone)) = true) /\
  (forall whatsappId,
     isTargetPhoneNumber targets whatsappId = true <->
     In (JStr (extractPhoneNumber whatsappId)) targets).
Proof.
  assert (Hiff : forall whatsappId,
     isTargetPhoneNumber targets whatsappId = true <->
     In (JStr (extractPhoneNumber whatsappId)) targets).
  { intros id. unfold isTargetPhoneNumber. rewrite existsb_exists. split.
    - intros (v & Hin & Hv). unfold isStr in Hv.
      destruct v; try discriminate. apply str_eqb_eq in Hv. now subst.
    - intros Hin. eexists. split; [exact Hin|]. cbn [isStr]. apply str_eqb_refl. }
  split; [|exact Hiff].
  intros phone Hin Hat. apply Hiff. unfold whatsappIdOf. cbn [jsonToString].
  assert (E : extractPhoneNumber (phone ++ js "@c.us") = phone).
  { clear Hin. induction phone as [|c p IH]; [reflexivity|].
    cbn [app extractPhoneNumber]. destruct (c =? 64) eqn:Ec.
    - apply Z.eqb_eq in Ec. exfalso. apply Hat. now left.
    - f_equal. apply IH. intros H. apply Hat. now right. }
  now rewrite E.
Qed.

(** After [resumeInterruptedConversations], with a timeout that is not
    negative, no session is expired unless it is idle or has no state: the
    others, the completed ones included, have just been active.  The idle
    and stateless sessions are as they were, nothing is sent, and nothing is
    queued for saving or written. *)
Theorem resume_refreshes_all_but_idle (h : Host) (w : World) :
  0 <= sessionTimeoutDays h ->
  exists w',
    resumeInterruptedConversations w = Returned tt w' /\
    map fst (userSessions w') = map fst (userSessions w) /\
    (forall id s', In (id, s') (userSessions w') ->
       (isSkippedOnResume s' = true /\ In (id, s') (userSessions w)) \/
       (isSkippedOnResume s' = false /\ lastActivity s' = Some (clock w) /\
        isExpired h (clock w) s' = false /\
        exists s, In (id, s) (userSessions w) /\ s' = touch (clock w) s)) /\
    outbox w' = outbox w /\ saveQueue w' = saveQueue w /\
    sessionsFile w' = sessionsFile w /\ callScheduleFile w' = callScheduleFile w.
Proof.
  intros Ht. eexists. split; [reflexivity|].
  cbn [userSessions setSessions outbox saveQueue sessionsFile callScheduleFile].
  split; [|split; [|now repeat split]].
  - rewrite map_map. apply map_ext. intros [id s]. cbn [fst snd].
    now destruct (isSkippedOnResume s).
  - intros id s' Hin. apply in_map_iff in Hin. destruct Hin as ([id0 s] & E & Hin).
    cbn [fst snd] in E. destruct (isSkippedOnResume s) eqn:Ek.
    + injection E as <- <-. left. now split.
    + injection E as <- <-. right.
      assert (Hk : isSkippedOnResume (touch (clock w) s) = false) by exact Ek.
      split; [exact Hk|]. split; [reflexivity|]. split.
      * unfold isExpired. cbn [touch lastActivity]. apply Z.ltb_ge. lia.
      * now exists s.
Qed.

Lemma resume_refreshes_all_but_idle_witness :
  exists w',
    resumeInterruptedConversations twoSessions = Returned tt w' /\
    map fst (userSessions w') = [js "111@c.us"; js "222@c.us"] /\
    outbox w' = [].
Proof.
  destruct (resume_refreshes_all_but_idle (refHost None) twoSessions)
    as (w' & E & Hk & _ & Ho & _).
  - cbn. lia.
  - exists w'. split; [exact E|]. split; [exact Hk|exact Ho].
Defined.

(** ** The handlers that settle the call time *)

Lemma keeps_ret {A} (a : A) : keepsBookings (ret a).
Proof. intros w. reflexivity. Qed.

Lemma keeps_throw {A} : keepsBookings (@throw A).
Proof. intros w. reflexivity. Qed.

Lemma keeps_gets {A} (f : World -> A) : keepsBookings (gets f).
Proof. intros w. reflexivity. Qed.

Lemma keeps_bind {A B} (m : M A) (k : A -> M B) :
  keepsBookings m -> (forall a, keepsBookings (k a)) -> keepsBookings (bind m k).
Proof.
  intros Hm Hk w. unfold bind. specialize (Hm w).
  destruct (m w) as [a w1|w1]; cbn [worldOf] in *; [rewrite (Hk a w1)|]; exact Hm.
Qed.

Lemma keeps_tryCatch {A} (m handler : M A) :
  keepsBookings m -> keepsBookings handler -> keepsBookings (tryCatch m handler).
Proof.
  intros Hm Hh w. unfold tryCatch. specialize (Hm w).
  destruct (m w) as [a w1|w1]; cbn [worldOf] in *; [|rewrite (Hh w1)]; exact Hm.
Qed.

Lemma keeps_reply from text : keepsBookings (reply from text).
Proof. intros w. unfold reply, send. now destruct (transport w (sendCount w)). Qed.

Lemma keeps_markForSave id why : keepsBookings (markForSave id why).
Proof.
  intros w. destruct (markForSave_returns id why w) as (w' & E & (_ & _ & H & _)).
  now rewrite E.
Qed.

Lemma keeps_createOrUpdateSession id u : keepsBookings (createOrUpdateSession id u).
Proof.
  intros w. unfold createOrUpdateSession.
  destruct (mapGet id (userSessions w)); unfold bind;
    match goal with |- context [markForSave ?a ?b ?x] =>
      destruct (markForSave_returns a b x) as (w' & E & (_ & _ & H & _)) end;
    rewrite E; exact H.
Qed.

Ltac frame :=
  repeat first
    [ apply keeps_reply
    | apply keeps_createOrUpdateSession
    | apply keeps_markForSave
    | apply keeps_tryCatch
    | apply keeps_bind; [|intros ?]
    | apply keeps_ret
    | apply keeps_gets
    | apply keeps_throw
    | progress cbv zeta
    | match goal with
      | |- keepsBookings (if ?b then _ else _) => destruct b
      | |- keepsBookings (match ?x with _ => _ end) => destruct x
      end ].

Lemma parse_immediate h laterDateRows timeRows text now :
  tp_immediate (parseTimeExpression h laterDateRows timeRows text now)
  = isImmediate h text.
Proof.
  unfold parseTimeExpression. destruct (isImmediate h text); [reflexivity|].
  destruct (tp_success _); [destruct (_ && _)|]; reflexivity.
Qed.

Lemma parse_success h laterDateRows timeRows text now :
  tp_success (parseTimeExpression h laterDateRows timeRows text now) = true.
Proof.
  unfold parseTimeExpression. destruct (isImmediate h text); [reflexivity|].
  unfold parseTimeWithTinyLlama. cbn [tp_success tp_hasDate tp_hasTime].
  destruct (_ && _); reflexivity.
Qed.

Section CallTimeFacts.
Variable h : Host.
Variable from : JsString.
Variable laterDateRows : JsString -> Z -> option JsString.
Variable timeRows : JsString -> Z -> option JsString.
Variable momentDate : JsString -> option Z.
Variable momentTime : Z -> JsString -> option Z.

Lemma keeps_handlePast date time now text :
  keepsBookings (handlePastDateTimeValidation h from date time now text).
Proof. unfold handlePastDateTimeValidation. frame. Qed.

Lemma keeps_refuseSlot conflict again st question :
  keepsBookings (refuseSlot h from conflict again st question).
Proof. unfold refuseSlot. frame. Qed.

(** A booking is written only by a confirmation answered positively and by
    an immediate request: whatever the session, the message and the state of
    the world, and whether they return or throw, the handlers of a date, of a
    time, of a call time that is not immediate, of the greeting, of the
    initial and clarifying answers, of the reason, and of a confirmation
    that is not answered positively all leave the schedule file as it was. *)
Theorem bookings_have_two_writers (session : Session) (body : JsString) :
  keepsBookings (handleDateResponse h from laterDateRows timeRows session body) /\
  keepsBookings (handleTimeResponse h from laterDateRows timeRows session body) /\
  (isImmediate h body = false ->
   keepsBookings (handleCallTimeResponse h from laterDateRows timeRows
                    momentDate momentTime session body)) /\
  keepsBookings (handleGreeting from) /\
  keepsBookings (handleInitialResponse h from session body) /\
  keepsBookings (handleClarificationResponse h from session body) /\
  keepsBookings (handleReasonResponse h from session body) /\
  (analyzeSentiment h body yes_no_question <> positive ->
   keepsBookings (handleScheduleConfirmation h from session body)).
Proof.
  repeat apply conj.
  - unfold handleDateResponse. frame; apply keeps_handlePast.
  - unfold handleTimeResponse. frame;
      first [apply keeps_handlePast | apply keeps_refuseSlot].
  - intros Hi. unfold handleCallTimeResponse.
    apply keeps_tryCatch; [|apply keeps_reply].
    apply keeps_bind; [apply keeps_gets|]. intros now.
    rewrite !parse_immediate, Hi.
    frame; first [apply keeps_handlePast | apply keeps_refuseSlot].
  - unfold handleGreeting. frame.
  - unfold handleInitialResponse. frame.
  - unfold handleClarificationResponse. frame.
  - unfold handleReasonResponse. frame.
  - intros Hs. unfold handleScheduleConfirmation.
    destruct (analyzeSentiment h body yes_no_question); [contradiction| |]; frame.
Qed.

Lemma tryCatch_returned {A} (m handler : M A) w a w1 :
  m w = Returned a w1 -> tryCatch m handler w = Returned a w1.
Proof. intros E. unfold tryCatch. now rewrite E. Qed.

Lemma tryCatch_thrown {A} (m handler : M A) w w1 :
  m w = Thrown w1 -> tryCatch m handler w = handler w1.
Proof. intros E. unfold tryCatch. now rewrite E. Qed.

Lemma bind_returned {A B} (m : M A) (k : A -> M B) w a w1 :
  m w = Returned a w1 -> bind m k w = k a w1.
Proof. intros E. unfold bind. now rewrite E. Qed.

Lemma bind_thrown {A B} (m : M A) (k : A -> M B) w w1 :
  m w = Thrown w1 -> bind m k w = Thrown w1.
Proof. intros E. unfold bind. now rewrite E. Qed.

Lemma bind_gets {A B} (f : World -> A) (k : A -> M B) w :
  bind (gets f) k w = k (f w) w.
Proof. reflexivity. Qed.

Lemma past_redirect date time now text w s :
  mapGet from (userSessions w) = Some s ->
  (forall k, transport w k = true) ->
  isDateTimeInPast h (toStringJs date) (toStringJs time) now text = true ->
  exists w' s',
    handlePastDateTimeValidation h from date time now text w = Returned true w' /\
    mapGet from (userSessions w') = Some s' /\
    state s' = Some (JStr ASKING_CALL_TIME) /\
    partialSchedule s' = Some JNull /\ pendingSchedule s' = Some JNull /\
    pastDateAttempt s'
    = Some (JObj [ (js "attemptedDateTime", JStr (longForm h date time));
                   (js "originalText", JStr text);
                   (js "timestamp", JStr (toISOString (clock w))) ]) /\
    callScheduleFile w' = callScheduleFile w.
Proof.
  intros Hs Hup Hpast. unfold handlePastDateTimeValidation. rewrite Hpast.
  unfold reply.
  destruct (send_returns from
              (replaceFirst (message h "messages.errors.pastDateTime")
                 (js "{datetime}") (longForm h date time)) w Hup)
    as (w1 & E1 & (A1 & A2 & A3 & A4 & A5)).
  rewrite (bind_returned _ _ _ _ _ E1), bind_gets.
  assert (Hs1 : mapGet from (userSessions w1) = Some s) by (rewrite A1; exact Hs).
  match goal with
  | |- context [createOrUpdateSession from ?u] =>
      destruct (createOrUpdateSession_existing from u w1 s Hs1)
        as (w2 & E2 & B1 & B2 & B3 & B4 & B5)
  end.
  rewrite (bind_returned _ _ _ _ _ E2).
  exists w2. eexists. split; [reflexivity|].
  rewrite B1, mapGet_mapSet. split; [reflexivity|].
  cbn [assign state partialSchedule pendingSchedule pastDateAttempt pick
       u_state u_partialSchedule u_pendingSchedule u_pastDateAttempt].
  rewrite A4. repeat split. congruence.
Qed.

Lemma not_past date time now text w :
  isDateTimeInPast h (toStringJs date) (toStringJs time) now text = false ->
  handlePastDateTimeValidation h from date time now text w = Returned false w.
Proof. intros E. unfold handlePastDateTimeValidation. now rewrite E. Qed.

Lemma refuseSlot_run conflict again st question w s :
  mapGet from (userSessions w) = Some s ->
  (forall k, transport w k = true) ->
  exists w' s',
    refuseSlot h from conflict again st question w = Returned tt w' /\
    mapGet from (userSessions w') = Some s' /\
    state s' = Some (JStr st) /\
    partialSchedule s' = Some JNull /\ pendingSchedule s' = Some JNull /\
    callScheduleFile w' = callScheduleFile w.
Proof.
  intros Hs Hup. unfold refuseSlot. unfold reply at 1.
  match goal with
  | |- context [bind (send from ?text)] =>
      destruct (send_returns from text w Hup) as (w1 & E1 & (A1 & A2 & A3 & A4 & A5))
  end.
  rewrite (bind_returned _ _ _ _ _ E1).
  assert (Hs1 : mapGet from (userSessions w1) = Some s) by (rewrite A1; exact Hs).
  assert (Hup1 : forall k, transport w1 k = true) by (intros k; rewrite A2; apply Hup).
  match goal with
  | |- context [createOrUpdateSession from ?u] =>
      destruct (reply_then_update from (message h again) u w1 s Hs1 Hup1)
        as (w2 & E2 & B1 & B2 & B3 & B4 & B5)
  end.
  rewrite E2. exists w2. eexists. split; [reflexivity|].
  split; [exact B1|]. repeat split. congruence.
Qed.

Lemma time_answer_refused (s : Session) (body : JsString) (w : World)
                           (date : option Json) :
  mapGet from (userSessions w) = Some s ->
  (forall k, transport w k = true) ->
  getProp (partialSchedule s) (js "date") = Some date ->
  tp_hasTime (parseTimeExpression h laterDateRows timeRows body (clock w)) = true ->
  let time :=
    textOrNull (tp_time (parseTimeExpression h laterDateRows timeRows body (clock w))) in
  isDateTimeInPast h (toStringJs date) (toStringJs time) (clock w) body = false ->
  hasConflict (checkTimeConflict h (callScheduleFile w) date time
                 (Some (extractPhoneNumber from))) = true ->
  exists w' s',
    handleTimeResponse h from laterDateRows timeRows s body w = Returned tt w' /\
    mapGet from (userSessions w') = Some s' /\
    state s' = Some (JStr ASKING_DATE) /\
    partialSchedule s' = Some JNull /\ pendingSchedule s' = Some JNull /\
    callScheduleFile w' = callScheduleFile w.
Proof.
  intros Hs Hup Hdate Htime time Hpast Hc.
  unfold handleTimeResponse.
  set (r := parseTimeExpression h laterDateRows timeRows body (clock w)) in *.
  destruct (refuseSlot_run
              (checkTimeConflict h (callScheduleFile w) date time
                 (Some (extractPhoneNumber from)))
              "messages.questions.askDate" ASKING_DATE (js "date") w s Hs Hup)
    as (w' & s' & E & Hget & Hst & Hpart & Hpend & Hfile).
  exists w', s'. split; [|now repeat split].
  apply tryCatch_returned. rewrite bind_gets. cbv zeta. fold r.
  unfold r at 1. rewrite parse_success. fold r. rewrite Htime. cbn [andb].
  rewrite Hdate. fold time.
  rewrite (bind_returned _ _ _ _ _ (not_past date time (clock w) body w Hpast)).
  rewrite bind_gets, Hc. exact E.
Qed.

(** An answer to the question for the time, given by a caller whose session
    holds the date asked before and in which a time is found, is settled in
    one of three ways when the replies are delivered.  A date and time in
    the past send the caller back to the question for the call time, with
    both stored schedules cleared.  A slot that conflicts with another
    caller's booking sends the caller to the question for the date, again
    with both schedules cleared.  Otherwise the session waits for the
    confirmation of the stored date and the new time, and the part stored
    before stays in place.  In no case is the schedule file written. *)
Theorem time_answer_outcomes (s : Session) (body : JsString) (w : World)
                             (date : option Json) :
  mapGet from (userSessions w) = Some s ->
  (forall k, transport w k = true) ->
  getProp (partialSchedule s) (js "date") = Some date ->
  tp_hasTime (parseTimeExpression h laterDateRows timeRows body (clock w)) = true ->
  let time :=
    textOrNull (tp_time (parseTimeExpression h laterDateRows timeRows body (clock w))) in
  exists w' s',
    handleTimeResponse h from laterDateRows timeRows s body w = Returned tt w' /\
    mapGet from (userSessions w') = Some s' /\
    callScheduleFile w' = callScheduleFile w /\
    if isDateTimeInPast h (toStringJs date) (toStringJs time) (clock w) body then
      state s' = Some (JStr ASKING_CALL_TIME) /\
      partialSchedule s' = Some JNull /\ pendingSchedule s' = Some JNull
    else if hasConflict (checkTimeConflict h (callScheduleFile w) date time
                           (Some (extractPhoneNumber from))) then
      state s' = Some (JStr ASKING_DATE) /\
      partialSchedule s' = Some JNull /\ pendingSchedule s' = Some JNull
    else
      state s' = Some (JStr CONFIRMING_SCHEDULE) /\
      pendingSchedule s' = Some (combinedSchedule s date time body) /\
      partialSchedule s' = partialSchedule s.
Proof.
  intros Hs Hup Hdate Htime time.
  unfold handleTimeResponse.
  set (r := parseTimeExpression h laterDateRows timeRows body (clock w)) in *.
  destruct (isDateTimeInPast h (toStringJs date) (toStringJs time) (clock w) body)
    eqn:Hpast.
  - destruct (past_redirect date time (clock w) body w s Hs Hup Hpast)
      as (w' & s' & E & Hget & Hst & Hpart & Hpend & _ & Hfile).
    exists w', s'. split; [|now repeat split].
    apply tryCatch_returned. rewrite bind_gets. cbv zeta. fold r.
    unfold r at 1. rewrite parse_success. fold r. rewrite Htime. cbn [andb].
    rewrite Hdate. fold time. now rewrite (bind_returned _ _ _ _ _ E).
  - destruct (hasConflict (checkTimeConflict h (callScheduleFile w) date time
                             (Some (extractPhoneNumber from)))) eqn:Hc.
    + destruct (time_answer_refused s body w date Hs Hup Hdate Htime Hpast Hc)
        as (w' & s' & E & Hget & Hst & Hpart & Hpend & Hfile).
      exists w', s'. split; [exact E|]. now repeat split.
    + destruct (reply_then_update from
                  (js "Excellent! Just to confirm, you'd like me to call on "
                   ++ longForm h date time ++ js ", right?")
                  (confirming (combinedSchedule s date time body)) w s Hs Hup)
        as (w' & E & Hget & _ & Hfile & _).
      exists w'. eexists. split; [|split; [exact Hget|split; [exact Hfile|]]].
      * apply tryCatch_returned. rewrite bind_gets. cbv zeta. fold r.
        unfold r at 1. rewrite parse_success. fold r. rewrite Htime. cbn [andb].
        rewrite Hdate. fold time.
        rewrite (bind_returned _ _ _ _ _ (not_past date time (clock w) body w Hpast)).
        rewrite bind_gets, Hc. exact E.
      * repeat split.
Qed.

Lemma keepsS_reply (to text : JsString) : keepsSessions (reply to text).
Proof. intros w. unfold reply, send. now destruct (transport w (sendCount w)). Qed.

Lemma keepsS_bind {A B} (m : M A) (k : A -> M B) :
  keepsSessions m -> (forall a, keepsSessions (k a)) -> keepsSessions (bind m k).
Proof.
  intros Hm Hk w. unfold bind. specialize (Hm w).
  destruct (m w) as [a w1|w1]; cbn [worldOf] in *; [rewrite (Hk a w1)|]; exact Hm.
Qed.

Lemma keepsS_tryCatch {A} (m handler : M A) :
  keepsSessions m -> keepsSessions handler -> keepsSessions (tryCatch m handler).
Proof.
  intros Hm Hh w. unfold tryCatch. specialize (Hm w).
  destruct (m w) as [a w1|w1]; cbn [worldOf] in *; [|rewrite (Hh w1)]; exact Hm.
Qed.

Lemma date_answer_needs_the_time (s : Session) (body : JsString) :
  getProp (partialSchedule s) (js "time") = None ->
  keepsSessions (handleDateResponse h from laterDateRows timeRows s body).
Proof.
  intros Hnone. unfold handleDateResponse.
  apply keepsS_tryCatch; [|apply keepsS_reply].
  apply keepsS_bind; [intros w; reflexivity|]. intros now. cbv zeta.
  rewrite Hnone. destruct (_ && _); [intros w; reflexivity|apply keepsS_reply].
Qed.

(** A refused time is a dead end.  When the answer to the question for the
    time gives a slot that is not in the past but conflicts with another
    caller's booking, the session is sent to the question for the date with
    its stored part cleared.  The handler of that state reads the time out
    of the stored part: from then on, whatever the caller writes and
    whatever the state of the world, it changes no session and writes no
    booking, so the session stays at the question for the date. *)
Theorem refused_time_answer_is_a_dead_end (s : Session) (body : JsString) (w : World)
                                          (date : option Json) :
  mapGet from (userSessions w) = Some s ->
  (forall k, transport w k = true) ->
  getProp (partialSchedule s) (js "date") = Some date ->
  tp_hasTime (parseTimeExpression h laterDateRows timeRows body (clock w)) = true ->
  let time :=
    textOrNull (tp_time (parseTimeExpression h laterDateRows timeRows body (clock w))) in
  isDateTimeInPast h (toStringJs date) (toStringJs time) (clock w) body = false ->
  hasConflict (checkTimeConflict h (callScheduleFile w) date time
                 (Some (extractPhoneNumber from))) = true ->
  exists w' s',
    handleTimeResponse h from laterDateRows timeRows s body w = Returned tt w' /\
    mapGet from (userSessions w') = Some s' /\
    route (state s') = HandleDateResponse /\
    forall (later : JsString) (w2 : World),
      let o := handleDateResponse h from laterDateRows timeRows s' later w2 in
      userSessions (worldOf o) = userSessions w2 /\
      callScheduleFile (worldOf o) = callScheduleFile w2.
Proof.
  intros Hs Hup Hdate Htime time Hpast Hc.
  destruct (time_answer_refused s body w date Hs Hup Hdate Htime Hpast Hc)
    as (w' & s' & E & Hget & Hst & Hpart & _ & _).
  exists w', s'. split; [exact E|]. split; [exact Hget|].
  split; [rewrite Hst; reflexivity|].
  intros later w2 o. split.
  - apply date_answer_needs_the_time. now rewrite Hpart.
  - subst o. revert w2.
    change (keepsBookings (handleDateResponse h from laterDateRows timeRows s' later)).
    unfold handleDateResponse. frame; apply keeps_handlePast.
Qed.

(** An answer to the question for the date, given by a caller whose session
    holds a time and in which a date is found, is not checked against the
    bookings: when the replies are delivered, a date and time in the past
    send the caller back to the question for the call time with both stored
    schedules cleared, and every other date leads to the confirmation of
    that date and the stored time, whatever the schedule file holds. *)
Theorem date_answer_is_not_checked_for_conflicts (s : Session) (body : JsString)
                                                 (w : World) (time : option Json) :
  mapGet from (userSessions w) = Some s ->
  (forall k, transport w k = true) ->
  getProp (partialSchedule s) (js "time") = Some time ->
  tp_hasDate (parseTimeExpression h laterDateRows timeRows body (clock w)) = true ->
  let date :=
    textOrNull (tp_date (parseTimeExpression h laterDateRows timeRows body (clock w))) in
  exists w' s',
    handleDateResponse h from laterDateRows timeRows s body w = Returned tt w' /\
    mapGet from (userSessions w') = Some s' /\
    callScheduleFile w' = callScheduleFile w /\
    if isDateTimeInPast h (toStringJs date) (toStringJs time) (clock w) body then
      state s' = Some (JStr ASKING_CALL_TIME) /\
      partialSchedule s' = Some JNull /\ pendingSchedule s' = Some JNull
    else
      state s' = Some (JStr CONFIRMING_SCHEDULE) /\
      pendingSchedule s' = Some (combinedSchedule s date time body).
Proof.
  intros Hs Hup Htime Hdate date.
  unfold handleDateResponse.
  set (r := parseTimeExpression h laterDateRows timeRows body (clock w)) in *.
  destruct (isDateTimeInPast h (toStringJs date) (toStringJs time) (clock w) body)
    eqn:Hpast.
  - destruct (past_redirect date time (clock w) body w s Hs Hup Hpast)
      as (w' & s' & E & Hget & Hst & Hpart & Hpend & _ & Hfile).
    exists w', s'. split; [|now repeat split].
    apply tryCatch_returned. rewrite bind_gets. cbv zeta. fold r.
    unfold r at 1. rewrite parse_success. fold r. rewrite Hdate. cbn [andb].
    rewrite Htime. fold date. now rewrite (bind_returned _ _ _ _ _ E).
  - destruct (reply_then_update from
                (js "Perfect! Just to confirm, you'd like me to call on "
                 ++ longForm h date time ++ js ", right?")
                (confirming (combinedSchedule s date time body)) w s Hs Hup)
      as (w' & E & Hget & _ & Hfile & _).
    exists w'. eexists. split; [|split; [exact Hget|split; [exact Hfile|]]].
    + apply tryCatch_returned. rewrite bind_gets. cbv zeta. fold r.
      unfold r at 1. rewrite parse_success. fold r. rewrite Hdate. cbn [andb].
      rewrite Htime. fold date.
      rewrite (bind_returned _ _ _ _ _ (not_past date time (clock w) body w Hpast)).
      exact E.
    + repeat split.
Qed.

Lemma bind_ret {A B} (a : A) (k : A -> M B) w : bind (ret a) k w = k a w.
Proof. reflexivity. Qed.

Lemma parse_complete text now :
  tp_complete (parseTimeExpression h laterDateRows timeRows text now)
  = tp_hasDate (parseTimeExpression h laterDateRows timeRows text now)
    && tp_hasTime (parseTimeExpression h laterDateRows timeRows text now).
Proof.
  unfold parseTimeExpression. destruct (isImmediate h text); [reflexivity|].
  cbn [parseTimeWithTinyLlama tp_success tp_hasDate tp_hasTime].
  destruct (_ && _) eqn:E; cbn [tp_complete tp_hasDate tp_hasTime]; now rewrite E.
Qed.

Lemma parse_partial text now :
  isImmediate h text = false ->
  tp_partial (parseTimeExpression h laterDateRows timeRows text now)
  = negb (tp_hasDate (parseTimeExpression h laterDateRows timeRows text now)
          && tp_hasTime (parseTimeExpression h laterDateRows timeRows text now)).
Proof.
  intros Hi. unfold parseTimeExpression. rewrite Hi.
  cbn [parseTimeWithTinyLlama tp_success tp_hasDate tp_hasTime].
  destruct (_ && _) eqn:E; cbn [tp_partial tp_hasDate tp_hasTime]; now rewrite E.
Qed.

Lemma parse_found_both text now :
  isImmediate h text = true ->
  tp_hasDate (parseTimeExpression h laterDateRows timeRows text now)
  && tp_hasTime (parseTimeExpression h laterDateRows timeRows text now) = true.
Proof. intros Hi. unfold parseTimeExpression. now rewrite Hi. Qed.

(** A request for an immediate call is booked at once, with no question for
    a confirmation and no check against the past: when the replies are
    delivered and no other caller holds a slot near the present minute, the
    session is completed with the present date and time as its final
    schedule, and the booking is written for the caller's number.  When the
    disk refuses the write the session is completed all the same and the
    schedule file is left as it was. *)
Theorem immediate_request_books_at_once (s : Session) (body : JsString) (w : World) :
  mapGet from (userSessions w) = Some s ->
  (forall k, transport w k = true) ->
  isImmediate h body = true ->
  let date := Some (JStr (formatDate (clock w))) in
  let time := Some (JStr (formatTime (clock w))) in
  let scheduleData :=
    [ (js "date", date); (js "time", time);
      (js "formatted",
        Some (JStr (formatDate (clock w) ++ js "::" ++ formatTime (clock w))));
      (js "originalText", Some (JStr body));
      (js "scheduledAt", Some (JStr (toISOString (clock w))));
      (js "immediate", Some (JBool true)) ] in
  hasConflict (checkTimeConflict h (callScheduleFile w) date time
                 (Some (extractPhoneNumber from))) = false ->
  exists w' s',
    handleCallTimeResponse h from laterDateRows timeRows momentDate momentTime
                           s body w = Returned tt w' /\
    mapGet from (userSessions w') = Some s' /\
    state s' = Some (JStr COMPLETED) /\
    finalSchedule s' = Some (JObj (literal scheduleData)) /\
    completedAt s' = Some (JStr (toISOString (clock w))) /\
    callScheduleFile w'
    = if diskWritable w
      then Content (objSet (extractPhoneNumber from)
                           (bookingOf scheduleData (clock w))
                           (tableOf (callScheduleFile w)))
      else callScheduleFile w.
Proof.
  intros Hs Hup Hi date time scheduleData Hc.
  unfold handleCallTimeResponse.
  assert (Hr : parseTimeExpression h laterDateRows timeRows body (clock w)
               = {| tp_success := true;
                    tp_date := Some (formatDate (clock w));
                    tp_time := Some (formatTime (clock w));
                    tp_hasDate := true; tp_hasTime := true;
                    tp_needsDate := false; tp_needsTime := false;
                    tp_formatted :=
                      Some (formatDate (clock w) ++ js "::" ++ formatTime (clock w));
                    tp_complete := true; tp_immediate := true;
                    tp_partial := false |}).
  { unfold parseTimeExpression. now rewrite Hi. }
  set (w1 := if diskWritable w
             then setScheduleFile
                    (Content (objSet (extractPhoneNumber from)
                                     (bookingOf scheduleData (clock w))
                                     (tableOf (callScheduleFile w)))) w
             else w).
  assert (Esave : saveCallSchedule (extractPhoneNumber from) scheduleData w
                  = Returned tt w1).
  { unfold saveCallSchedule, modify, w1, bookingOf, tableOf.
    destruct (diskWritable w), (callScheduleFile w); reflexivity. }
  assert (Hs1 : mapGet from (userSessions w1) = Some s)
    by (unfold w1; destruct (diskWritable w); exact Hs).
  assert (Hup1 : forall k, transport w1 k = true)
    by (unfold w1; destruct (diskWritable w); exact Hup).
  assert (Hc1 : clock w1 = clock w)
    by (unfold w1; destruct (diskWritable w); reflexivity).
  assert (Hf1 : callScheduleFile w1
                = if diskWritable w
                  then Content (objSet (extractPhoneNumber from)
                                       (bookingOf scheduleData (clock w))
                                       (tableOf (callScheduleFile w)))
                  else callScheduleFile w)
    by (unfold w1; destruct (diskWritable w); reflexivity).
  destruct (send_returns from
              (replaceFirst (message h "messages.success.immediateCallScheduled")
                 (js "{time}") (longForm h date time)) w1 Hup1)
    as (w2 & E2 & (A1 & A2 & A3 & A4 & A5)).
  assert (Hs2 : mapGet from (userSessions w2) = Some s) by (rewrite A1; exact Hs1).
  destruct (createOrUpdateSession_existing from
              {| u_state := Some (JStr COMPLETED);
                 u_currentQuestion := Some (JStr (js "completed"));
                 u_data := None; u_waitingForFreeText := None;
                 u_partialSchedule := None; u_pendingSchedule := None;
                 u_finalSchedule := Some (JObj (literal scheduleData));
                 u_clarificationAttempts := None; u_pastDateAttempt := None;
                 u_completedAt := Some (JStr (toISOString (clock w2))) |} w2 s Hs2)
    as (w3 & E3 & B1 & B2 & B3 & B4 & B5).
  exists w3. eexists. split; [|split].
  - apply tryCatch_returned. rewrite bind_gets. cbv zeta. rewrite Hr.
    cbn [tp_success tp_complete tp_immediate tp_date tp_time tp_formatted andb
         textOrNull].
    rewrite bind_ret, bind_gets. fold date time. rewrite Hc, bind_gets.
    fold scheduleData. rewrite (bind_returned _ _ _ _ _ Esave).
    unfold reply. rewrite (bind_returned _ _ _ _ _ E2), bind_gets.
    rewrite (bind_returned _ _ _ _ _ E3). reflexivity.
  - rewrite B1. apply mapGet_mapSet.
  - cbn [assign state finalSchedule completedAt pick u_state u_finalSchedule
         u_completedAt].
    rewrite A4, Hc1, B3, A3, Hf1. repeat split.
Qed.

(** An answer to the question for the call time in which a date or a time
    is missing books nothing.  With a date alone the session moves to the
    question for the time and stores the date; with a time alone it moves to
    the question for the date and stores the time; with neither the caller
    is only prompted again and no session changes. *)
Theorem partial_call_time_answers (s : Session) (body : JsString) (w : World) :
  mapGet from (userSessions w) = Some s ->
  (forall k, transport w k = true) ->
  let r := parseTimeExpression h laterDateRows timeRows body (clock w) in
  tp_hasDate r && tp_hasTime r = false ->
  exists w',
    handleCallTimeResponse h from laterDateRows timeRows momentDate momentTime
                           s body w = Returned tt w' /\
    callScheduleFile w' = callScheduleFile w /\
    if tp_hasDate r then
      exists s',
        mapGet from (userSessions w') = Some s' /\
        state s' = Some (JStr ASKING_TIME) /\
        partialSchedule s'
        = Some (JObj (literal [ (js "date", textOrNull (tp_date r));
                                (js "hasDate", Some (JBool true));
                                (js "hasTime", Some (JBool false));
                                (js "originalText", Some (JStr body)) ]))
    else if tp_hasTime r then
      exists s',
        mapGet from (userSessions w') = Some s' /\
        state s' = Some (JStr ASKING_DATE) /\
        partialSchedule s'
        = Some (JObj (literal [ (js "time", textOrNull (tp_time r));
                                (js "hasDate", Some (JBool false));
                                (js "hasTime", Some (JBool true));
                                (js "originalText", Some (JStr body)) ]))
    else userSessions w' = userSessions w.
Proof.
  intros Hs Hup r Hnot.
  assert (Hi : isImmediate h body = false).
  { destruct (isImmediate h body) eqn:E; [|reflexivity].
    unfold r in Hnot. now rewrite (parse_found_both body (clock w) E) in Hnot. }
  assert (Hhead : forall k1 k2 k3 : M unit,
            (if tp_success r && tp_complete r then k1
             else if tp_success r && tp_partial r then k2 else k3) = k2).
  { intros k1 k2 k3. unfold r.
    rewrite parse_success, parse_complete, (parse_partial _ _ Hi).
    fold r. now rewrite Hnot. }
  unfold handleCallTimeResponse.
  destruct (tp_hasDate r) eqn:Hd; [|destruct (tp_hasTime r) eqn:Ht].
  - cbn [andb] in Hnot.
    destruct (reply_then_update from
                (replaceFirst (message h "messages.questions.askTimeForDate")
                   (js "{date}")
                   (formatted formatDay (momentDate (toStringJs (textOrNull (tp_date r))))))
                (withSchedules (stateUpdate ASKING_TIME (js "time_needed"))
                   (Some (JObj (literal [ (js "date", textOrNull (tp_date r));
                                          (js "hasDate", Some (JBool true));
                                          (js "hasTime", Some (JBool false));
                                          (js "originalText", Some (JStr body)) ])))
                   None) w s Hs Hup)
      as (w' & E & Hget & _ & Hfile & _).
    exists w'. split; [|split; [exact Hfile|]].
    + apply tryCatch_returned. rewrite bind_gets. cbv zeta. fold r.
      rewrite Hhead, Hd, Hnot. cbn [andb negb]. exact E.
    + eexists. split; [exact Hget|]. split; reflexivity.
  - destruct (reply_then_update from
                (replaceFirst (message h "messages.questions.askDateForTime")
                   (js "{time}")
                   (formatted formatClock
                      (momentTime (clock w) (toStringJs (textOrNull (tp_time r))))))
                (withSchedules (stateUpdate ASKING_DATE (js "date_needed"))
                   (Some (JObj (literal [ (js "time", textOrNull (tp_time r));
                                          (js "hasDate", Some (JBool false));
                                          (js "hasTime", Some (JBool true));
                                          (js "originalText", Some (JStr body)) ])))
                   None) w s Hs Hup)
      as (w' & E & Hget & _ & Hfile & _).
    exists w'. split; [|split; [exact Hfile|]].
    + apply tryCatch_returned. rewrite bind_gets. cbv zeta. fold r.
      rewrite Hhead, Hd, Ht. cbn [andb negb]. exact E.
    + eexists. split; [exact Hget|]. split; reflexivity.
  - destruct (send_returns from (message h "messages.prompts.provideDateAndTime") w Hup)
      as (w' & E & (A1 & A2 & A3 & A4 & A5)).
    exists w'. split; [|split; [exact A3|exact A1]].
    apply tryCatch_returned. rewrite bind_gets. cbv zeta. fold r.
    rewrite Hhead, Hd, Ht. cbn [andb negb]. exact E.
Qed.

(** An answer to the question for the call time that holds both a date and
    a time, and is no request for an immediate call, books nothing either.
    When the replies are delivered, a date and time in the past and a slot
    that conflicts with another caller's booking both leave the session at
    the question for the call time with its stored schedules cleared;
    otherwise the session waits for the confirmation of the schedule read
    from the message. *)
Theorem complete_call_time_answer (s : Session) (body : JsString) (w : World) :
  mapGet from (userSessions w) = Some s ->
  (forall k, transport w k = true) ->
  isImmediate h body = false ->
  let r := parseTimeExpression h laterDateRows timeRows body (clock w) in
  tp_hasDate r && tp_hasTime r = true ->
  let date := textOrNull (tp_date r) in
  let time := textOrNull (tp_time r) in
  exists w' s',
    handleCallTimeResponse h from laterDateRows timeRows momentDate momentTime
                           s body w = Returned tt w' /\
    mapGet from (userSessions w') = Some s' /\
    callScheduleFile w' = callScheduleFile w /\
    state s'
    = Some (JStr
        (if isDateTimeInPast h (toStringJs date) (toStringJs time) (clock w) body
         then ASKING_CALL_TIME
         else if hasConflict (checkTimeConflict h (callScheduleFile w) date time
                                (Some (extractPhoneNumber from)))
         then ASKING_CALL_TIME
         else CONFIRMING_SCHEDULE)) /\
    if isDateTimeInPast h (toStringJs date) (toStringJs time) (clock w) body
       || hasConflict (checkTimeConflict h (callScheduleFile w) date time
                         (Some (extractPhoneNumber from)))
    then partialSchedule s' = Some JNull /\ pendingSchedule s' = Some JNull
    else pendingSchedule s'
         = Some (JObj (literal [ (js "date", date); (js "time", time);
                                 (js "formatted", textOrNull (tp_formatted r));
                                 (js "originalText", Some (JStr body)) ])).
Proof.
  intros Hs Hup Hi r Hboth date time.
  assert (Hhead : forall k1 k2 : M unit,
            (if tp_success r && tp_complete r then k1 else k2) = k1).
  { intros k1 k2. unfold r. rewrite parse_success, parse_complete.
    fold r. now rewrite Hboth. }
  assert (Him : tp_immediate r = false) by (unfold r; now rewrite parse_immediate).
  unfold handleCallTimeResponse.
  destruct (isDateTimeInPast h (toStringJs date) (toStringJs time) (clock w) body)
    eqn:Hpast.
  - destruct (past_redirect date time (clock w) body w s Hs Hup Hpast)
      as (w' & s' & E & Hget & Hst & Hpart & Hpend & _ & Hfile).
    exists w', s'. split; [|now repeat split].
    apply tryCatch_returned. rewrite bind_gets. cbv zeta. fold r.
    rewrite Hhead, Him. fold date time. now rewrite (bind_returned _ _ _ _ _ E).
  - destruct (hasConflict (checkTimeConflict h (callScheduleFile w) date time
                             (Some (extractPhoneNumber from)))) eqn:Hc.
    + destruct (refuseSlot_run
                  (checkTimeConflict h (callScheduleFile w) date time
                     (Some (extractPhoneNumber from)))
                  "messages.questions.askCallTime" ASKING_CALL_TIME (js "call_time")
                  w s Hs Hup)
        as (w' & s' & E & Hget & Hst & Hpart & Hpend & Hfile).
      exists w', s'. split; [|now repeat split].
      apply tryCatch_returned. rewrite bind_gets. cbv zeta. fold r.
      rewrite Hhead, Him. fold date time.
      rewrite (bind_returned _ _ _ _ _ (not_past date time (clock w) body w Hpast)).
      rewrite bind_gets, Hc. exact E.
    + destruct (reply_then_update from
                  (replaceFirst (message h "messages.confirmations.scheduleConfirm")
                     (js "{formattedTime}") (longForm h date time))
                  (confirming
                     (JObj (literal [ (js "date", date); (js "time", time);
                                      (js "formatted", textOrNull (tp_formatted r));
                                      (js "originalText", Some (JStr body)) ])))
                  w s Hs Hup)
        as (w' & E & Hget & _ & Hfile & _).
      exists w'. eexists. split; [|split; [exact Hget|split; [exact Hfile|]]].
      * apply tryCatch_returned. rewrite bind_gets. cbv zeta. fold r.
        rewrite Hhead, Him. fold date time.
        rewrite (bind_returned _ _ _ _ _ (not_past date time (clock w) body w Hpast)).
        rewrite bind_gets, Hc. exact E.
      * split; reflexivity.
Qed.

End CallTimeFacts.

Lemma time_answer_outcomes_witness :
  exists s',
    mapGet sampleSender
      (userSessions
         (worldOf (handleTimeResponse (refHost None) sampleSender noRows eveningRows
                     sessionWithDate (js "evening")
                     (worldWith sessionWithDate (Content sampleTable)))))
      = Some s' /\
    state s' = Some (JStr CONFIRMING_SCHEDULE).
Proof.
  destruct (time_answer_outcomes (refHost None) sampleSender noRows eveningRows
              sessionWithDate (js "evening")
              (worldWith sessionWithDate (Content sampleTable))
              (Some (JStr (js "15/01/2024")))
              eq_refl (fun _ => eq_refl) eq_refl eq_refl)
    as (w' & s' & E & Hget & _ & Hcase).
  rewrite E. exists s'. split; [exact Hget|].
  vm_compute in Hcase. apply Hcase.
Defined.

Lemma refused_time_answer_is_a_dead_end_witness :
  exists w' s',
    handleTimeResponse (refHost None) sampleSender noRows eveningRows
      sessionWithDate (js "evening")
      (worldWith sessionWithDate (bookedAt "15/01/2024" "18:05"))
    = Returned tt w' /\
    mapGet sampleSender (userSessions w') = Some s' /\
    route (state s') = HandleDateResponse /\
    forall (later : JsString) (w2 : World),
      userSessions
        (worldOf (handleDateResponse (refHost None) sampleSender noRows eveningRows
                    s' later w2))
      = userSessions w2 /\
      callScheduleFile
        (worldOf (handleDateResponse (refHost None) sampleSender noRows eveningRows
                    s' later w2))
      = callScheduleFile w2.
Proof.
  apply (refused_time_answer_is_a_dead_end (refHost None) sampleSender noRows
           eveningRows sessionWithDate (js "evening")
           (worldWith sessionWithDate (bookedAt "15/01/2024" "18:05"))
           (Some (JStr (js "15/01/2024"))));
    [reflexivity|intros k; reflexivity|reflexivity|
     vm_compute; reflexivity|vm_compute; reflexivity|vm_compute; reflexivity].
Defined.

Lemma date_answer_is_not_checked_for_conflicts_witness :
  hasConflict
    (checkTimeConflict (refHost None) (bookedAt "16/01/2024" "10:00")
       (Some (JStr (js "16/01/2024"))) (Some (JStr (js "10:00")))
       (Some (extractPhoneNumber sampleSender))) = true /\
  exists s',
    mapGet sampleSender
      (userSessions
         (worldOf (handleDateResponse (refHost None) sampleSender noRows eveningRows
                     sessionWithTime (js "tomorrow")
                     (worldWith sessionWithTime (bookedAt "16/01/2024" "10:00")))))
      = Some s' /\
    state s' = Some (JStr CONFIRMING_SCHEDULE) /\
    optProp (pendingSchedule s') (js "date") = Some (JStr (js "16/01/2024")).
Proof.
  split; [vm_compute; reflexivity|].
  destruct (date_answer_is_not_checked_for_conflicts (refHost None) sampleSender
              noRows eveningRows sessionWithTime (js "tomorrow")
              (worldWith sessionWithTime (bookedAt "16/01/2024" "10:00"))
              (Some (JStr (js "10:00")))
              eq_refl (fun _ => eq_refl) eq_refl eq_refl)
    as (w' & s' & E & Hget & _ & Hcase).
  rewrite E. exists s'. split; [exact Hget|].
  remember (pendingSchedule s') as pending eqn:Hp.
  vm_compute in Hcase. destruct Hcase as [Hst Hpend].
  split; [exact Hst|]. rewrite Hpend. vm_compute. reflexivity.
Defined.

Lemma immediate_request_books_at_once_witness :
  exists w' s',
    handleCallTimeResponse (refHost None) sampleSender noRows eveningRows
      (fun _ => None) (fun _ _ => None)
      (sessionIn ASKING_CALL_TIME None) (js "now")
      (worldWith (sessionIn ASKING_CALL_TIME None) (bookedAt "16/01/2024" "10:00"))
    = Returned tt w' /\
    mapGet sampleSender (userSessions w') = Some s' /\
    state s' = Some (JStr COMPLETED) /\
    optProp (mapGet (js "911") (tableOf (callScheduleFile w'))) (js "time")
    = Some (JStr (js "10:00")).
Proof.
  destruct (immediate_request_books_at_once (refHost None) sampleSender noRows
              eveningRows (fun _ => None) (fun _ _ => None)
              (sessionIn ASKING_CALL_TIME None) (js "now")
              (worldWith (sessionIn ASKING_CALL_TIME None)
                         (bookedAt "16/01/2024" "10:00"))
              eq_refl (fun _ => eq_refl))
    as (w' & s' & E & Hget & Hst & _ & _ & Hfile);
    [vm_compute; reflexivity|vm_compute; reflexivity|].
  exists w', s'. split; [exact E|]. split; [exact Hget|]. split; [exact Hst|].
  rewrite Hfile. vm_compute. reflexivity.
Defined.

Lemma partial_call_time_answers_witness :
  exists w' s',
    handleCallTimeResponse (refHost None) sampleSender noRows eveningRows
      (fun _ => None) (fun _ _ => None)
      (sessionIn ASKING_CALL_TIME None) (js "tomorrow")
      (worldWith (sessionIn ASKING_CALL_TIME None) (Content sampleTable))
    = Returned tt w' /\
    mapGet sampleSender (userSessions w') = Some s' /\
    state s' = Some (JStr ASKING_TIME) /\
    optProp (partialSchedule s') (js "date") = Some (JStr (js "16/01/2024")).
Proof.
  destruct (partial_call_time_answers (refHost None) sampleSender noRows
              eveningRows (fun _ => None) (fun _ _ => None)
              (sessionIn ASKING_CALL_TIME None) (js "tomorrow")
              (worldWith (sessionIn ASKING_CALL_TIME None) (Content sampleTable))
              eq_refl (fun _ => eq_refl))
    as (w' & E & _ & Hcase); [vm_compute; reflexivity|].
  cbv beta iota zeta in Hcase.
  assert (Hd : tp_hasDate (parseTimeExpression (refHost None) noRows eveningRows
                             (js "tomorrow")
                             (clock (worldWith (sessionIn ASKING_CALL_TIME None)
                                               (Content sampleTable)))) = true)
    by (vm_compute; reflexivity).
  rewrite Hd in Hcase. destruct Hcase as (s' & Hget & Hst & Hpart).
  exists w', s'. split; [exact E|]. split; [exact Hget|]. split; [exact Hst|].
  rewrite Hpart. vm_compute. reflexivity.
Defined.

Lemma complete_call_time_answer_witness :
  exists w' s',
    handleCallTimeResponse (refHost None) sampleSender noRows eveningRows
      (fun _ => None) (fun _ _ => None)
      (sessionIn ASKING_CALL_TIME None) (js "tomorrow evening")
      (worldWith (sessionIn ASKING_CALL_TIME None) (Content sampleTable))
    = Returned tt w' /\
    mapGet sampleSender (userSessions w') = Some s' /\
    state s' = Some (JStr CONFIRMING_SCHEDULE) /\
    optProp (pendingSchedule s') (js "formatted")
    = Some (JStr (js "16/01/2024::18:00")).
Proof.
  destruct (complete_call_time_answer (refHost None) sampleSender noRows
              eveningRows (fun _ => None) (fun _ _ => None)
              (sessionIn ASKING_CALL_TIME None) (js "tomorrow evening")
              (worldWith (sessionIn ASKING_CALL_TIME None) (Content sampleTable))
              eq_refl (fun _ => eq_refl))
    as (w' & s' & E & Hget & _ & Hst & Hcase);
    [vm_compute; reflexivity|vm_compute; reflexivity|].
  exists w', s'. split; [exact E|]. split; [exact Hget|]. split; [exact Hst|].
  remember (pendingSchedule s') as pending eqn:Hp.
  vm_compute in Hcase. rewrite Hcase. vm_compute. reflexivity.
Defined.
